(** * Schedula: authentication and activity-lifecycle rules

    A shallow embedding of the backend of the Schedula to-do scheduler
    (Express route handlers over a Prisma/PostgreSQL store) and the
    properties its specification states about them.

    - JavaScript strings are sequences of UTF-16 code units;
    - timestamps are milliseconds since the epoch;
    - a route handler is a computation over the store that either goes on,
      answers early ([return res.status(..).json(..)]) or throws; the
      [catch] block of the route turns what was thrown into a response;
    - library code the handlers call (zod's string formats, [Date] parsing,
      bcrypt, SHA-256, JWT signing) is an interface, [Externals]. *)

From Stdlib Require Import ZArith NArith List String Ascii Bool Lia.
Import ListNotations.

Open Scope Z_scope.

(** ** JavaScript strings and values *)

(** A JavaScript string: its UTF-16 code units. [s.length] is [length s]. *)
Definition jsstring := list N.

(** The code units of an ASCII literal of the source. *)
Definition js (s : string) : jsstring :=
  map N_of_ascii (list_ascii_of_string s).

Fixpoint jsstring_eqb (a b : jsstring) : bool :=
  match a, b with
  | [], [] => true
  | x :: a', y :: b' => N.eqb x y && jsstring_eqb a' b'
  | _, _ => false
  end.

(** What a field of a JSON request body (or of a query string) can hold.
    [JNum] keeps only an integer: the handlers look at numbers only through
    truthiness and through zod's type test. [JObj] is any object or array. *)
Inductive jsval :=
| JUndefined
| JNull
| JBool (b : bool)
| JNum (z : Z)
| JStr (s : jsstring)
| JObj.

(** JavaScript truthiness, as used by [&&], [!] and [if]. *)
Definition truthy (v : jsval) : bool :=
  match v with
  | JUndefined | JNull => false
  | JBool b => b
  | JNum z => negb (z =? 0)
  | JStr s => match s with [] => false | _ => true end
  | JObj => true
  end.

(** Truthiness of a value already known to be a string. *)
Definition nonEmpty (s : jsstring) : bool :=
  match s with [] => false | _ => true end.

(** A JavaScript [Date]: a time value, or Invalid Date (time value NaN). *)
Inductive JSDate :=
| ValidDate (ms : Z)
| InvalidDate.

(** Relational operators on dates compare time values; every comparison
    with NaN is false. *)
Definition date_le (a b : JSDate) : bool :=
  match a, b with
  | ValidDate x, ValidDate y => x <=? y
  | _, _ => false
  end.

Definition date_ge (a b : JSDate) : bool :=
  match a, b with
  | ValidDate x, ValidDate y => y <=? x
  | _, _ => false
  end.

(** ** Credential utilities (utils/password.ts) *)

Module Password.

(** [/[a-zA-Z]/] *)
Definition isLetter (c : N) : bool :=
  (((65 <=? c) && (c <=? 90)) || ((97 <=? c) && (c <=? 122)))%N.

(** [/[0-9]/] *)
Definition isNumber (c : N) : bool := ((48 <=? c) && (c <=? 57))%N.

(** The members of the character class of the symbol test, in the order
    of the source; code unit 34 is the double quote. *)
Definition symbols : jsstring :=
  js "!@#$%^&*()_+-=[]{};':" ++ [34%N] ++ js "\|,.<>/?".

Definition isSymbol (c : N) : bool := existsb (N.eqb c) symbols.

(** [/[class]/.test(s)]: some code unit of [s] is in the class. *)
Definition test (cls : N -> bool) (s : jsstring) : bool := existsb cls s.

Record Validation := { valid : bool; error : option string }.

Definition validatePasswordStrength (password : jsstring) : Validation :=
  if (Z.of_nat (List.length password) <? 8) then
    {| valid := false;
       error := Some "Password must be at least 8 characters long"%string |}
  else
    let hasLetter := test isLetter password in
    let hasNumber := test isNumber password in
    let hasSymbol := test isSymbol password in
    if negb hasLetter then
      {| valid := false;
         error := Some "Password must include at least one letter"%string |}
    else if negb hasNumber then
      {| valid := false;
         error := Some "Password must include at least one number"%string |}
    else if negb hasSymbol then
      {| valid := false;
         error := Some "Password must include at least one symbol"%string |}
    else {| valid := true; error := None |}.

(** *** The rules as the specification words them *)

Inductive Rule := RLength | RLetter | RDigit | RSymbol.

(** The fixed punctuation set. *)
Definition punctuation : list N :=
  [33; 64; 35; 36; 37; 94; 38; 42; 40; 41; 95; 43; 45; 61; 91; 93; 123;
   125; 59; 39; 58; 34; 92; 124; 44; 46; 60; 62; 47; 63]%N.

Definition holds (r : Rule) (p : jsstring) : Prop :=
  match r with
  | RLength => (8 <= List.length p)%nat
  | RLetter => exists c, In c p /\ ((65 <= c <= 90) \/ (97 <= c <= 122))%N
  | RDigit => exists c, In c p /\ (48 <= c <= 57)%N
  | RSymbol => exists c, In c p /\ In c punctuation
  end.

(** The order in which the rules are tried. *)
Definition rank (r : Rule) : nat :=
  match r with RLength => 0 | RLetter => 1 | RDigit => 2 | RSymbol => 3 end.

Definition message (r : Rule) : string :=
  match r with
  | RLength => "Password must be at least 8 characters long"
  | RLetter => "Password must include at least one letter"
  | RDigit => "Password must include at least one number"
  | RSymbol => "Password must include at least one symbol"
  end.

(** [r] is the first rule that [p] breaks. *)
Definition firstFailing (r : Rule) (p : jsstring) : Prop :=
  ~ holds r p /\ forall r', (rank r' < rank r)%nat -> holds r' p.

(** The boolean test the code makes for each rule. *)
Definition check (r : Rule) (p : jsstring) : bool :=
  match r with
  | RLength => negb (Z.of_nat (List.length p) <? 8)
  | RLetter => test isLetter p
  | RDigit => test isNumber p
  | RSymbol => test isSymbol p
  end.

End Password.

(** ** External collaborators *)

Module JWT.
(** [JWTPayload] of utils/jwt.ts. *)
Record Payload := { userId : jsstring; email : jsstring }.
End JWT.

(** Library code reached by the handlers. [generateAccessToken] and
    [generateRefreshToken] sign the payload together with the time of
    signing; [hashToken] is the hex SHA-256 digest; [comparePassword] is
    [bcrypt.compare]; [zodEmail] and [zodDatetime] are the string formats of
    [z.string().email()] and [z.string().datetime()]; [newDate s] is
    [new Date(s)]. *)
Class Externals := {
  zodEmail : jsstring -> bool;
  zodDatetime : jsstring -> bool;
  newDate : jsstring -> JSDate;
  comparePassword : jsstring -> jsstring -> bool;
  hashToken : jsstring -> jsstring;
  generateAccessToken : JWT.Payload -> Z -> jsstring;
  generateRefreshToken : JWT.Payload -> Z -> jsstring
}.

(** ** Data model (the tables of the Prisma migration) *)

Inductive UserStatus :=
| ACTIVE | BLOCKED | WAITING_EMAIL_CONFIRMATION | SUSPENDED.

Inductive EmailTokenType := CONFIRM_EMAIL | RESET_PASSWORD.

Inductive ActivityType :=
| DOCTOR_APPOINTMENT | CALL | MEETING | GYM | GROCERY_RUN | STUDY_SESSION
| PAY_BILLS | CAR_MAINTENANCE | DENTIST_APPOINTMENT | HAIRCUT | WORKOUT
| LUNCH_MEETING | TEAM_STANDUP | CLIENT_CALL | PERSONAL_TIME | OTHER.

Inductive CompletionOutcome :=
| COMPLETED_OK | NO_SHOW | DID_NOT_ANSWER | CANCELLED | FAILED.

Definition UserStatus_eqb (a b : UserStatus) : bool :=
  match a, b with
  | ACTIVE, ACTIVE | BLOCKED, BLOCKED
  | WAITING_EMAIL_CONFIRMATION, WAITING_EMAIL_CONFIRMATION
  | SUSPENDED, SUSPENDED => true
  | _, _ => false
  end.

Definition EmailTokenType_eqb (a b : EmailTokenType) : bool :=
  match a, b with
  | CONFIRM_EMAIL, CONFIRM_EMAIL | RESET_PASSWORD, RESET_PASSWORD => true
  | _, _ => false
  end.

(** The literals of the two [z.enum] lists, in the order of the source. *)
Definition activityTypes : list (string * ActivityType) :=
  [ ("DOCTOR_APPOINTMENT", DOCTOR_APPOINTMENT); ("CALL", CALL);
    ("MEETING", MEETING); ("GYM", GYM); ("GROCERY_RUN", GROCERY_RUN);
    ("STUDY_SESSION", STUDY_SESSION); ("PAY_BILLS", PAY_BILLS);
    ("CAR_MAINTENANCE", CAR_MAINTENANCE);
    ("DENTIST_APPOINTMENT", DENTIST_APPOINTMENT); ("HAIRCUT", HAIRCUT);
    ("WORKOUT", WORKOUT); ("LUNCH_MEETING", LUNCH_MEETING);
    ("TEAM_STANDUP", TEAM_STANDUP); ("CLIENT_CALL", CLIENT_CALL);
    ("PERSONAL_TIME", PERSONAL_TIME); ("OTHER", OTHER) ]%string.

Definition completionOutcomes : list (string * CompletionOutcome) :=
  [ ("COMPLETED_OK", COMPLETED_OK); ("NO_SHOW", NO_SHOW);
    ("DID_NOT_ANSWER", DID_NOT_ANSWER); ("CANCELLED", CANCELLED);
    ("FAILED", FAILED) ]%string.

(** Nullable columns are options. The [createdAt]/[updatedAt] columns, which
    the ORM maintains and no handler reads or writes, are left out. *)
Module User.
Record t := mk {
  id : jsstring;
  email : jsstring;
  passwordHash : jsstring;
  firstName : option jsstring;
  lastName : option jsstring;
  status : UserStatus;
  failedLoginAttempts : Z;
  lastLoginAt : option Z
}.
End User.

Module EmailToken.
Record t := mk {
  id : jsstring;
  userId : jsstring;
  type : EmailTokenType;
  tokenHash : jsstring;
  expiresAt : Z;
  usedAt : option Z
}.
End EmailToken.

Module RefreshToken.
Record t := mk {
  id : jsstring;
  userId : jsstring;
  tokenHash : jsstring;
  revokedAt : option Z;
  expiresAt : Z
}.
End RefreshToken.

Module Activity.
Record t := mk {
  id : jsstring;
  userId : jsstring;
  title : option jsstring;
  notes : option jsstring;
  activityType : ActivityType;
  scheduledAt : option Z;
  recordedAt : option Z;
  completionOutcome : option CompletionOutcome;
  deletedAt : option Z;
  deletedReason : option jsstring
}.
End Activity.

(** What [emailService.sendEmail] is given: the recipient, the subject and
    the link around which the fixed HTML body is built. *)
Module Email.
Record t := mk { to : jsstring; subject : string; link : jsstring }.
End Email.

(** What the columns of the migration hold. The store below keeps a string
    and a counter as the handler passes them. For the values of the column
    types that is what the database does; the properties that state what a
    write of a value of the caller leaves in a row are stated for such
    values. *)
Module Postgres.

Definition isHighSurrogate (c : N) : bool := ((55296 <=? c) && (c <=? 56319))%N.

Definition isLowSurrogate (c : N) : bool := ((56320 <=? c) && (c <=? 57343))%N.

(** Every surrogate is one of a pair. *)
Fixpoint wellFormedUtf16 (s : jsstring) : bool :=
  match s with
  | [] => true
  | c :: rest =>
      if isHighSurrogate c then
        match rest with
        | d :: rest' => isLowSurrogate d && wellFormedUtf16 rest'
        | [] => false
        end
      else negb (isLowSurrogate c) && wellFormedUtf16 rest
  end.

(** A TEXT column keeps a string as it is given when the string has no
    U+0000, which the server refuses, and no surrogate without its pair,
    which the driver replaces by U+FFFD. *)
Definition text (s : jsstring) : bool :=
  negb (existsb (N.eqb 0) s) && wellFormedUtf16 s.

(** The same for a value that may be absent. *)
Definition optText (o : option jsstring) : bool :=
  match o with
  | Some s => text s
  | None => true
  end.

(** An INTEGER column holds 32 bits; a value beyond them is refused. *)
Definition int4 (n : Z) : bool := (-2147483648 <=? n) && (n <=? 2147483647).

End Postgres.

(** The store: the four tables the modelled routes touch, rows in insertion
    order, and the messages handed to the email service so far. *)
Record Store := mkStore {
  users : list User.t;
  emailTokens : list EmailToken.t;
  refreshTokens : list RefreshToken.t;
  activities : list Activity.t;
  outbox : list Email.t
}.

(** ** Responses *)

Inductive ZodCode := invalid_type | too_small | invalid_string | invalid_enum_value.

(** An error message: a literal of the source, or the message zod builds
    itself for an issue of kind [code] at field [path]. *)
Inductive Message :=
| Text (s : string)
| ZodDefault (code : ZodCode) (path : string).

Record Stats := { total : nat; open : nat; completed : nat }.

Record UserInfo := {
  info_id : jsstring;
  info_email : jsstring;
  info_firstName : option jsstring;
  info_lastName : option jsstring
}.

(** The JSON bodies the modelled routes send. *)
Inductive Body :=
| BError (error : Message)
| BErrorRemaining (error : Message) (remainingAttempts : Z)
| BMessage (message : string)
| BActivity (activity : Activity.t)
| BDeleted (message : string) (activity : Activity.t)
| BActivities (activities : list Activity.t) (stats : Stats)
| BLogin (accessToken refreshToken : jsstring) (user : UserInfo).

Record Response := { statusCode : Z; body : Body }.

Definition json (code : Z) (b : Body) : Response :=
  {| statusCode := code; body := b |}.


(** ** Request bodies and zod schemas (utils/validation.ts) *)

(** [req.body], [req.query]: an object read field by field; a field that is
    absent reads as [undefined]. *)
Definition JsObject := string -> jsval.

Fixpoint obj (fields : list (string * jsval)) : JsObject :=
  fun k =>
    match fields with
    | [] => JUndefined
    | (k', v) :: rest => if String.eqb k' k then v else obj rest k
    end.

(** The object without field [k]. *)
Definition without (k : string) (o : JsObject) : JsObject :=
  fun k' => if String.eqb k k' then JUndefined else o k'.

(** The outcome of [schema.parse]: the message of the first issue, or the
    parsed value. An object schema visits its keys in the order they are
    written and drops the keys it does not name. *)
Definition ZodResult (A : Type) := (Message + A)%type.

Definition zbind {A B} (m : ZodResult A) (k : A -> ZodResult B) : ZodResult B :=
  match m with
  | inl e => inl e
  | inr a => k a
  end.

Notation "x <~ m ;; k" := (zbind m (fun x => k))
  (at level 61, m at next level, right associativity).

(** [z.string()] *)
Definition zString (path : string) (v : jsval) : ZodResult jsstring :=
  match v with
  | JStr s => inr s
  | _ => inl (ZodDefault invalid_type path)
  end.

(** [.min(1, msg)] *)
Definition zMin1 (msg : Message) (s : jsstring) : ZodResult jsstring :=
  if Nat.ltb (List.length s) 1 then inl msg else inr s.

(** [.email(msg)], [.datetime()] *)
Definition zFormat (fmt : jsstring -> bool) (msg : Message) (s : jsstring)
  : ZodResult jsstring :=
  if fmt s then inr s else inl msg.

(** [z.enum([...])] *)
Definition zEnum {A} (table : list (string * A)) (path : string) (v : jsval)
  : ZodResult A :=
  match v with
  | JStr s =>
      match find (fun p => jsstring_eqb (js (fst p)) s) table with
      | Some p => inr (snd p)
      | None => inl (ZodDefault invalid_enum_value path)
      end
  | _ => inl (ZodDefault invalid_type path)
  end.

(** [.optional()] *)
Definition zOptional {A} (schema : jsval -> ZodResult A) (v : jsval)
  : ZodResult (option A) :=
  match v with
  | JUndefined => inr None
  | _ => a <~ schema v ;; inr (Some a)
  end.

Module ScheduledInput.
Record t := mk {
  title : jsstring;
  notes : option jsstring;
  activityType : ActivityType;
  scheduledAt : jsstring
}.
End ScheduledInput.

Module RecordedInput.
Record t := mk {
  activityType : ActivityType;
  recordedAt : jsstring;
  completionOutcome : CompletionOutcome;
  notes : option jsstring
}.
End RecordedInput.

Module UpdateInput.
Record t := mk {
  title : option jsstring;
  notes : option jsstring;
  scheduledAt : option jsstring
}.
End UpdateInput.

Module CompleteInput.
Record t := mk {
  completionDate : jsstring;
  completionOutcome : CompletionOutcome
}.
End CompleteInput.

Module ListQuery.
Record t := mk {
  includeDeleted : option bool;
  from : option jsstring;
  to : option jsstring
}.
End ListQuery.

Module LoginInput.
Record t := mk { email : jsstring; password : jsstring }.
End LoginInput.

Section Schemas.
Context {E : Externals}.

Definition zDatetime (path : string) (v : jsval) : ZodResult jsstring :=
  s <~ zString path v ;;
  zFormat zodDatetime (ZodDefault invalid_string path) s.

Definition zEmail (path : string) (v : jsval) : ZodResult jsstring :=
  s <~ zString path v ;;
  zFormat zodEmail (Text "Invalid email address") s.

Definition createScheduledActivitySchema (o : JsObject)
  : ZodResult ScheduledInput.t :=
  title <~ (s <~ zString "title" (o "title"%string) ;;
            zMin1 (Text "Title is required") s) ;;
  notes <~ zOptional (zString "notes") (o "notes"%string) ;;
  activityType <~ zEnum activityTypes "activityType" (o "activityType"%string) ;;
  scheduledAt <~ zDatetime "scheduledAt" (o "scheduledAt"%string) ;;
  inr (ScheduledInput.mk title notes activityType scheduledAt).

Definition createRecordedActivitySchema (o : JsObject)
  : ZodResult RecordedInput.t :=
  activityType <~ zEnum activityTypes "activityType" (o "activityType"%string) ;;
  recordedAt <~ zDatetime "recordedAt" (o "recordedAt"%string) ;;
  completionOutcome <~ zEnum completionOutcomes "completionOutcome"
                         (o "completionOutcome"%string) ;;
  notes <~ zOptional (zString "notes") (o "notes"%string) ;;
  inr (RecordedInput.mk activityType recordedAt completionOutcome notes).

Definition updateActivitySchema (o : JsObject) : ZodResult UpdateInput.t :=
  title <~ zOptional
             (fun v => s <~ zString "title" v ;;
                       zMin1 (ZodDefault too_small "title") s)
             (o "title"%string) ;;
  notes <~ zOptional (zString "notes") (o "notes"%string) ;;
  scheduledAt <~ zOptional (zDatetime "scheduledAt") (o "scheduledAt"%string) ;;
  inr (UpdateInput.mk title notes scheduledAt).

Definition completeActivitySchema (o : JsObject) : ZodResult CompleteInput.t :=
  completionDate <~ zDatetime "completionDate" (o "completionDate"%string) ;;
  completionOutcome <~ zEnum completionOutcomes "completionOutcome"
                         (o "completionOutcome"%string) ;;
  inr (CompleteInput.mk completionDate completionOutcome).

(** The parsed value is its [reason]. *)
Definition deleteActivitySchema (o : JsObject) : ZodResult jsstring :=
  s <~ zString "reason" (o "reason"%string) ;;
  zMin1 (Text "Deletion reason is required") s.

(** The [view] key is checked and never read by the route. *)
Definition getActivitiesSchema (o : JsObject) : ZodResult ListQuery.t :=
  includeDeleted <~ zOptional
                      (zEnum [("true", true); ("false", false)]%string
                             "includeDeleted")
                      (o "includeDeleted"%string) ;;
  _ <~ zOptional (zEnum [("list", tt); ("calendar", tt)]%string "view")
         (o "view"%string) ;;
  from <~ zOptional (zDatetime "from") (o "from"%string) ;;
  to <~ zOptional (zDatetime "to") (o "to"%string) ;;
  inr (ListQuery.mk includeDeleted from to).

Definition loginSchema (o : JsObject) : ZodResult LoginInput.t :=
  email <~ zEmail "email" (o "email"%string) ;;
  password <~ (s <~ zString "password" (o "password"%string) ;;
               zMin1 (Text "Password is required") s) ;;
  inr (LoginInput.mk email password).

(** The parsed value is its [token]. *)
Definition confirmEmailSchema (o : JsObject) : ZodResult jsstring :=
  s <~ zString "token" (o "token"%string) ;;
  zMin1 (Text "Token is required") s.

(** The parsed value is its [email]. *)
Definition forgotPasswordSchema (o : JsObject) : ZodResult jsstring :=
  zEmail "email" (o "email"%string).

End Schemas.

(** ** Handlers as computations over the store *)

Inductive PrismaCode :=
| RecordNotFound | UniqueConstraint | InvalidArgument | Unavailable.

Inductive Exn :=
| ZodError (first : Message)
| PrismaError (code : PrismaCode).

(** A Prisma promise: it fails, leaving the store as it was, or yields a
    value and a new store. *)
Definition Query (A : Type) := Store -> Exn + (A * Store).

(** Where a handler stands after a statement: it goes on with a value, it
    has sent its response and returned, or an exception is on its way to
    the [catch] block. *)
Inductive Step (A : Type) :=
| Next (a : A)
| Respond (r : Response)
| Throw (e : Exn).

Arguments Next {A} a.
Arguments Respond {A} r.
Arguments Throw {A} e.

Definition Handler (A : Type) := Store -> Step A * Store.

Definition ret {A} (a : A) : Handler A := fun s => (Next a, s).

Definition bind {A B} (m : Handler A) (k : A -> Handler B) : Handler B :=
  fun s =>
    match m s with
    | (Next a, s') => k a s'
    | (Respond r, s') => (Respond r, s')
    | (Throw e, s') => (Throw e, s')
    end.

Notation "x <- m ;; k" := (bind m (fun x => k))
  (at level 61, m at next level, right associativity).

(** [return res.status(code).json(b)] *)
Definition respond {A} (code : Z) (b : Body) : Handler A :=
  fun s => (Respond (json code b), s).

(** [schema.parse(..)] throws a ZodError on the first issue. *)
Definition parse {A} (z : ZodResult A) : Handler A :=
  fun s =>
    match z with
    | inl m => (Throw (ZodError m), s)
    | inr a => (Next a, s)
    end.

(** [await q] *)
Definition await {A} (q : Query A) : Handler A :=
  fun s =>
    match q s with
    | inl e => (Throw e, s)
    | inr (a, s') => (Next a, s')
    end.

(** The [try { .. } catch (error) { .. }] every route is wrapped in: a
    ZodError is answered with 400 and the message of its first issue, any
    other exception with 500. Writes made before the exception stay. *)
Definition route (h : Handler Response) (s : Store) : Response * Store :=
  match h s with
  | (Next r, s') => (r, s')
  | (Respond r, s') => (r, s')
  | (Throw (ZodError m), s') => (json 400 (BError m), s')
  | (Throw (PrismaError _), s') =>
      (json 500 (BError (Text "Internal server error")), s')
  end.

(** *** The persistence collaborator *)

Definition set_users (v : list User.t) (s : Store) : Store :=
  mkStore v (emailTokens s) (refreshTokens s) (activities s) (outbox s).

Definition set_emailTokens (v : list EmailToken.t) (s : Store) : Store :=
  mkStore (users s) v (refreshTokens s) (activities s) (outbox s).

Definition set_refreshTokens (v : list RefreshToken.t) (s : Store) : Store :=
  mkStore (users s) (emailTokens s) v (activities s) (outbox s).

Definition set_activities (v : list Activity.t) (s : Store) : Store :=
  mkStore (users s) (emailTokens s) (refreshTokens s) v (outbox s).

Definition set_outbox (v : list Email.t) (s : Store) : Store :=
  mkStore (users s) (emailTokens s) (refreshTokens s) (activities s) v.

(** Rows changed in place: every row that [p] selects becomes [f row]. *)
Definition updateWhere {Row} (p : Row -> bool) (f : Row -> Row)
  (rows : list Row) : list Row :=
  map (fun r => if p r then f r else r) rows.

(** Prisma checks the arguments of a query before it runs it: a [Date] it
    is given must be valid. *)
Definition validDate (d : JSDate) : Query Z :=
  fun s =>
    match d with
    | ValidDate ms => inr (ms, s)
    | InvalidDate => inl (PrismaError InvalidArgument)
    end.

(** The [data] of an update: [None] is [undefined], the column is kept. *)
Definition assign {A} (new : option A) (old : A) : A :=
  match new with
  | Some v => v
  | None => old
  end.

Module UserData.
Record t := mk {
  status : option UserStatus;
  failedLoginAttempts : option Z;
  lastLoginAt : option Z
}.

Definition apply (d : t) (u : User.t) : User.t :=
  User.mk (User.id u) (User.email u) (User.passwordHash u)
    (User.firstName u) (User.lastName u)
    (assign (status d) (User.status u))
    (assign (failedLoginAttempts d) (User.failedLoginAttempts u))
    (match lastLoginAt d with
     | Some t => Some t
     | None => User.lastLoginAt u
     end).
End UserData.

Module ActivityData.
Record t := mk {
  title : option jsstring;
  notes : option jsstring;
  scheduledAt : option Z;
  recordedAt : option Z;
  completionOutcome : option CompletionOutcome;
  deletedAt : option Z;
  deletedReason : option jsstring
}.

Definition keep {A} (new : option A) (old : option A) : option A :=
  match new with
  | Some v => Some v
  | None => old
  end.

Definition apply (d : t) (a : Activity.t) : Activity.t :=
  Activity.mk (Activity.id a) (Activity.userId a)
    (keep (title d) (Activity.title a))
    (keep (notes d) (Activity.notes a))
    (Activity.activityType a)
    (keep (scheduledAt d) (Activity.scheduledAt a))
    (keep (recordedAt d) (Activity.recordedAt a))
    (keep (completionOutcome d) (Activity.completionOutcome a))
    (keep (deletedAt d) (Activity.deletedAt a))
    (keep (deletedReason d) (Activity.deletedReason a)).
End ActivityData.

(** The server can refuse a statement for a reason the tables do not show:
    the connection is lost, the statement times out, the transaction is
    picked to break a deadlock. [faults n] tells whether it refuses the
    [n]-th statement a request sends. *)
Definition Faults := nat -> bool.

Definition noFaults : Faults := fun _ => false.

Module Prisma.

(** [prisma.user.findUnique({ where: { email } })] *)
Definition user_findUnique (email : jsstring) : Query (option User.t) :=
  fun s => inr (find (fun u => jsstring_eqb (User.email u) email) (users s), s).

(** [prisma.user.update({ where: { id }, data })], for a counter in [data]
    that the column holds ([Postgres.int4]). *)
Definition user_update (id : jsstring) (data : UserData.t) : Query User.t :=
  fun s =>
    let sel := fun u => jsstring_eqb (User.id u) id in
    match find sel (users s) with
    | None => inl (PrismaError RecordNotFound)
    | Some u =>
        inr (UserData.apply data u,
             set_users (updateWhere sel (UserData.apply data) (users s)) s)
    end.

(** [prisma.emailToken.findUnique({ where: { tokenHash } })] *)
Definition emailToken_findUnique (tokenHash : jsstring)
  : Query (option EmailToken.t) :=
  fun s =>
    inr (find (fun t => jsstring_eqb (EmailToken.tokenHash t) tokenHash)
           (emailTokens s), s).

Definition markUsed (at_ : Z) (t : EmailToken.t) : EmailToken.t :=
  EmailToken.mk (EmailToken.id t) (EmailToken.userId t) (EmailToken.type t)
    (EmailToken.tokenHash t) (EmailToken.expiresAt t) (Some at_).

(** [prisma.emailToken.update({ where: { id }, data: { usedAt } })] *)
Definition emailToken_update (id : jsstring) (usedAt : Z)
  : Query EmailToken.t :=
  fun s =>
    let sel := fun t => jsstring_eqb (EmailToken.id t) id in
    match find sel (emailTokens s) with
    | None => inl (PrismaError RecordNotFound)
    | Some t =>
        inr (markUsed usedAt t,
             set_emailTokens (updateWhere sel (markUsed usedAt) (emailTokens s)) s)
    end.

(** [prisma.emailToken.create({ data })]: [id] is the primary key and
    [tokenHash] has a unique index. *)
Definition emailToken_create (row : EmailToken.t) : Query EmailToken.t :=
  fun s =>
    if existsb (fun t => jsstring_eqb (EmailToken.id t) (EmailToken.id row)
                         || jsstring_eqb (EmailToken.tokenHash t)
                              (EmailToken.tokenHash row))
         (emailTokens s)
    then inl (PrismaError UniqueConstraint)
    else inr (row, set_emailTokens (emailTokens s ++ [row]) s).

(** [prisma.refreshToken.create({ data })], with the same two constraints. *)
Definition refreshToken_create (row : RefreshToken.t) : Query RefreshToken.t :=
  fun s =>
    if existsb (fun t => jsstring_eqb (RefreshToken.id t) (RefreshToken.id row)
                         || jsstring_eqb (RefreshToken.tokenHash t)
                              (RefreshToken.tokenHash row))
         (refreshTokens s)
    then inl (PrismaError UniqueConstraint)
    else inr (row, set_refreshTokens (refreshTokens s ++ [row]) s).

(** [prisma.activity.findFirst({ where: { id, userId } })] *)
Definition activity_findFirst (id userId : jsstring)
  : Query (option Activity.t) :=
  fun s =>
    inr (find (fun a => jsstring_eqb (Activity.id a) id
                        && jsstring_eqb (Activity.userId a) userId)
           (activities s), s).

(** [prisma.activity.update({ where: { id }, data })], for strings in
    [data] that the columns keep as they are given ([Postgres.text]). *)
Definition activity_update (id : jsstring) (data : ActivityData.t)
  : Query Activity.t :=
  fun s =>
    let sel := fun a => jsstring_eqb (Activity.id a) id in
    match find sel (activities s) with
    | None => inl (PrismaError RecordNotFound)
    | Some a =>
        inr (ActivityData.apply data a,
             set_activities
               (updateWhere sel (ActivityData.apply data) (activities s)) s)
    end.

(** [prisma.activity.create({ data })], [row] carrying the id the ORM drew
    and the columns left to their defaults. *)
Definition activity_create (row : Activity.t) : Query Activity.t :=
  fun s =>
    if existsb (fun a => jsstring_eqb (Activity.id a) (Activity.id row))
         (activities s)
    then inl (PrismaError UniqueConstraint)
    else inr (row, set_activities (activities s ++ [row]) s).

(** The [n]-th statement of a request: its promise is rejected when the
    server refuses it. *)
Definition statement {A} (faults : Faults) (n : nat) (q : Query A)
  : Query A :=
  fun s => if faults n then inl (PrismaError Unavailable) else q s.

(** A query whose value is dropped. *)
Definition void {A} (q : Query A) : Query unit :=
  fun s =>
    match q s with
    | inl e => inl e
    | inr (_, s') => inr (tt, s')
    end.

Fixpoint batch (qs : list (Query unit)) (s : Store) : Exn + Store :=
  match qs with
  | [] => inr s
  | q :: rest =>
      match q s with
      | inl e => inl e
      | inr (_, s') => batch rest s'
      end
  end.

(** [prisma.$transaction([q1, .., qn])]: the queries run in order; when one
    fails the whole batch is rolled back and the failure is rethrown. *)
Definition transaction (qs : list (Query unit)) : Query unit :=
  fun s =>
    match batch qs s with
    | inl e => inl e
    | inr s' => inr (tt, s')
    end.

End Prisma.

(** *** Listing: the query behind [GET /activities] *)

Definition isSome {A} (o : option A) : bool :=
  match o with
  | Some _ => true
  | None => false
  end.

(** [{ gte: from, lte: to }] on a nullable column: a NULL never matches. *)
Definition inRange (from to : option Z) (d : option Z) : bool :=
  match d with
  | None => false
  | Some x =>
      match from with Some f => f <=? x | None => true end
      && match to with Some t => x <=? t | None => true end
  end.

(** PostgreSQL's order of a nullable column: NULLs come last when ascending
    and first when descending. *)
Definition ascNullsLast (a b : option Z) : comparison :=
  match a, b with
  | Some x, Some y => x ?= y
  | Some _, None => Lt
  | None, Some _ => Gt
  | None, None => Eq
  end.

Definition descNullsFirst (a b : option Z) : comparison :=
  match a, b with
  | Some x, Some y => y ?= x
  | None, Some _ => Lt
  | Some _, None => Gt
  | None, None => Eq
  end.

(** [orderBy: [{ scheduledAt: 'asc' }, { recordedAt: 'desc' }]]: [a] may
    come before [b]. *)
Definition orderBy (a b : Activity.t) : bool :=
  match ascNullsLast (Activity.scheduledAt a) (Activity.scheduledAt b) with
  | Lt => true
  | Gt => false
  | Eq =>
      match descNullsFirst (Activity.recordedAt a) (Activity.recordedAt b) with
      | Gt => false
      | _ => true
      end
  end.

Fixpoint insertOrdered (a : Activity.t) (l : list Activity.t) : list Activity.t :=
  match l with
  | [] => [a]
  | b :: l' => if orderBy a b then a :: l else b :: insertOrdered a l'
  end.

(** Rows that tie are left in table order (the database promises none). *)
Definition sortActivities (l : list Activity.t) : list Activity.t :=
  fold_right insertOrdered [] l.

Definition optDate (d : option JSDate) : Query (option Z) :=
  fun s =>
    match d with
    | None => inr (None, s)
    | Some d' =>
        match validDate d' s with
        | inl e => inl e
        | inr (ms, s') => inr (Some ms, s')
        end
    end.

(** [prisma.activity.findMany({ where, orderBy })] with the [where] the
    route builds from [userId], [includeDeleted], [from] and [to]. *)
Definition activity_findMany (userId : jsstring) (includeDeleted : bool)
  (from to : option JSDate) : Query (list Activity.t) :=
  fun s =>
    match optDate from s, optDate to s with
    | inr (f, _), inr (t, _) =>
        let selected := fun a =>
          jsstring_eqb (Activity.userId a) userId
          && (includeDeleted || negb (isSome (Activity.deletedAt a)))
          && (if isSome from || isSome to
              then inRange f t (Activity.scheduledAt a)
                   || inRange f t (Activity.recordedAt a)
              else true) in
        inr (sortActivities (filter selected (activities s)), s)
    | inl e, _ => inl e
    | _, inl e => inl e
    end.

(** ** Activity routes (routes/activity.routes.ts)

    Every route runs behind [authMiddleware]; [userId] is [req.user.userId]
    of the verified access token, [id] is [req.params.id], [now] is what
    [new Date()] reads, [newId] is the primary key the ORM draws for a row
    it creates. *)

Section ActivityRoutes.
Context {E : Externals}.

Definition notDeleted (a : Activity.t) : bool := negb (isSome (Activity.deletedAt a)).

(** [a.scheduledAt && !a.recordedAt] *)
Definition isScheduledActivity (a : Activity.t) : bool :=
  isSome (Activity.scheduledAt a) && negb (isSome (Activity.recordedAt a)).

(** [a.recordedAt] *)
Definition isRecordedActivity (a : Activity.t) : bool :=
  isSome (Activity.recordedAt a).

Definition computeStats (activities : list Activity.t) : Stats :=
  let scheduled := filter isScheduledActivity activities in
  let recorded := filter isRecordedActivity activities in
  {| total := List.length (filter notDeleted activities);
     open := List.length (filter notDeleted scheduled);
     completed := List.length (filter notDeleted recorded) |}.

(** [query.from ? new Date(query.from) : undefined] *)
Definition dateOfParam (p : option jsstring) : option JSDate :=
  match p with
  | Some s => if nonEmpty s then Some (newDate s) else None
  | None => None
  end.

(** GET /activities *)
Definition get_activities_body (userId : jsstring) (reqQuery : JsObject)
  : Handler Response :=
  query <- parse (getActivitiesSchema reqQuery) ;;
  let includeDeleted :=
    match ListQuery.includeDeleted query with
    | Some true => true
    | _ => false
    end in
  let from := dateOfParam (ListQuery.from query) in
  let to := dateOfParam (ListQuery.to query) in
  activities <- await (activity_findMany userId includeDeleted from to) ;;
  ret (json 200 (BActivities activities (computeStats activities))).

Definition get_activities (userId : jsstring) (reqQuery : JsObject)
  : Store -> Response * Store :=
  route (get_activities_body userId reqQuery).

(** POST /activities *)
Definition post_activities_body (userId : jsstring) (reqBody : JsObject)
  (now : Z) (newId : jsstring) : Handler Response :=
  let isScheduled :=
    truthy (reqBody "scheduledAt"%string)
    && negb (truthy (reqBody "recordedAt"%string)) in
  let isRecorded := truthy (reqBody "recordedAt"%string) in
  if isScheduled then
    body <- parse (createScheduledActivitySchema reqBody) ;;
    let scheduledDate := newDate (ScheduledInput.scheduledAt body) in
    if date_le scheduledDate (ValidDate now) then
      respond 400 (BError (Text "Scheduled activities must be in the future"))
    else
      at_ <- await (validDate scheduledDate) ;;
      activity <- await (Prisma.activity_create
                           (Activity.mk newId userId
                              (Some (ScheduledInput.title body))
                              (ScheduledInput.notes body)
                              (ScheduledInput.activityType body)
                              (Some at_) None None None None)) ;;
      respond 201 (BActivity activity)
  else if isRecorded then
    body <- parse (createRecordedActivitySchema reqBody) ;;
    let recordedDate := newDate (RecordedInput.recordedAt body) in
    if date_ge recordedDate (ValidDate now) then
      respond 400 (BError (Text "Recorded activities must be in the past"))
    else
      at_ <- await (validDate recordedDate) ;;
      activity <- await (Prisma.activity_create
                           (Activity.mk newId userId
                              None
                              (RecordedInput.notes body)
                              (RecordedInput.activityType body)
                              None (Some at_)
                              (Some (RecordedInput.completionOutcome body))
                              None None)) ;;
      respond 201 (BActivity activity)
  else
    respond 400 (BError (Text "Activity must be either scheduled or recorded")).

Definition post_activities (userId : jsstring) (reqBody : JsObject)
  (now : Z) (newId : jsstring) : Store -> Response * Store :=
  route (post_activities_body userId reqBody now newId).

(** [body.scheduledAt ? new Date(body.scheduledAt) : undefined] *)
Definition newScheduledAt (p : option jsstring) : Handler (option Z) :=
  match p with
  | Some s =>
      if nonEmpty s then
        at_ <- await (validDate (newDate s)) ;; ret (Some at_)
      else ret None
  | None => ret None
  end.

(** PATCH /activities/:id *)
Definition patch_activity_body (userId id : jsstring) (reqBody : JsObject)
  (now : Z) : Handler Response :=
  body <- parse (updateActivitySchema reqBody) ;;
  activity <- await (Prisma.activity_findFirst id userId) ;;
  match activity with
  | None => respond 404 (BError (Text "Activity not found"))
  | Some _ =>
      if match UpdateInput.scheduledAt body with
         | Some s => nonEmpty s && date_le (newDate s) (ValidDate now)
         | None => false
         end
      then respond 400 (BError (Text "Scheduled date must be in the future"))
      else
        scheduledAt <- newScheduledAt (UpdateInput.scheduledAt body) ;;
        updated <- await (Prisma.activity_update id
                            (ActivityData.mk
                               (UpdateInput.title body)
                               (UpdateInput.notes body)
                               scheduledAt
                               None None None None)) ;;
        ret (json 200 (BActivity updated))
  end.

Definition patch_activity (userId id : jsstring) (reqBody : JsObject)
  (now : Z) : Store -> Response * Store :=
  route (patch_activity_body userId id reqBody now).

(** POST /activities/:id/complete *)
Definition complete_activity_body (userId id : jsstring) (reqBody : JsObject)
  (now : Z) : Handler Response :=
  body <- parse (completeActivitySchema reqBody) ;;
  activity <- await (Prisma.activity_findFirst id userId) ;;
  match activity with
  | None => respond 404 (BError (Text "Activity not found"))
  | Some activity =>
      if negb (isSome (Activity.scheduledAt activity)) then
        respond 400 (BError (Text "Only scheduled activities can be completed"))
      else
        let completionDate := newDate (CompleteInput.completionDate body) in
        if date_ge completionDate (ValidDate now) then
          respond 400 (BError (Text "Completion date must be in the past"))
        else
          at_ <- await (validDate completionDate) ;;
          updated <- await (Prisma.activity_update id
                              (ActivityData.mk None None None
                                 (Some at_)
                                 (Some (CompleteInput.completionOutcome body))
                                 None None)) ;;
          ret (json 200 (BActivity updated))
  end.

Definition complete_activity (userId id : jsstring) (reqBody : JsObject)
  (now : Z) : Store -> Response * Store :=
  route (complete_activity_body userId id reqBody now).

(** DELETE /activities/:id (soft delete) *)
Definition delete_activity_body (userId id : jsstring) (reqBody : JsObject)
  (now : Z) : Handler Response :=
  reason <- parse (deleteActivitySchema reqBody) ;;
  activity <- await (Prisma.activity_findFirst id userId) ;;
  match activity with
  | None => respond 404 (BError (Text "Activity not found"))
  | Some _ =>
      updated <- await (Prisma.activity_update id
                          (ActivityData.mk None None None None None
                             (Some now) (Some reason))) ;;
      ret (json 200 (BDeleted "Activity deleted successfully" updated))
  end.

Definition delete_activity (userId id : jsstring) (reqBody : JsObject)
  (now : Z) : Store -> Response * Store :=
  route (delete_activity_body userId id reqBody now).

End ActivityRoutes.

(** ** Email service (services/email.service.ts) *)

(** [sendEmail] hands the message to the transport or logs it; a transport
    failure is caught and logged, so the call never throws. *)
Definition sendEmail (m : Email.t) : Handler unit :=
  fun s => (Next tt, set_outbox (outbox s ++ [m]) s).

Definition sendPasswordReset (to token : jsstring) : Handler unit :=
  let resetLink := js "http://localhost:5173/reset-password?token=" ++ token in
  sendEmail (Email.mk to "Reset your Schedula password" resetLink).

(** ** Auth routes (routes/auth.routes.ts)

    [authLimiter], the rate limiter mounted in front of login and
    forgot-password, answers by itself when it trips; the definitions below
    are the handlers it lets through. *)

Section AuthRoutes.
Context {E : Externals}.

(** POST /auth/confirm-email. [now] is the clock at the expiry test,
    [usedNow] the clock when the transaction is built. The route sends
    three statements: the lookup of the token, and the two updates inside
    the transaction. *)
Definition confirm_email_body (faults : Faults) (reqBody : JsObject)
  (now usedNow : Z) : Handler Response :=
  token <- parse (confirmEmailSchema reqBody) ;;
  let tokenHash := hashToken token in
  emailToken <- await (Prisma.statement faults 0
                         (Prisma.emailToken_findUnique tokenHash)) ;;
  match emailToken with
  | None => respond 400 (BError (Text "Invalid or expired token"))
  | Some emailToken =>
      if isSome (EmailToken.usedAt emailToken) then
        respond 400 (BError (Text "Token already used"))
      else if EmailToken.expiresAt emailToken <? now then
        respond 400 (BError (Text "Token expired"))
      else if negb (EmailTokenType_eqb (EmailToken.type emailToken) CONFIRM_EMAIL) then
        respond 400 (BError (Text "Invalid token type"))
      else
        _ <- await (Prisma.transaction
                      [ Prisma.statement faults 1
                          (Prisma.void
                             (Prisma.user_update (EmailToken.userId emailToken)
                                (UserData.mk (Some ACTIVE) None None)));
                        Prisma.statement faults 2
                          (Prisma.void
                             (Prisma.emailToken_update
                                (EmailToken.id emailToken) usedNow)) ]) ;;
        ret (json 200
               (BMessage "Email confirmed successfully. You can now login."))
  end.

(** The route, whatever the server refuses. *)
Definition confirm_email_under (faults : Faults) (reqBody : JsObject)
  (now usedNow : Z) : Store -> Response * Store :=
  route (confirm_email_body faults reqBody now usedNow).

(** The route on a server that answers every statement, as the other
    routes are modelled. *)
Definition confirm_email (reqBody : JsObject) (now usedNow : Z)
  : Store -> Response * Store :=
  confirm_email_under noFaults reqBody now usedNow.

(** POST /auth/login. [clock n] is the n-th reading of the clock after the
    password has been accepted: for [lastLoginAt], for the two signatures
    and for the expiry of the refresh-token row. *)
Definition login_body (reqBody : JsObject) (clock : nat -> Z)
  (newId : jsstring) : Handler Response :=
  body <- parse (loginSchema reqBody) ;;
  user <- await (Prisma.user_findUnique (LoginInput.email body)) ;;
  match user with
  | None => respond 401 (BError (Text "Invalid credentials"))
  | Some user =>
      if UserStatus_eqb (User.status user) BLOCKED then
        respond 403
          (BError (Text "Account is blocked due to too many failed login attempts"))
      else if UserStatus_eqb (User.status user) WAITING_EMAIL_CONFIRMATION then
        respond 403 (BError (Text "Please confirm your email before logging in"))
      else
        let isPasswordValid :=
          comparePassword (LoginInput.password body) (User.passwordHash user) in
        if negb isPasswordValid then
          updatedUser <-
            await (Prisma.user_update (User.id user)
                     (UserData.mk
                        (Some (if User.failedLoginAttempts user + 1 >=? 10
                               then BLOCKED else User.status user))
                        (Some (User.failedLoginAttempts user + 1))
                        None)) ;;
          if UserStatus_eqb (User.status updatedUser) BLOCKED then
            respond 403
              (BError (Text "Account blocked due to too many failed login attempts"))
          else
            respond 401
              (BErrorRemaining (Text "Invalid credentials")
                 (10 - User.failedLoginAttempts updatedUser))
        else
          _ <- await (Prisma.user_update (User.id user)
                        (UserData.mk None (Some 0) (Some (clock 0%nat)))) ;;
          let payload := JWT.Build_Payload (User.id user) (User.email user) in
          let accessToken := generateAccessToken payload (clock 1%nat) in
          let refreshToken := generateRefreshToken payload (clock 2%nat) in
          let refreshTokenHash := hashToken refreshToken in
          _ <- await (Prisma.refreshToken_create
                        (RefreshToken.mk newId (User.id user) refreshTokenHash
                           None (clock 3%nat + 7 * 24 * 60 * 60 * 1000))) ;;
          ret (json 200
                 (BLogin accessToken refreshToken
                    {| info_id := User.id user;
                       info_email := User.email user;
                       info_firstName := User.firstName user;
                       info_lastName := User.lastName user |}))
  end.

Definition login (reqBody : JsObject) (clock : nat -> Z) (newId : jsstring)
  : Store -> Response * Store :=
  route (login_body reqBody clock newId).

(** POST /auth/forgot-password. [token] is what [generateRandomToken()]
    draws. *)
Definition forgot_password_body (reqBody : JsObject) (now : Z)
  (token newId : jsstring) : Handler Response :=
  email <- parse (forgotPasswordSchema reqBody) ;;
  user <- await (Prisma.user_findUnique email) ;;
  match user with
  | None =>
      respond 200 (BMessage "If the email exists, a reset link has been sent.")
  | Some user =>
      let tokenHash := hashToken token in
      _ <- await (Prisma.emailToken_create
                    (EmailToken.mk newId (User.id user) RESET_PASSWORD tokenHash
                       (now + 60 * 60 * 1000) None)) ;;
      _ <- sendPasswordReset (User.email user) token ;;
      ret (json 200
             (BMessage "If the email exists, a reset link has been sent."))
  end.

Definition forgot_password (reqBody : JsObject) (now : Z)
  (token newId : jsstring) : Store -> Response * Store :=
  route (forgot_password_body reqBody now token newId).

End AuthRoutes.

(** ** An instance of the interface, to run the handlers on requests

    Timestamps are [YYYY-MM-DDTHH:MM:SSZ]; a password hash is the password
    behind a fixed salt tag, a token hash the token behind a tag; a signed
    token names its kind and its subject. The instance stands for the
    libraries only where a handler is run on a concrete request. *)

Module Sample.

Definition digit (c : N) : option Z :=
  if ((48 <=? c) && (c <=? 57))%N then Some (Z.of_N c - 48) else None.

Definition two (a b : N) : option Z :=
  match digit a, digit b with
  | Some x, Some y => Some (10 * x + y)
  | _, _ => None
  end.

Definition four (a b c d : N) : option Z :=
  match two a b, two c d with
  | Some x, Some y => Some (100 * x + y)
  | _, _ => None
  end.

(** Days from 1970-01-01 to the given civil date (proleptic Gregorian). *)
Definition daysFromCivil (y m d : Z) : Z :=
  let y' := if m <=? 2 then y - 1 else y in
  let era := y' / 400 in
  let yoe := y' - era * 400 in
  let doy := (153 * (if 2 <? m then m - 3 else m + 9) + 2) / 5 + d - 1 in
  let doe := yoe * 365 + yoe / 4 - yoe / 100 + doy in
  era * 146097 + doe - 719468.

Definition timeValue (s : jsstring) : option Z :=
  match s with
  | [y1; y2; y3; y4; 45; m1; m2; 45; d1; d2; 84;
     h1; h2; 58; n1; n2; 58; s1; s2; 90]%N =>
      match four y1 y2 y3 y4, two m1 m2, two d1 d2,
            two h1 h2, two n1 n2, two s1 s2 with
      | Some y, Some m, Some d, Some h, Some n, Some sec =>
          if (1 <=? m) && (m <=? 12) && (1 <=? d) && (d <=? 31)
             && (h <? 24) && (n <? 60) && (sec <? 60)
          then Some ((((daysFromCivil y m d * 24 + h) * 60 + n) * 60 + sec) * 1000)
          else None
      | _, _, _, _, _, _ => None
      end
  | _ => None
  end.

Definition externals : Externals := {|
  zodEmail := fun s => existsb (N.eqb 64) s;
  zodDatetime := fun s => isSome (timeValue s);
  newDate := fun s =>
    match timeValue s with
    | Some ms => ValidDate ms
    | None => InvalidDate
    end;
  comparePassword := fun password hash =>
    jsstring_eqb hash (js "$2b$12$" ++ password);
  hashToken := fun token => js "sha256:" ++ token;
  generateAccessToken := fun p _ => js "access." ++ JWT.userId p;
  generateRefreshToken := fun p _ => js "refresh." ++ JWT.userId p
|}.

(** 2024-01-01T00:00:00Z, used as the time of the requests below. *)
Definition now : Z := 1704067200000.

Definition alice : User.t :=
  User.mk (js "u1") (js "alice@example.com") (js "$2b$12$Abc12345!")
    None None ACTIVE 0 None.

(** An account an administrator has suspended. *)
Definition sam : User.t :=
  User.mk (js "u2") (js "sam@example.com") (js "$2b$12$Abc12345!")
    None None SUSPENDED 0 None.

(** A scheduled activity that was completed on 2023-12-30. *)
Definition dentist : Activity.t :=
  Activity.mk (js "a1") (js "u1") (Some (js "Dentist")) None
    DENTIST_APPOINTMENT (Some 1703930400000) (Some 1703894400000)
    (Some COMPLETED_OK) None None.

(** A recorded activity soft-deleted on 2023-12-31. *)
Definition call : Activity.t :=
  Activity.mk (js "a2") (js "u1") None None CALL None
    (Some 1703894400000) (Some NO_SHOW)
    (Some 1703980800000) (Some (js "duplicate")).

(** A scheduled activity still to come. *)
Definition gym : Activity.t :=
  Activity.mk (js "a3") (js "u1") (Some (js "Gym")) None GYM
    (Some 1704153600000) None None None None.

Definition confirmToken : EmailToken.t :=
  EmailToken.mk (js "t1") (js "u1") CONFIRM_EMAIL (js "sha256:tok-1")
    1704100000000 None.

Definition store : Store :=
  mkStore [alice; sam] [confirmToken] [] [dentist; call; gym] [].

End Sample.

(** ** Vocabulary of the properties *)

(** The row [prisma.activity.findFirst({ where: { id, userId } })] sees:
    the activity [id] as far as it belongs to [userId]. *)
Definition ownActivity (userId id : jsstring) (s : Store) : option Activity.t :=
  find (fun a => jsstring_eqb (Activity.id a) id
                 && jsstring_eqb (Activity.userId a) userId)
    (activities s).

(** The account registered under [email]. *)
Definition userByEmail (email : jsstring) (s : Store) : option User.t :=
  find (fun u => jsstring_eqb (User.email u) email) (users s).

(** The row of primary key [id]. *)
Definition userById (id : jsstring) (s : Store) : option User.t :=
  find (fun u => jsstring_eqb (User.id u) id) (users s).

(** The email token stored under [tokenHash]. *)
Definition tokenByHash (tokenHash : jsstring) (s : Store) : option EmailToken.t :=
  find (fun t => jsstring_eqb (EmailToken.tokenHash t) tokenHash)
    (emailTokens s).

(** The store after a confirmation of token [t] that went through. *)
Definition confirmed (t : EmailToken.t) (usedNow : Z) (s : Store) : Store :=
  let s1 :=
    set_users
      (updateWhere (fun u => jsstring_eqb (User.id u) (EmailToken.userId t))
         (UserData.apply (UserData.mk (Some ACTIVE) None None)) (users s)) s in
  set_emailTokens
    (updateWhere (fun x => jsstring_eqb (EmailToken.id x) (EmailToken.id t))
       (Prisma.markUsed usedNow) (emailTokens s1)) s1.

(** A login request as the handler receives it: the body, the clock
    readings and the key the ORM would draw for the refresh-token row. *)
Record LoginRequest := {
  lr_body : JsObject;
  lr_clock : nat -> Z;
  lr_newId : jsstring
}.

Section LoginVocabulary.
Context {E : Externals}.

(** Login requests handled one after the other. *)
Fixpoint loginSeq (reqs : list LoginRequest) (s : Store)
  : list Response * Store :=
  match reqs with
  | [] => ([], s)
  | r :: rest =>
      let (resp, s1) := login (lr_body r) (lr_clock r) (lr_newId r) s in
      let (resps, s2) := loginSeq rest s1 in
      (resp :: resps, s2)
  end.

(** A well-formed login request for [email] whose password does not match
    [hash]. *)
Definition wrongPassword (email hash : jsstring) (r : LoginRequest) : Prop :=
  exists input,
    loginSchema (lr_body r) = inr input
    /\ LoginInput.email input = email
    /\ comparePassword (LoginInput.password input) hash = false.

End LoginVocabulary.

(** The answers to [n] failed attempts in a row that do not reach the
    limit, the counter standing at [c] before the first. *)
Fixpoint invalidCredentials (c : Z) (n : nat) : list Response :=
  match n with
  | O => []
  | S n' =>
      json 401 (BErrorRemaining (Text "Invalid credentials") (10 - (c + 1)))
      :: invalidCredentials (c + 1) n'
  end.

(** The row of a user after a failed attempt. *)
Definition afterFailure (u : User.t) : User.t :=
  UserData.apply
    (UserData.mk
       (Some (if User.failedLoginAttempts u + 1 >=? 10
              then BLOCKED else User.status u))
       (Some (User.failedLoginAttempts u + 1))
       None) u.

(** A login for alice with a password that is not hers. *)
Definition badLogin : LoginRequest :=
  {| lr_body := obj [("email"%string, JStr (js "alice@example.com"));
                     ("password"%string, JStr (js "guess"))];
     lr_clock := fun _ => Sample.now;
     lr_newId := js "r1" |}.

(** Case analysis on whatever the handler branches on next. *)
Ltac branch :=
  match goal with
  | |- context [match ?x with _ => _ end] =>
      lazymatch x with
      | context [match _ with _ => _ end] => fail
      | _ => destruct x eqn:?
      end
  | |- context [if ?x then _ else _] =>
      lazymatch x with
      | context [if _ then _ else _] => fail
      | _ => destruct x eqn:?
      end
  end.

(** ** Vocabulary of the further properties *)

(** The three routes that change an activity in place. *)
Inductive Mutation := Patch | Complete | SoftDelete.

Section Requests.
Context {E : Externals}.

Definition mutate (m : Mutation) (userId id : jsstring) (reqBody : JsObject)
  (now : Z) : Store -> Response * Store :=
  match m with
  | Patch => patch_activity userId id reqBody now
  | Complete => complete_activity userId id reqBody now
  | SoftDelete => delete_activity userId id reqBody now
  end.

(** A request to one of the routes above, with what the handler reads from
    its surroundings (the caller, the clock, the keys and tokens drawn). *)
Inductive Request :=
| ListActivities (userId : jsstring) (reqQuery : JsObject)
| CreateActivity (userId : jsstring) (reqBody : JsObject) (now : Z)
    (newId : jsstring)
| MutateActivity (m : Mutation) (userId id : jsstring) (reqBody : JsObject)
    (now : Z)
| ConfirmEmail (reqBody : JsObject) (now usedNow : Z)
| Login (reqBody : JsObject) (clock : nat -> Z) (newId : jsstring)
| ForgotPassword (reqBody : JsObject) (now : Z) (token newId : jsstring).

Definition serve (r : Request) : Store -> Response * Store :=
  match r with
  | ListActivities userId reqQuery => get_activities userId reqQuery
  | CreateActivity userId reqBody now newId =>
      post_activities userId reqBody now newId
  | MutateActivity m userId id reqBody now => mutate m userId id reqBody now
  | ConfirmEmail reqBody now usedNow => confirm_email reqBody now usedNow
  | Login reqBody clock newId => login reqBody clock newId
  | ForgotPassword reqBody now token newId =>
      forgot_password reqBody now token newId
  end.

(** The store after a sequence of requests. *)
Definition serveAll (rs : list Request) (s : Store) : Store :=
  fold_left (fun s' r => snd (serve r s')) rs s.

End Requests.

(** The shape the data model asks of an activity row: it is scheduled or
    recorded, it has an outcome exactly when it is recorded, and it has a
    deletion reason exactly when it is deleted. *)
Definition wellFormed (a : Activity.t) : Prop :=
  (Activity.scheduledAt a <> None \/ Activity.recordedAt a <> None)
  /\ (Activity.recordedAt a = None <-> Activity.completionOutcome a = None)
  /\ (Activity.deletedAt a = None <-> Activity.deletedReason a = None).

(** Row by row, [after] is [before] with the same keys, owners and types,
    and nothing but the rows of key [id] may differ. *)
Definition sameRowsBut (id : jsstring) (before after : list Activity.t) : Prop :=
  Forall2
    (fun a a' =>
       Activity.id a' = Activity.id a
       /\ Activity.userId a' = Activity.userId a
       /\ Activity.activityType a' = Activity.activityType a
       /\ (Activity.id a <> id -> a' = a))
    before after.

(** What each of the three routes may write into the row [a] it found, at
    time [now]. *)
Definition allowed (m : Mutation) (now : Z) (a : Activity.t)
  (d : ActivityData.t) : Prop :=
  match m with
  | Patch =>
      ActivityData.recordedAt d = None
      /\ ActivityData.completionOutcome d = None
      /\ ActivityData.deletedAt d = None
      /\ ActivityData.deletedReason d = None
      /\ (forall x, ActivityData.scheduledAt d = Some x -> now < x)
  | Complete =>
      Activity.scheduledAt a <> None
      /\ ActivityData.title d = None
      /\ ActivityData.notes d = None
      /\ ActivityData.scheduledAt d = None
      /\ (exists x, ActivityData.recordedAt d = Some x /\ x < now)
      /\ ActivityData.completionOutcome d <> None
      /\ ActivityData.deletedAt d = None
      /\ ActivityData.deletedReason d = None
  | SoftDelete =>
      ActivityData.title d = None
      /\ ActivityData.notes d = None
      /\ ActivityData.scheduledAt d = None
      /\ ActivityData.recordedAt d = None
      /\ ActivityData.completionOutcome d = None
      /\ ActivityData.deletedAt d = Some now
      /\ (exists reason, ActivityData.deletedReason d = Some reason
                         /\ reason <> [])
  end.

(** ** The remaining schemas (utils/validation.ts) *)

(** [.min(n, msg)] *)
Definition zMin (n : nat) (msg : Message) (s : jsstring) : ZodResult jsstring :=
  if Nat.ltb (List.length s) n then inl msg else inr s.

(** [.refine(test, { message })] *)
Definition zRefine (test : jsstring -> bool) (msg : Message) (s : jsstring)
  : ZodResult jsstring :=
  if test s then inr s else inl msg.

(** [passwordSchema]: [z.string().min(8).refine(..)], whose three regular
    expressions are those of [validatePasswordStrength]. When both the
    length and the refinement fail, the length issue comes first. *)
Definition passwordSchema (path : string) (v : jsval) : ZodResult jsstring :=
  s <~ zString path v ;;
  s <~ zMin 8 (ZodDefault too_small path) s ;;
  zRefine
    (fun password =>
       let hasLetter := Password.test Password.isLetter password in
       let hasNumber := Password.test Password.isNumber password in
       let hasSymbol := Password.test Password.isSymbol password in
       hasLetter && hasNumber && hasSymbol)
    (Text "Password must include letters, numbers, and symbols") s.

Module SignupInput.
Record t := mk {
  email : jsstring;
  password : jsstring;
  firstName : option jsstring;
  lastName : option jsstring
}.
End SignupInput.

Module ResetInput.
Record t := mk { token : jsstring; newPassword : jsstring }.
End ResetInput.

Module ProfileInput.
Record t := mk { firstName : option jsstring; lastName : option jsstring }.
End ProfileInput.

Section MoreSchemas.
Context {E : Externals}.

Definition signupSchema (o : JsObject) : ZodResult SignupInput.t :=
  email <~ zEmail "email" (o "email"%string) ;;
  password <~ passwordSchema "password" (o "password"%string) ;;
  firstName <~ zOptional
                 (fun v => s <~ zString "firstName" v ;;
                           zMin1 (Text "First name is required") s)
                 (o "firstName"%string) ;;
  lastName <~ zOptional
                (fun v => s <~ zString "lastName" v ;;
                          zMin1 (Text "Last name is required") s)
                (o "lastName"%string) ;;
  inr (SignupInput.mk email password firstName lastName).

Definition resetPasswordSchema (o : JsObject) : ZodResult ResetInput.t :=
  token <~ (s <~ zString "token" (o "token"%string) ;;
            zMin1 (Text "Token is required") s) ;;
  newPassword <~ passwordSchema "newPassword" (o "newPassword"%string) ;;
  inr (ResetInput.mk token newPassword).

End MoreSchemas.

(** The parsed value is its [refreshToken]. *)
Definition refreshTokenSchema (o : JsObject) : ZodResult jsstring :=
  s <~ zString "refreshToken" (o "refreshToken"%string) ;;
  zMin1 (Text "Refresh token is required") s.

Definition updateProfileSchema (o : JsObject) : ZodResult ProfileInput.t :=
  firstName <~ zOptional
                 (fun v => s <~ zString "firstName" v ;;
                           zMin1 (Text "First name cannot be empty") s)
                 (o "firstName"%string) ;;
  lastName <~ zOptional
                (fun v => s <~ zString "lastName" v ;;
                          zMin1 (Text "Last name cannot be empty") s)
                (o "lastName"%string) ;;
  inr (ProfileInput.mk firstName lastName).

(** ** Verifying signed tokens (utils/jwt.ts) *)

(** What [jwt.verify] does with a token: it returns the payload, or throws
    an error named [TokenExpiredError], or throws another error. *)
Inductive Verification :=
| Verified (payload : JWT.Payload)
| TokenExpiredError
| OtherTokenError.

Class Verifier := {
  verifyAccessToken : jsstring -> Verification;
  verifyRefreshToken : jsstring -> Verification
}.

(** ** The access-token middleware (middleware/auth.middleware.ts) *)

(** [s.startsWith(prefix)] *)
Definition startsWith (prefix s : jsstring) : bool :=
  jsstring_eqb (firstn (List.length prefix) s) prefix.

(** [s.substring(n)] *)
Definition substring (n : nat) (s : jsstring) : jsstring := skipn n s.

(** [authMiddleware], given [req.headers.authorization]: it answers 401
    itself, or sets [req.user] to the payload and calls [next()]. *)
Definition authMiddleware {V : Verifier} (authorization : option jsstring)
  : Response + JWT.Payload :=
  match authorization with
  | None => inl (json 401 (BError (Text "No authorization token provided")))
  | Some authHeader =>
      if negb (nonEmpty authHeader)
         || negb (startsWith (js "Bearer ") authHeader)
      then inl (json 401 (BError (Text "No authorization token provided")))
      else
        let token := substring 7 authHeader in
        match verifyAccessToken token with
        | Verified payload => inr payload
        | TokenExpiredError => inl (json 401 (BError (Text "Token expired")))
        | OtherTokenError => inl (json 401 (BError (Text "Invalid token")))
        end
  end.

(** A router mounted behind [router.use(authMiddleware)]: the handler runs
    for [req.user.userId] when the middleware calls [next()]. *)
Definition behindAuth {V : Verifier} {S : Type} (authorization : option jsstring)
  (handler : jsstring -> S -> Response * S) (s : S) : Response * S :=
  match authMiddleware authorization with
  | inl refused => (refused, s)
  | inr payload => handler (JWT.userId payload) s
  end.

(** ** The whole database and the routes over it *)

Module PasswordHistory.
Record t := mk {
  id : jsstring;
  userId : jsstring;
  passwordHash : jsstring;
  createdAt : Z
}.
End PasswordHistory.

(** The store of the routes above together with the table of past
    password hashes. *)
Record Database := mkDatabase {
  core : Store;
  passwordHistory : list PasswordHistory.t
}.

(** The bodies of the routes below: those of the routes above, and three
    more. The profile carries the selected columns (the two timestamps the
    ORM maintains are left out, as in the tables). *)
Inductive Content :=
| Plain (b : Body)
| CAccessToken (accessToken : jsstring)
| CProfile (user : UserInfo)
| CProfileUpdated (message : string) (user : UserInfo).

Record Reply := { code : Z; content : Content }.

Definition reply (c : Z) (b : Content) : Reply := {| code := c; content := b |}.

Definition DbQuery (A : Type) := Database -> Exn + (A * Database).

Inductive Outcome (A : Type) :=
| Continue (a : A)
| Sent (r : Reply)
| Raised (e : Exn).

Arguments Continue {A} a.
Arguments Sent {A} r.
Arguments Raised {A} e.

Definition Action (A : Type) := Database -> Outcome A * Database.

Definition done {A} (a : A) : Action A := fun d => (Continue a, d).

Definition andThen {A B} (m : Action A) (k : A -> Action B) : Action B :=
  fun d =>
    match m d with
    | (Continue a, d') => k a d'
    | (Sent r, d') => (Sent r, d')
    | (Raised e, d') => (Raised e, d')
    end.

Notation "x <<- m ;; k" := (andThen m (fun x => k))
  (at level 61, m at next level, right associativity).

(** [return res.status(code).json(b)] *)
Definition send {A} (c : Z) (b : Content) : Action A :=
  fun d => (Sent (reply c b), d).

Definition parsed {A} (z : ZodResult A) : Action A :=
  fun d =>
    match z with
    | inl m => (Raised (ZodError m), d)
    | inr a => (Continue a, d)
    end.

Definition awaited {A} (q : DbQuery A) : Action A :=
  fun d =>
    match q d with
    | inl e => (Raised e, d)
    | inr (a, d') => (Continue a, d')
    end.

(** A query on the tables of the store, run on the database. *)
Definition onStore {A} (q : Query A) : DbQuery A :=
  fun d =>
    match q (core d) with
    | inl e => inl e
    | inr (a, c) => inr (a, mkDatabase c (passwordHistory d))
    end.

(** The [try]/[catch] of the routes that validate a body. *)
Definition endpoint (h : Action Reply) (d : Database) : Reply * Database :=
  match h d with
  | (Continue r, d') => (r, d')
  | (Sent r, d') => (r, d')
  | (Raised (ZodError m), d') => (reply 400 (Plain (BError m)), d')
  | (Raised (PrismaError _), d') =>
      (reply 500 (Plain (BError (Text "Internal server error"))), d')
  end.

(** The [try]/[catch] of GET /me and of the unblock route, which answer
    every exception with 500. *)
Definition endpoint500 (h : Action Reply) (d : Database) : Reply * Database :=
  match h d with
  | (Continue r, d') => (r, d')
  | (Sent r, d') => (r, d')
  | (Raised _, d') =>
      (reply 500 (Plain (BError (Text "Internal server error"))), d')
  end.

Module PrismaMore.

(** [prisma.refreshToken.findUnique({ where: { tokenHash } })] *)
Definition refreshToken_findUnique (tokenHash : jsstring)
  : Query (option RefreshToken.t) :=
  fun s =>
    inr (find (fun t => jsstring_eqb (RefreshToken.tokenHash t) tokenHash)
           (refreshTokens s), s).

Definition revoke (at_ : Z) (t : RefreshToken.t) : RefreshToken.t :=
  RefreshToken.mk (RefreshToken.id t) (RefreshToken.userId t)
    (RefreshToken.tokenHash t) (Some at_) (RefreshToken.expiresAt t).

(** [prisma.refreshToken.updateMany({ where: { tokenHash }, data: {
    revokedAt } })]: it yields the number of rows it wrote, and writing
    none is no error. *)
Definition refreshToken_updateMany (tokenHash : jsstring) (revokedAt : Z)
  : Query nat :=
  fun s =>
    let sel := fun t => jsstring_eqb (RefreshToken.tokenHash t) tokenHash in
    inr (List.length (filter sel (refreshTokens s)),
         set_refreshTokens (updateWhere sel (revoke revokedAt) (refreshTokens s))
           s).

(** [prisma.user.findUnique({ where: { id } })] *)
Definition user_findUniqueById (id : jsstring) : Query (option User.t) :=
  fun s => inr (find (fun u => jsstring_eqb (User.id u) id) (users s), s).

Definition setNames (firstName lastName : option jsstring) (u : User.t)
  : User.t :=
  User.mk (User.id u) (User.email u) (User.passwordHash u)
    (match firstName with Some v => Some v | None => User.firstName u end)
    (match lastName with Some v => Some v | None => User.lastName u end)
    (User.status u) (User.failedLoginAttempts u) (User.lastLoginAt u).

(** [prisma.user.update({ where: { id }, data: { firstName, lastName } })] *)
Definition user_updateProfile (id : jsstring)
  (firstName lastName : option jsstring) : Query User.t :=
  fun s =>
    let sel := fun u => jsstring_eqb (User.id u) id in
    match find sel (users s) with
    | None => inl (PrismaError RecordNotFound)
    | Some u =>
        inr (setNames firstName lastName u,
             set_users (updateWhere sel (setNames firstName lastName) (users s))
               s)
    end.

Definition setPasswordHash (passwordHash : jsstring) (u : User.t) : User.t :=
  User.mk (User.id u) (User.email u) passwordHash
    (User.firstName u) (User.lastName u)
    (User.status u) (User.failedLoginAttempts u) (User.lastLoginAt u).

(** [prisma.user.update({ where: { id }, data: { passwordHash } })] *)
Definition user_updatePassword (id passwordHash : jsstring) : Query User.t :=
  fun s =>
    let sel := fun u => jsstring_eqb (User.id u) id in
    match find sel (users s) with
    | None => inl (PrismaError RecordNotFound)
    | Some u =>
        inr (setPasswordHash passwordHash u,
             set_users (updateWhere sel (setPasswordHash passwordHash) (users s))
               s)
    end.

(** [prisma.user.update({ where: { email }, data })]; an [email] that is
    not a string is refused before the query runs. *)
Definition user_updateByEmail (email : jsval) (data : UserData.t)
  : Query User.t :=
  fun s =>
    match email with
    | JStr e =>
        let sel := fun u => jsstring_eqb (User.email u) e in
        match find sel (users s) with
        | None => inl (PrismaError RecordNotFound)
        | Some u =>
            inr (UserData.apply data u,
                 set_users (updateWhere sel (UserData.apply data) (users s)) s)
        end
    | _ => inl (PrismaError InvalidArgument)
    end.

(** [prisma.user.create({ data })]: [id] is the primary key and [email]
    has a unique index. *)
Definition user_create (row : User.t) : Query User.t :=
  fun s =>
    if existsb (fun u => jsstring_eqb (User.id u) (User.id row)
                         || jsstring_eqb (User.email u) (User.email row))
         (users s)
    then inl (PrismaError UniqueConstraint)
    else inr (row, set_users (users s ++ [row]) s).

(** [prisma.passwordHistory.create({ data })] *)
Definition passwordHistory_create (row : PasswordHistory.t)
  : DbQuery PasswordHistory.t :=
  fun d =>
    if existsb (fun h => jsstring_eqb (PasswordHistory.id h)
                           (PasswordHistory.id row))
         (passwordHistory d)
    then inl (PrismaError UniqueConstraint)
    else inr (row, mkDatabase (core d) (passwordHistory d ++ [row])).

Fixpoint insertRecent (h : PasswordHistory.t) (l : list PasswordHistory.t)
  : list PasswordHistory.t :=
  match l with
  | [] => [h]
  | x :: l' =>
      if PasswordHistory.createdAt x <=? PasswordHistory.createdAt h
      then h :: l
      else x :: insertRecent h l'
  end.

(** Most recent first; rows created at the same instant stay in table
    order. *)
Definition mostRecentFirst (l : list PasswordHistory.t)
  : list PasswordHistory.t :=
  fold_right insertRecent [] l.

(** [prisma.passwordHistory.findMany({ where: { userId }, orderBy: {
    createdAt: 'desc' }, take })] *)
Definition passwordHistory_findMany (userId : jsstring) (take : nat)
  : DbQuery (list PasswordHistory.t) :=
  fun d =>
    inr (firstn take
           (mostRecentFirst
              (filter (fun h => jsstring_eqb (PasswordHistory.userId h) userId)
                 (passwordHistory d))),
         d).

Definition dbVoid {A} (q : DbQuery A) : DbQuery unit :=
  fun d =>
    match q d with
    | inl e => inl e
    | inr (_, d') => inr (tt, d')
    end.

Fixpoint dbBatch (qs : list (DbQuery unit)) (d : Database) : Exn + Database :=
  match qs with
  | [] => inr d
  | q :: rest =>
      match q d with
      | inl e => inl e
      | inr (_, d') => dbBatch rest d'
      end
  end.

(** [prisma.$transaction([..])] over the whole database. *)
Definition dbTransaction (qs : list (DbQuery unit)) : DbQuery unit :=
  fun d =>
    match dbBatch qs d with
    | inl e => inl e
    | inr d' => inr (tt, d')
    end.

End PrismaMore.

(** [emailService.sendEmailConfirmation] *)
Definition sendEmailConfirmation (to token : jsstring) : Handler unit :=
  let confirmLink := js "http://localhost:5173/confirm-email?token=" ++ token in
  sendEmail (Email.mk to "Confirm your Schedula account" confirmLink).

(** An email sent from a route over the database. *)
Definition mailed (h : Handler unit) : Action unit :=
  fun d =>
    match h (core d) with
    | (Next a, c) => (Continue a, mkDatabase c (passwordHistory d))
    | (Respond r, c) =>
        (Sent (reply (statusCode r) (Plain (body r))),
         mkDatabase c (passwordHistory d))
    | (Throw e, c) => (Raised e, mkDatabase c (passwordHistory d))
    end.

Definition profileOf (u : User.t) : UserInfo :=
  {| info_id := User.id u;
     info_email := User.email u;
     info_firstName := User.firstName u;
     info_lastName := User.lastName u |}.

Section MoreRoutes.
Context {E : Externals} {V : Verifier}.

(** POST /auth/refresh. [now] is the clock at the expiry test, [signedAt]
    the clock when the new access token is signed. *)
Definition refresh_body (reqBody : JsObject) (now signedAt : Z)
  : Action Reply :=
  refreshToken <<- parsed (refreshTokenSchema reqBody) ;;
  let tokenHash := hashToken refreshToken in
  match verifyRefreshToken refreshToken with
  | Verified payload =>
      storedToken <<- awaited (onStore (PrismaMore.refreshToken_findUnique
                                          tokenHash)) ;;
      if match storedToken with
         | None => true
         | Some row =>
             isSome (RefreshToken.revokedAt row)
             || (RefreshToken.expiresAt row <? now)
         end
      then send 401 (Plain (BError (Text "Invalid or expired refresh token")))
      else
        let accessToken :=
          generateAccessToken
            (JWT.Build_Payload (JWT.userId payload) (JWT.email payload))
            signedAt in
        done (reply 200 (CAccessToken accessToken))
  | _ => send 401 (Plain (BError (Text "Invalid refresh token")))
  end.

Definition refresh (reqBody : JsObject) (now signedAt : Z)
  : Database -> Reply * Database :=
  endpoint (refresh_body reqBody now signedAt).

(** POST /auth/logout *)
Definition logout_body (reqBody : JsObject) (now : Z) : Action Reply :=
  refreshToken <<- parsed (refreshTokenSchema reqBody) ;;
  let tokenHash := hashToken refreshToken in
  _ <<- awaited (onStore (PrismaMore.refreshToken_updateMany tokenHash now)) ;;
  done (reply 200 (Plain (BMessage "Logged out successfully"))).

Definition logout (reqBody : JsObject) (now : Z)
  : Database -> Reply * Database :=
  endpoint (logout_body reqBody now).

(** GET /me *)
Definition get_me_body (userId : jsstring) : Action Reply :=
  user <<- awaited (onStore (PrismaMore.user_findUniqueById userId)) ;;
  match user with
  | None => send 404 (Plain (BError (Text "User not found")))
  | Some user => done (reply 200 (CProfile (profileOf user)))
  end.

Definition get_me (userId : jsstring) : Database -> Reply * Database :=
  endpoint500 (get_me_body userId).

(** PATCH /me *)
Definition patch_me_body (userId : jsstring) (reqBody : JsObject)
  : Action Reply :=
  body <<- parsed (updateProfileSchema reqBody) ;;
  updatedUser <<- awaited (onStore (PrismaMore.user_updateProfile userId
                                      (ProfileInput.firstName body)
                                      (ProfileInput.lastName body))) ;;
  done (reply 200
          (CProfileUpdated "Profile updated successfully"
             (profileOf updatedUser))).

Definition patch_me (userId : jsstring) (reqBody : JsObject)
  : Database -> Reply * Database :=
  endpoint (patch_me_body userId reqBody).

(** POST /auth/dev/unblock, registered only when [process.env.NODE_ENV] is
    ['development']; otherwise the request falls through to the 404 handler
    of the application. *)
Definition dev_unblock (nodeEnv : option jsstring) (reqBody : JsObject)
  : Database -> Reply * Database :=
  match nodeEnv with
  | Some env =>
      if jsstring_eqb env (js "development") then
        endpoint500
          (let email := reqBody "email"%string in
           _ <<- awaited (onStore (PrismaMore.user_updateByEmail email
                                     (UserData.mk (Some ACTIVE) (Some 0) None))) ;;
           done (reply 200 (Plain (BMessage "User unblocked successfully"))))
      else fun d => (reply 404 (Plain (BError (Text "Route not found"))), d)
  | None => fun d => (reply 404 (Plain (BError (Text "Route not found"))), d)
  end.

End MoreRoutes.

(** What signup draws from its surroundings: the salted hash
    [hashPassword] returns, the keys of the three rows, the time the
    database stamps on the history row, the random token and the clock. *)
Record SignupDraw := {
  su_passwordHash : jsstring;
  su_userId : jsstring;
  su_historyId : jsstring;
  su_historyCreatedAt : Z;
  su_token : jsstring;
  su_tokenId : jsstring;
  su_now : Z
}.

(** What reset-password draws: the two clock readings, the new salted
    hash, the key and the time stamp of the history row. *)
Record ResetDraw := {
  rp_now : Z;
  rp_usedNow : Z;
  rp_passwordHash : jsstring;
  rp_historyId : jsstring;
  rp_historyCreatedAt : Z
}.

(** [{ error: passwordValidation.error }]; a result that is not valid
    always carries its message. *)
Definition errorOf (v : Password.Validation) : Message :=
  match Password.error v with
  | Some m => Text m
  | None => Text EmptyString
  end.

Section AccountRoutes.
Context {E : Externals}.

(** POST /auth/signup *)
Definition signup_body (reqBody : JsObject) (draw : SignupDraw)
  : Action Reply :=
  body <<- parsed (signupSchema reqBody) ;;
  existingUser <<- awaited (onStore (Prisma.user_findUnique
                                       (SignupInput.email body))) ;;
  match existingUser with
  | Some _ => send 400 (Plain (BError (Text "Email already registered")))
  | None =>
      let passwordValidation :=
        Password.validatePasswordStrength (SignupInput.password body) in
      if negb (Password.valid passwordValidation) then
        send 400 (Plain (BError (errorOf passwordValidation)))
      else
        let passwordHash := su_passwordHash draw in
        user <<- awaited (onStore (PrismaMore.user_create
                                     (User.mk (su_userId draw)
                                        (SignupInput.email body) passwordHash
                                        (SignupInput.firstName body)
                                        (SignupInput.lastName body)
                                        WAITING_EMAIL_CONFIRMATION 0 None))) ;;
        _ <<- awaited (PrismaMore.passwordHistory_create
                         (PasswordHistory.mk (su_historyId draw) (User.id user)
                            passwordHash (su_historyCreatedAt draw))) ;;
        let token := su_token draw in
        let tokenHash := hashToken token in
        _ <<- awaited (onStore (Prisma.emailToken_create
                                  (EmailToken.mk (su_tokenId draw) (User.id user)
                                     CONFIRM_EMAIL tokenHash
                                     (su_now draw + 24 * 60 * 60 * 1000) None))) ;;
        _ <<- mailed (sendEmailConfirmation (User.email user) token) ;;
        send 201
          (Plain (BMessage "User created successfully. Please check your email to confirm your account."))
  end.

Definition signup (reqBody : JsObject) (draw : SignupDraw)
  : Database -> Reply * Database :=
  endpoint (signup_body reqBody draw).

(** The loop over the password history, which returns at the first hash
    the new password matches. *)
Fixpoint checkHistory (newPassword : jsstring) (history : list PasswordHistory.t)
  (next : Action Reply) : Action Reply :=
  match history with
  | [] => next
  | oldPassword :: rest =>
      let isSamePassword :=
        comparePassword newPassword (PasswordHistory.passwordHash oldPassword) in
      if isSamePassword then
        send 400 (Plain (BError (Text "Cannot reuse any of your last 5 passwords")))
      else checkHistory newPassword rest next
  end.

(** POST /auth/reset-password *)
Definition reset_password_body (reqBody : JsObject) (draw : ResetDraw)
  : Action Reply :=
  body <<- parsed (resetPasswordSchema reqBody) ;;
  let tokenHash := hashToken (ResetInput.token body) in
  emailToken <<- awaited (onStore (Prisma.emailToken_findUnique tokenHash)) ;;
  match emailToken with
  | None => send 400 (Plain (BError (Text "Invalid or expired token")))
  | Some emailToken =>
      if isSome (EmailToken.usedAt emailToken) then
        send 400 (Plain (BError (Text "Token already used")))
      else if EmailToken.expiresAt emailToken <? rp_now draw then
        send 400 (Plain (BError (Text "Token expired")))
      else if negb (EmailTokenType_eqb (EmailToken.type emailToken)
                      RESET_PASSWORD) then
        send 400 (Plain (BError (Text "Invalid token type")))
      else
        let passwordValidation :=
          Password.validatePasswordStrength (ResetInput.newPassword body) in
        if negb (Password.valid passwordValidation) then
          send 400 (Plain (BError (errorOf passwordValidation)))
        else
          passwordHistory <<-
            awaited (PrismaMore.passwordHistory_findMany
                       (EmailToken.userId emailToken) 5) ;;
          checkHistory (ResetInput.newPassword body) passwordHistory
            (let newPasswordHash := rp_passwordHash draw in
             _ <<- awaited
                     (PrismaMore.dbTransaction
                        [ PrismaMore.dbVoid
                            (onStore (PrismaMore.user_updatePassword
                                        (EmailToken.userId emailToken)
                                        newPasswordHash));
                          PrismaMore.dbVoid
                            (PrismaMore.passwordHistory_create
                               (PasswordHistory.mk (rp_historyId draw)
                                  (EmailToken.userId emailToken)
                                  newPasswordHash
                                  (rp_historyCreatedAt draw)));
                          PrismaMore.dbVoid
                            (onStore (Prisma.emailToken_update
                                        (EmailToken.id emailToken)
                                        (rp_usedNow draw))) ]) ;;
             done (reply 200 (Plain (BMessage "Password reset successfully"))))
  end.

Definition reset_password (reqBody : JsObject) (draw : ResetDraw)
  : Database -> Reply * Database :=
  endpoint (reset_password_body reqBody draw).

End AccountRoutes.

(** *** Samples for the routes over the database *)

Module SampleMore.

(** A verifier that knows the tokens the sample instance signs for the two
    sample accounts, and one token past its expiry. *)
Definition verifier : Verifier := {|
  verifyAccessToken := fun t =>
    if jsstring_eqb t (js "access.u1") then
      Verified (JWT.Build_Payload (js "u1") (js "alice@example.com"))
    else if jsstring_eqb t (js "access.u2") then
      Verified (JWT.Build_Payload (js "u2") (js "sam@example.com"))
    else if jsstring_eqb t (js "access.old") then TokenExpiredError
    else OtherTokenError;
  verifyRefreshToken := fun t =>
    if jsstring_eqb t (js "refresh.u1") then
      Verified (JWT.Build_Payload (js "u1") (js "alice@example.com"))
    else if jsstring_eqb t (js "refresh.u2") then
      Verified (JWT.Build_Payload (js "u2") (js "sam@example.com"))
    else if jsstring_eqb t (js "refresh.old") then TokenExpiredError
    else OtherTokenError
|}.

(** alice's refresh token, stored on 2023-12-31 with a week to live. *)
Definition session : RefreshToken.t :=
  RefreshToken.mk (js "r0") (js "u1") (js "sha256:refresh.u1") None
    1704585600000.

(** A reset token for alice, good until an hour after [Sample.now]. *)
Definition resetToken : EmailToken.t :=
  EmailToken.mk (js "t5") (js "u1") RESET_PASSWORD (js "sha256:tok-5")
    1704070800000 None.

(** alice's passwords so far, oldest first, one a day. *)
Definition history : list PasswordHistory.t :=
  [ PasswordHistory.mk (js "h1") (js "u1") (js "$2b$12$Pass-one1") 1703548800000;
    PasswordHistory.mk (js "h2") (js "u1") (js "$2b$12$Pass-two2") 1703635200000;
    PasswordHistory.mk (js "h3") (js "u1") (js "$2b$12$Pass-three3") 1703721600000;
    PasswordHistory.mk (js "h4") (js "u1") (js "$2b$12$Pass-four4") 1703808000000;
    PasswordHistory.mk (js "h5") (js "u1") (js "$2b$12$Pass-five5") 1703894400000;
    PasswordHistory.mk (js "h6") (js "u1") (js "$2b$12$Abc12345!") 1703980800000 ].

Definition database : Database :=
  mkDatabase
    (mkStore (users Sample.store) [Sample.confirmToken; resetToken] [session]
       (activities Sample.store) [])
    history.

End SampleMore.

(** ** Vocabulary of the properties of the routes over the database *)

(** The rows reset-password compares a new password with: the five most
    recent rows of the user's password history. *)
Definition recentPasswords (userId : jsstring) (d : Database)
  : list PasswordHistory.t :=
  firstn 5
    (PrismaMore.mostRecentFirst
       (filter (fun h => jsstring_eqb (PasswordHistory.userId h) userId)
          (passwordHistory d))).

(** The database after a password reset with token [t] that went
    through. *)
Definition afterReset (t : EmailToken.t) (draw : ResetDraw) (d : Database)
  : Database :=
  mkDatabase
    (set_emailTokens
       (updateWhere (fun x => jsstring_eqb (EmailToken.id x) (EmailToken.id t))
          (Prisma.markUsed (rp_usedNow draw)) (emailTokens (core d)))
       (set_users
          (updateWhere
             (fun u => jsstring_eqb (User.id u) (EmailToken.userId t))
             (PrismaMore.setPasswordHash (rp_passwordHash draw))
             (users (core d)))
          (core d)))
    (passwordHistory d
     ++ [PasswordHistory.mk (rp_historyId draw) (EmailToken.userId t)
           (rp_passwordHash draw) (rp_historyCreatedAt draw)]).

(** A request to any of the modelled routes. *)
Inductive DbRequest :=
| OnStore (r : Request)
| Signup (reqBody : JsObject) (draw : SignupDraw)
| ResetPassword (reqBody : JsObject) (draw : ResetDraw)
| Refresh (reqBody : JsObject) (now signedAt : Z)
| Logout (reqBody : JsObject) (now : Z)
| GetMe (userId : jsstring)
| PatchMe (userId : jsstring) (reqBody : JsObject)
| DevUnblock (nodeEnv : option jsstring) (reqBody : JsObject).

Section DbRequests.
Context {E : Externals} {V : Verifier}.

(** The database after a request. *)
Definition dbServe (r : DbRequest) (d : Database) : Database :=
  match r with
  | OnStore r' => mkDatabase (snd (serve r' (core d))) (passwordHistory d)
  | Signup reqBody draw => snd (signup reqBody draw d)
  | ResetPassword reqBody draw => snd (reset_password reqBody draw d)
  | Refresh reqBody now signedAt => snd (refresh reqBody now signedAt d)
  | Logout reqBody now => snd (logout reqBody now d)
  | GetMe userId => snd (get_me userId d)
  | PatchMe userId reqBody => snd (patch_me userId reqBody d)
  | DevUnblock nodeEnv reqBody => snd (dev_unblock nodeEnv reqBody d)
  end.

Definition dbServeAll (rs : list DbRequest) (d : Database) : Database :=
  fold_left (fun d' r => dbServe r d') rs d.

End DbRequests.

(** ** Relations between the database before and after a route *)

Section Kept.
Variable R : Database -> Database -> Prop.

(** Whatever the action does, the database it leaves is related to the
    one it started from. *)
Definition keeps {A} (m : Action A) : Prop := forall d, R d (snd (m d)).

Definition queryKeeps {A} (q : DbQuery A) : Prop :=
  forall d a d', q d = inr (a, d') -> R d d'.

End Kept.

(** The password history of [d'] is the one of [d] with rows added at its
    end. *)
Definition historyExtends (d d' : Database) : Prop :=
  exists added, passwordHistory d' = passwordHistory d ++ added.

(** A user row with its password hash blanked. *)
Definition withoutHash (u : User.t) : User.t := PrismaMore.setPasswordHash [] u.

(** [d'] differs from [d] at most in password hashes, email tokens and
    the password history. *)
Definition sameButPasswords (d d' : Database) : Prop :=
  map withoutHash (users (core d')) = map withoutHash (users (core d))
  /\ refreshTokens (core d') = refreshTokens (core d)
  /\ activities (core d') = activities (core d)
  /\ outbox (core d') = outbox (core d).


(** *** Sample requests *)

Module SampleRequests.

(** The first three days of 2024. *)
Definition januaryQuery : JsObject :=
  obj [("from"%string, JStr (js "2024-01-01T00:00:00Z"));
       ("to"%string, JStr (js "2024-01-03T00:00:00Z"))].

(** The gym session moved to 2024-01-04. *)
Definition moveGym : JsObject :=
  obj [("scheduledAt"%string, JStr (js "2024-01-04T00:00:00Z"))].

(** The same, with a new title. *)
Definition moveAndRenameGym : JsObject :=
  obj [("title"%string, JStr (js "Gym at noon"));
       ("scheduledAt"%string, JStr (js "2024-01-04T00:00:00Z"))].

Definition aliceLogin : JsObject :=
  obj [("email"%string, JStr (js "alice@example.com"));
       ("password"%string, JStr (js "Abc12345!"))].

Definition goodLogin : LoginRequest :=
  {| lr_body := aliceLogin;
     lr_clock := fun _ => Sample.now;
     lr_newId := js "r2" |}.

Definition strangerLogin : JsObject :=
  obj [("email"%string, JStr (js "nobody@example.com"));
       ("password"%string, JStr (js "Abc12345!"))].

Definition aliceForgot : JsObject :=
  obj [("email"%string, JStr (js "alice@example.com"))].

Definition aliceRefresh : JsObject :=
  obj [("refreshToken"%string, JStr (js "refresh.u1"))].

Definition rename : JsObject :=
  obj [("firstName"%string, JStr (js "Alice"))].



Definition bobDraw : SignupDraw :=
  {| su_passwordHash := js "$2b$12$Abc12345!";
     su_userId := js "u3";
     su_historyId := js "h7";
     su_historyCreatedAt := Sample.now;
     su_token := js "tok-7";
     su_tokenId := js "t7";
     su_now := Sample.now |}.

Definition aliceSignup : JsObject :=
  obj [("email"%string, JStr (js "alice@example.com"));
       ("password"%string, JStr (js "Abc12345!"))].

(** alice's oldest password, the sixth most recent. *)
Definition resetToOldest : JsObject :=
  obj [("token"%string, JStr (js "tok-5"));
       ("newPassword"%string, JStr (js "Pass-one1"))].

(** alice's fifth most recent password. *)
Definition resetToRecent : JsObject :=
  obj [("token"%string, JStr (js "tok-5"));
       ("newPassword"%string, JStr (js "Pass-two2"))].

Definition resetWithConfirmToken : JsObject :=
  obj [("token"%string, JStr (js "tok-1"));
       ("newPassword"%string, JStr (js "Pass-one1"))].

Definition resetDraw : ResetDraw :=
  {| rp_now := Sample.now;
     rp_usedNow := Sample.now;
     rp_passwordHash := js "$2b$12$Pass-one1";
     rp_historyId := js "h7";
     rp_historyCreatedAt := Sample.now |}.

Definition aliceNewLogin : JsObject :=
  obj [("email"%string, JStr (js "alice@example.com"));
       ("password"%string, JStr (js "Pass-one1"))].

(** A reset with the token forgot-password mails. *)
Definition resetAfterForgot : JsObject :=
  obj [("token"%string, JStr (js "tok-8"));
       ("newPassword"%string, JStr (js "Pass-one1"))].

End SampleRequests.


(** The sample database with alice logged out everywhere. *)
Definition loggedOut : Database :=
  mkDatabase (set_refreshTokens [] (core SampleMore.database))
    SampleMore.history.


(** * Properties *)

(** ** Password strength *)

Module PasswordFacts.
Import Password.

Lemma symbols_punctuation : symbols = punctuation.
Proof. reflexivity. Qed.

Lemma isLetter_spec (c : N) :
  isLetter c = true <-> ((65 <= c <= 90) \/ (97 <= c <= 122))%N.
Proof.
  unfold isLetter.
  rewrite Bool.orb_true_iff, !Bool.andb_true_iff, !N.leb_le. tauto.
Qed.

Lemma isNumber_spec (c : N) : isNumber c = true <-> (48 <= c <= 57)%N.
Proof.
  unfold isNumber. rewrite Bool.andb_true_iff, !N.leb_le. tauto.
Qed.

Lemma isSymbol_spec (c : N) : isSymbol c = true <-> In c punctuation.
Proof.
  unfold isSymbol. rewrite symbols_punctuation, existsb_exists. split.
  - intros [x [Hin Heq]]. apply N.eqb_eq in Heq. now subst.
  - intros Hin. exists c. split; [assumption | apply N.eqb_refl].
Qed.

Lemma test_spec (cls : N -> bool) (P : N -> Prop) (p : jsstring) :
  (forall c, cls c = true <-> P c) ->
  (test cls p = true <-> exists c, In c p /\ P c).
Proof.
  intros H. unfold test. rewrite existsb_exists.
  split; intros [c [Hin Hc]]; exists c; split; auto; now apply H.
Qed.

Lemma check_spec (r : Rule) (p : jsstring) : check r p = true <-> holds r p.
Proof.
  destruct r; simpl.
  - rewrite Bool.negb_true_iff, Z.ltb_ge. lia.
  - apply test_spec, isLetter_spec.
  - apply test_spec, isNumber_spec.
  - apply test_spec, isSymbol_spec.
Qed.

Lemma check_false (r : Rule) (p : jsstring) : check r p = false <-> ~ holds r p.
Proof.
  rewrite <- check_spec. destruct (check r p); split; congruence.
Qed.

(** The code, read as a cascade over the four tests. *)
Lemma validate_cascade (p : jsstring) :
  validatePasswordStrength p =
  if negb (check RLength p) then Build_Validation false (Some (message RLength))
  else if negb (check RLetter p) then Build_Validation false (Some (message RLetter))
  else if negb (check RDigit p) then Build_Validation false (Some (message RDigit))
  else if negb (check RSymbol p) then Build_Validation false (Some (message RSymbol))
  else Build_Validation true None.
Proof.
  unfold validatePasswordStrength, check.
  destruct (Z.of_nat (List.length p) <? 8); reflexivity.
Qed.

Lemma firstFailing_check (r : Rule) (p : jsstring) :
  firstFailing r p <->
  match r with
  | RLength => check RLength p = false
  | RLetter => check RLength p = true /\ check RLetter p = false
  | RDigit =>
      check RLength p = true /\ check RLetter p = true
      /\ check RDigit p = false
  | RSymbol =>
      check RLength p = true /\ check RLetter p = true
      /\ check RDigit p = true /\ check RSymbol p = false
  end.
Proof.
  unfold firstFailing. rewrite <- check_false. split.
  - intros [Hf Hb].
    destruct r; repeat split; try exact Hf; apply check_spec, Hb; simpl; lia.
  - destruct r; intros H; (split; [tauto |]); intros [] Hlt; simpl in Hlt;
      try lia; apply check_spec; tauto.
Qed.

End PasswordFacts.

(** C7. A password is accepted exactly when it has at least 8 code units, a
    letter, a digit and a symbol of the punctuation set; a rejected password
    carries the message of the first rule it breaks, the rules being tried
    in the order length, letter, digit, symbol; an accepted one carries no
    message. *)
Theorem validatePasswordStrength_correct (p : jsstring) :
  let v := Password.validatePasswordStrength p in
  (Password.valid v = true <->
     Password.holds Password.RLength p /\ Password.holds Password.RLetter p
     /\ Password.holds Password.RDigit p /\ Password.holds Password.RSymbol p)
  /\ (forall r, Password.error v = Some (Password.message r)
                <-> Password.firstFailing r p)
  /\ (Password.valid v = true <-> Password.error v = None).
Proof.
  intros v. subst v. rewrite PasswordFacts.validate_cascade.
  split; [| split].
  - rewrite <- !PasswordFacts.check_spec.
    destruct (Password.check Password.RLength p),
             (Password.check Password.RLetter p),
             (Password.check Password.RDigit p),
             (Password.check Password.RSymbol p); simpl;
      intuition congruence.
  - intros r. rewrite PasswordFacts.firstFailing_check.
    destruct r;
      destruct (Password.check Password.RLength p),
               (Password.check Password.RLetter p),
               (Password.check Password.RDigit p),
               (Password.check Password.RSymbol p); simpl;
      intuition congruence.
  - destruct (Password.check Password.RLength p),
             (Password.check Password.RLetter p),
             (Password.check Password.RDigit p),
             (Password.check Password.RSymbol p); simpl;
      split; congruence.
Qed.

(** ** Tables *)

Section TableFacts.
Context {Row : Type}.

(** A search by a predicate that the update leaves alone finds the same
    row, updated if the update selects it. *)
Lemma find_updateWhere (p q : Row -> bool) (f : Row -> Row) (rows : list Row) :
  (forall r, p (f r) = p r) ->
  find p (updateWhere q f rows)
  = option_map (fun r => if q r then f r else r) (find p rows).
Proof.
  intros Hp. induction rows as [| r rows IH]; simpl; [reflexivity |].
  destruct (q r) eqn:Hq.
  - rewrite Hp. destruct (p r); simpl; [now rewrite Hq | exact IH].
  - destruct (p r); simpl; [now rewrite Hq | exact IH].
Qed.

Lemma find_some_weaken (p q : Row -> bool) (rows : list Row) (r : Row) :
  (forall x, p x = true -> q x = true) ->
  find p rows = Some r -> exists r', find q rows = Some r'.
Proof.
  intros Hpq. induction rows as [| x rows IH]; simpl; [discriminate |].
  destruct (q x) eqn:Hq; [eauto |].
  destruct (p x) eqn:Hpx; [apply Hpq in Hpx; congruence | exact IH].
Qed.

Lemma find_exists (q : Row -> bool) (rows : list Row) (r : Row) :
  In r rows -> q r = true -> exists r', find q rows = Some r'.
Proof.
  intros Hin Hq. destruct (find q rows) as [r' |] eqn:Hf; [eauto |].
  now rewrite (find_none _ _ Hf r Hin) in Hq.
Qed.

Lemma filter_filter (p q : Row -> bool) (rows : list Row) :
  filter p (filter q rows) = filter (fun r => q r && p r) rows.
Proof.
  induction rows as [| r rows IH]; simpl; [reflexivity |].
  destruct (q r); simpl; [destruct (p r) |]; now rewrite IH.
Qed.

End TableFacts.

Lemma jsstring_eqb_eq (a b : jsstring) : jsstring_eqb a b = true <-> a = b.
Proof.
  revert b. induction a as [| x a IH]; intros [| y b]; simpl;
    try (split; [discriminate | discriminate]); [tauto |].
  rewrite Bool.andb_true_iff, N.eqb_eq, IH. split.
  - intros [-> ->]. reflexivity.
  - intros H. injection H. auto.
Qed.

Lemma jsstring_eqb_refl (a : jsstring) : jsstring_eqb a a = true.
Proof. now apply jsstring_eqb_eq. Qed.

Lemma nonEmpty_length (s : jsstring) : s <> [] -> Nat.ltb (List.length s) 1 = false.
Proof. destruct s; [congruence | reflexivity]. Qed.

(** ** Soft delete *)


(** C10. Deleting an activity that is already soft-deleted, with a
    non-empty reason that the TEXT column keeps as it is given, answers 200
    again; the stored row gets the current
    time as [deletedAt] and the new reason as [deletedReason], whatever they
    were, so a second delete at another time changes what is stored. *)
Theorem delete_activity_again
  (userId id : jsstring) (reqBody : JsObject) (now : Z) (s : Store)
  (a : Activity.t) (reason : jsstring) (t0 : Z) :
  reqBody "reason"%string = JStr reason ->
  reason <> [] ->
  Postgres.text reason = true ->
  ownActivity userId id s = Some a ->
  Activity.deletedAt a = Some t0 ->
  let data := ActivityData.mk None None None None None (Some now) (Some reason) in
  exists updated s',
    delete_activity userId id reqBody now s
    = (json 200 (BDeleted "Activity deleted successfully" updated), s')
    /\ Activity.deletedAt updated = Some now
    /\ Activity.deletedReason updated = Some reason
    /\ ownActivity userId id s' = Some (ActivityData.apply data a)
    /\ Activity.deletedAt (ActivityData.apply data a) = Some now
    /\ Activity.deletedReason (ActivityData.apply data a) = Some reason
    /\ (now <> t0 ->
        option_map Activity.deletedAt (ownActivity userId id s')
        <> option_map Activity.deletedAt (ownActivity userId id s)).
Proof.
  intros Hbody Hne Htext Hown Hdel data.
  unfold ownActivity in *.
  assert (Hb : exists b,
             find (fun x => jsstring_eqb (Activity.id x) id) (activities s)
             = Some b).
  { apply (find_some_weaken _ _ _ _ (fun x Hx =>
             proj1 (proj1 (Bool.andb_true_iff _ _) Hx)) Hown). }
  destruct Hb as [b Hb].
  exists (ActivityData.apply data b).
  eexists.
  unfold delete_activity, route, delete_activity_body, bind, parse, await,
    deleteActivitySchema, zbind, zString, zMin1, Prisma.activity_findFirst,
    Prisma.activity_update, ret.
  rewrite Hbody, (nonEmpty_length _ Hne), Hown. simpl. rewrite Hb.
  split; [reflexivity |].
  simpl. rewrite find_updateWhere by reflexivity.
  rewrite Hown. simpl.
  assert (Hid : jsstring_eqb (Activity.id a) id = true).
  { apply find_some in Hown. destruct Hown as [_ H].
    apply Bool.andb_true_iff in H. tauto. }
  rewrite Hid. repeat split; try reflexivity.
  intros Hneq. rewrite Hdel. simpl. congruence.
Qed.


Lemma delete_activity_again_witness :
  ownActivity (js "u1") (js "a2") Sample.store = Some Sample.call
  /\ Activity.deletedAt Sample.call = Some 1703980800000
  /\ exists updated s',
       delete_activity (js "u1") (js "a2")
         (obj [("reason"%string, JStr (js "cleanup"))]) Sample.now Sample.store
       = (json 200 (BDeleted "Activity deleted successfully" updated), s')
       /\ option_map Activity.deletedAt (ownActivity (js "u1") (js "a2") s')
          = Some (Some Sample.now)
       /\ option_map Activity.deletedReason (ownActivity (js "u1") (js "a2") s')
          = Some (Some (js "cleanup")).
Proof.
  split; [reflexivity | split; [reflexivity |]].
  destruct (delete_activity_again (js "u1") (js "a2")
              (obj [("reason"%string, JStr (js "cleanup"))])
              Sample.now Sample.store Sample.call (js "cleanup") 1703980800000
              eq_refl ltac:(discriminate) eq_refl eq_refl eq_refl)
    as (updated & s' & Hrun & _ & _ & Hown & Hat & Hreason & _).
  exists updated, s'. rewrite Hown. simpl. repeat split. exact Hrun.
Defined.

(** ** Listing and its statistics *)

Section ListFacts.
Context {E : Externals}.

Lemma count_partition (l : list Activity.t) :
  (forall a, In a l ->
     Activity.scheduledAt a <> None \/ Activity.recordedAt a <> None) ->
  List.length (filter notDeleted l)
  = (List.length (filter notDeleted (filter isScheduledActivity l))
     + List.length (filter notDeleted (filter isRecordedActivity l)))%nat.
Proof.
  induction l as [| a l IH]; intros Hall; [reflexivity |].
  assert (Ha := Hall a (or_introl eq_refl)).
  specialize (IH (fun x Hx => Hall x (or_intror Hx))).
  unfold isScheduledActivity, isRecordedActivity in *. simpl.
  destruct (Activity.scheduledAt a) as [sa |], (Activity.recordedAt a) as [ra |];
    simpl; destruct (notDeleted a); simpl; try lia.
  all: destruct Ha; congruence.
Qed.

(** C9. In a response of GET /activities whose activities all have
    [scheduledAt] or [recordedAt], the summary counts add up:
    [total = open + completed], where [total] counts the activities that
    are not deleted, [open] those of them with [scheduledAt] and no
    [recordedAt], and [completed] those of them with [recordedAt]. *)
Theorem get_activities_stats
  (userId : jsstring) (reqQuery : JsObject) (s s' : Store)
  (listed : list Activity.t) (stats : Stats) (code : Z) :
  get_activities userId reqQuery s = (json code (BActivities listed stats), s') ->
  (forall a, In a listed ->
     Activity.scheduledAt a <> None \/ Activity.recordedAt a <> None) ->
  total stats = (open stats + completed stats)%nat
  /\ total stats
     = List.length (filter (fun a => negb (isSome (Activity.deletedAt a))) listed)
  /\ open stats
     = List.length
         (filter (fun a => isSome (Activity.scheduledAt a)
                           && negb (isSome (Activity.recordedAt a))
                           && negb (isSome (Activity.deletedAt a))) listed)
  /\ completed stats
     = List.length
         (filter (fun a => isSome (Activity.recordedAt a)
                           && negb (isSome (Activity.deletedAt a))) listed).
Proof.
  intros Hrun Hall.
  assert (Hstats : stats = computeStats listed).
  { unfold get_activities, route, get_activities_body, bind, parse, await, ret
      in Hrun.
    destruct (getActivitiesSchema reqQuery) as [m | query];
      [discriminate |].
    destruct (activity_findMany _ _ _ _ s) as [[] | [acts s1]];
      try discriminate.
    injection Hrun as _ Hacts Hst _. subst. reflexivity. }
  subst stats. unfold computeStats. simpl.
  rewrite !filter_filter.
  split; [| repeat split].
  rewrite <- !filter_filter. apply count_partition, Hall.
Qed.

End ListFacts.

Lemma get_activities_stats_witness :
  get_activities (E := Sample.externals) (js "u1")
    (obj [("includeDeleted"%string, JStr (js "true"))]) Sample.store
  = (json 200 (BActivities [Sample.dentist; Sample.gym; Sample.call]
                 {| total := 2; open := 1; completed := 1 |}), Sample.store)
  /\ (2 = 1 + 1)%nat.
Proof.
  assert (Hrun :
    get_activities (E := Sample.externals) (js "u1")
      (obj [("includeDeleted"%string, JStr (js "true"))]) Sample.store
    = (json 200 (BActivities [Sample.dentist; Sample.gym; Sample.call]
                   {| total := 2; open := 1; completed := 1 |}), Sample.store))
    by reflexivity.
  split; [exact Hrun |].
  refine (proj1 (get_activities_stats (E := Sample.externals) _ _ _ _ _ _ _ Hrun _)).
  intros a [<- | [<- | [<- | []]]]; simpl; [left | left | right]; discriminate.
Defined.

(** ** Email confirmation *)

Section ConfirmFacts.
Context {E : Externals}.

(** The route when the server answers every statement. *)
Lemma confirm_email_answered (reqBody : JsObject) (now usedNow : Z)
  (s : Store) :
  confirm_email reqBody now usedNow s
  = route
      (token <- parse (confirmEmailSchema reqBody) ;;
       emailToken <- await (Prisma.emailToken_findUnique (hashToken token)) ;;
       match emailToken with
       | None => respond 400 (BError (Text "Invalid or expired token"))
       | Some emailToken =>
           if isSome (EmailToken.usedAt emailToken) then
             respond 400 (BError (Text "Token already used"))
           else if EmailToken.expiresAt emailToken <? now then
             respond 400 (BError (Text "Token expired"))
           else if negb (EmailTokenType_eqb (EmailToken.type emailToken)
                           CONFIRM_EMAIL) then
             respond 400 (BError (Text "Invalid token type"))
           else
             _ <- await (Prisma.transaction
                           [ Prisma.void
                               (Prisma.user_update
                                  (EmailToken.userId emailToken)
                                  (UserData.mk (Some ACTIVE) None None));
                             Prisma.void
                               (Prisma.emailToken_update
                                  (EmailToken.id emailToken) usedNow) ]) ;;
             ret (json 200
                    (BMessage "Email confirmed successfully. You can now login."))
       end)
      s.
Proof. reflexivity. Qed.

(** C6. A confirm-email request with a well-formed body fails, with 400,
    when no token row matches the hash, when the token is used, when it has
    expired, when its type is not CONFIRM_EMAIL, tested in that order;
    past them the user becomes ACTIVE and the token is marked used in one
    transaction. The two updates are committed together or not at all:
    when the server refuses either of them, the second one too, or the
    user row is gone, the answer is 500 and neither write is in the store.
    Whatever the server refuses, an answer other than 200 leaves the store
    as it was and an answer of 200 leaves both writes in it. *)
Theorem confirm_email_spec
  (faults : Faults) (reqBody : JsObject) (now usedNow : Z) (s : Store) :
  let r := confirm_email_under faults reqBody now usedNow s in
  match confirmEmailSchema reqBody with
  | inl issue => r = (json 400 (BError issue), s)
  | inr token =>
      if faults 0%nat then
        r = (json 500 (BError (Text "Internal server error")), s)
      else
        match tokenByHash (hashToken token) s with
        | None => r = (json 400 (BError (Text "Invalid or expired token")), s)
        | Some t =>
            match EmailToken.usedAt t with
            | Some _ => r = (json 400 (BError (Text "Token already used")), s)
            | None =>
                if EmailToken.expiresAt t <? now then
                  r = (json 400 (BError (Text "Token expired")), s)
                else
                  match EmailToken.type t with
                  | RESET_PASSWORD =>
                      r = (json 400 (BError (Text "Invalid token type")), s)
                  | CONFIRM_EMAIL =>
                      match userById (EmailToken.userId t) s with
                      | Some u =>
                          if faults 1%nat || faults 2%nat then
                            r = (json 500
                                   (BError (Text "Internal server error")), s)
                          else
                            r = (json 200
                                   (BMessage "Email confirmed successfully. You can now login."),
                                 confirmed t usedNow s)
                            /\ option_map User.status
                                 (userById (EmailToken.userId t)
                                    (confirmed t usedNow s))
                               = Some ACTIVE
                            /\ option_map EmailToken.usedAt
                                 (tokenByHash (hashToken token)
                                    (confirmed t usedNow s))
                               = Some (Some usedNow)
                      | None =>
                          r = (json 500
                                 (BError (Text "Internal server error")), s)
                      end
                  end
            end
        end
  end
  /\ (statusCode (fst r) <> 200 -> snd r = s)
  /\ (statusCode (fst r) = 200 ->
      exists token t,
        confirmEmailSchema reqBody = inr token
        /\ tokenByHash (hashToken token) s = Some t
        /\ snd r = confirmed t usedNow s).
Proof.
  intros r.
  assert (Hr : r = confirm_email_under faults reqBody now usedNow s)
    by reflexivity.
  clearbody r.
  unfold confirm_email_under, route, confirm_email_body, bind, parse, await,
    Prisma.statement, Prisma.emailToken_findUnique, respond, ret in Hr.
  destruct (confirmEmailSchema reqBody) as [issue | token];
    [subst r; repeat split; intros H; discriminate H |].
  destruct (faults 0%nat);
    [subst r; repeat split; intros H; discriminate H |].
  unfold tokenByHash.
  destruct (find _ (emailTokens s)) as [t |] eqn:Hfind;
    [| subst r; repeat split; intros H; discriminate H].
  destruct (EmailToken.usedAt t) as [used |] eqn:Hused; simpl in Hr;
    [subst r; repeat split; intros H; discriminate H |].
  destruct (EmailToken.expiresAt t <? now) eqn:Hexp;
    [subst r; repeat split; intros H; discriminate H |].
  destruct (EmailToken.type t) eqn:Htype; simpl in Hr;
    [| subst r; repeat split; intros H; discriminate H].
  unfold Prisma.transaction, Prisma.batch, Prisma.void, Prisma.user_update,
    Prisma.emailToken_update in Hr.
  unfold userById.
  destruct (faults 1%nat);
    [subst r; destruct (find _ (users s));
     repeat split; intros H; discriminate H |].
  destruct (find _ (users s)) as [u |] eqn:Huser;
    [| subst r; repeat split; intros H; discriminate H].
  destruct (faults 2%nat);
    [subst r; repeat split; intros H; discriminate H |].
  destruct (find_some _ _ Hfind) as [Hin Hhash].
  destruct (find_exists
              (fun x => jsstring_eqb (EmailToken.id x) (EmailToken.id t))
              _ t Hin (jsstring_eqb_refl _)) as [t' Hid].
  simpl in Hr. rewrite Hid in Hr. subst r.
  split; [| split; [intros H; simpl in H; congruence |]].
  - split; [reflexivity |].
    unfold confirmed, userById, tokenByHash. simpl.
    rewrite !find_updateWhere by reflexivity.
    rewrite Huser, Hfind. simpl.
    destruct (find_some _ _ Huser) as [_ Huid]. simpl in Huid.
    rewrite Huid, jsstring_eqb_refl. split; reflexivity.
  - intros _. exists token, t. repeat split. exact Hfind.
Qed.

End ConfirmFacts.

(** ** Login *)

Section LoginFacts.
Context {E : Externals}.

Lemma UserStatus_eqb_eq (a b : UserStatus) : UserStatus_eqb a b = true <-> a = b.
Proof. destruct a, b; simpl; split; congruence. Qed.

Lemma UserStatus_eqb_neq (a b : UserStatus) : a <> b -> UserStatus_eqb a b = false.
Proof.
  intros H. destruct (UserStatus_eqb a b) eqn:Heq; [| reflexivity].
  now apply UserStatus_eqb_eq in Heq.
Qed.

Lemma login_found (reqBody : JsObject) (clock : nat -> Z) (newId : jsstring)
  (s : Store) (input : LoginInput.t) (u : User.t) :
  loginSchema reqBody = inr input ->
  userByEmail (LoginInput.email input) s = Some u ->
  login reqBody clock newId s =
  route
    (if UserStatus_eqb (User.status u) BLOCKED then
       respond 403
         (BError (Text "Account is blocked due to too many failed login attempts"))
     else if UserStatus_eqb (User.status u) WAITING_EMAIL_CONFIRMATION then
       respond 403 (BError (Text "Please confirm your email before logging in"))
     else if negb (comparePassword (LoginInput.password input) (User.passwordHash u)) then
       updatedUser <-
         await (Prisma.user_update (User.id u)
                  (UserData.mk
                     (Some (if User.failedLoginAttempts u + 1 >=? 10
                            then BLOCKED else User.status u))
                     (Some (User.failedLoginAttempts u + 1))
                     None)) ;;
       if UserStatus_eqb (User.status updatedUser) BLOCKED then
         respond 403
           (BError (Text "Account blocked due to too many failed login attempts"))
       else
         respond 401
           (BErrorRemaining (Text "Invalid credentials")
              (10 - User.failedLoginAttempts updatedUser))
     else
       _ <- await (Prisma.user_update (User.id u)
                     (UserData.mk None (Some 0) (Some (clock 0%nat)))) ;;
       let payload := JWT.Build_Payload (User.id u) (User.email u) in
       let accessToken := generateAccessToken payload (clock 1%nat) in
       let refreshToken := generateRefreshToken payload (clock 2%nat) in
       _ <- await (Prisma.refreshToken_create
                     (RefreshToken.mk newId (User.id u) (hashToken refreshToken)
                        None (clock 3%nat + 7 * 24 * 60 * 60 * 1000))) ;;
       ret (json 200
              (BLogin accessToken refreshToken
                 {| info_id := User.id u;
                    info_email := User.email u;
                    info_firstName := User.firstName u;
                    info_lastName := User.lastName u |})))
    s.
Proof.
  intros Hschema Huser. unfold userByEmail in Huser.
  unfold login, route, login_body, bind, parse, await, Prisma.user_findUnique.
  rewrite Hschema, Huser. reflexivity.
Qed.

Lemma login_blocked (reqBody : JsObject) (clock : nat -> Z) (newId : jsstring)
  (s : Store) (input : LoginInput.t) (u : User.t) :
  loginSchema reqBody = inr input ->
  userByEmail (LoginInput.email input) s = Some u ->
  User.status u = BLOCKED ->
  login reqBody clock newId s =
  (json 403
     (BError (Text "Account is blocked due to too many failed login attempts")),
   s).
Proof.
  intros Hschema Huser Hst.
  rewrite (login_found _ _ _ _ _ _ Hschema Huser), Hst. reflexivity.
Qed.

Lemma login_unconfirmed (reqBody : JsObject) (clock : nat -> Z)
  (newId : jsstring) (s : Store) (input : LoginInput.t) (u : User.t) :
  loginSchema reqBody = inr input ->
  userByEmail (LoginInput.email input) s = Some u ->
  User.status u = WAITING_EMAIL_CONFIRMATION ->
  login reqBody clock newId s =
  (json 403 (BError (Text "Please confirm your email before logging in")), s).
Proof.
  intros Hschema Huser Hst.
  rewrite (login_found _ _ _ _ _ _ Hschema Huser), Hst. reflexivity.
Qed.

Lemma own_row_by_id (email : jsstring) (s : Store) (u : User.t) :
  userByEmail email s = Some u -> exists u0, userById (User.id u) s = Some u0.
Proof.
  intros H. destruct (find_some _ _ H) as [Hin _].
  exact (find_exists _ _ u Hin (jsstring_eqb_refl _)).
Qed.

(** One failed attempt on an account that passes the status tests. *)
Lemma login_wrong_password (reqBody : JsObject) (clock : nat -> Z)
  (newId : jsstring) (s : Store) (input : LoginInput.t) (u : User.t) :
  loginSchema reqBody = inr input ->
  userByEmail (LoginInput.email input) s = Some u ->
  User.status u <> BLOCKED ->
  User.status u <> WAITING_EMAIL_CONFIRMATION ->
  comparePassword (LoginInput.password input) (User.passwordHash u) = false ->
  exists s',
    login reqBody clock newId s =
    (if User.failedLoginAttempts u + 1 >=? 10
     then json 403
            (BError (Text "Account blocked due to too many failed login attempts"))
     else json 401
            (BErrorRemaining (Text "Invalid credentials")
               (10 - (User.failedLoginAttempts u + 1))),
     s')
    /\ userByEmail (LoginInput.email input) s' = Some (afterFailure u)
    /\ emailTokens s' = emailTokens s
    /\ refreshTokens s' = refreshTokens s
    /\ activities s' = activities s.
Proof.
  intros Hschema Huser Hnb Hnw Hpw.
  rewrite (login_found _ _ _ _ _ _ Hschema Huser).
  rewrite (UserStatus_eqb_neq _ _ Hnb), (UserStatus_eqb_neq _ _ Hnw), Hpw.
  destruct (own_row_by_id _ _ _ Huser) as [u0 Hu0]. unfold userById in Hu0.
  unfold route, bind, await, Prisma.user_update, respond. simpl.
  rewrite Hu0. simpl.
  exists (set_users
            (updateWhere (fun x => jsstring_eqb (User.id x) (User.id u))
               (UserData.apply
                  (UserData.mk
                     (Some (if User.failedLoginAttempts u + 1 >=? 10
                            then BLOCKED else User.status u))
                     (Some (User.failedLoginAttempts u + 1))
                     None))
               (users s)) s).
  split; [| split; [| repeat split]].
  - destruct (User.failedLoginAttempts u + 1 >=? 10) eqn:Hlim; simpl.
    + reflexivity.
    + rewrite (UserStatus_eqb_neq _ _ Hnb). reflexivity.
  - unfold userByEmail in *. simpl.
    rewrite find_updateWhere by reflexivity.
    rewrite Huser. simpl. rewrite jsstring_eqb_refl. reflexivity.
Qed.

Lemma loginSeq_app (a b : list LoginRequest) (s : Store) :
  loginSeq (a ++ b) s =
  let (r1, s1) := loginSeq a s in
  let (r2, s2) := loginSeq b s1 in
  (r1 ++ r2, s2).
Proof.
  revert s. induction a as [| x a IH]; intros s; simpl.
  - destruct (loginSeq b s); reflexivity.
  - destruct (login (lr_body x) (lr_clock x) (lr_newId x) s) as [resp s1].
    rewrite IH. destruct (loginSeq a s1) as [r1 s2].
    destruct (loginSeq b s2); reflexivity.
Qed.

(** Failed attempts that stay below the limit: each is answered 401 with
    the attempts that remain, and only the counter moves. *)
Lemma loginSeq_below_limit (email hash : jsstring) (reqs : list LoginRequest) :
  forall (s : Store) (u : User.t),
    userByEmail email s = Some u ->
    User.passwordHash u = hash ->
    User.status u <> BLOCKED ->
    User.status u <> WAITING_EMAIL_CONFIRMATION ->
    Forall (wrongPassword email hash) reqs ->
    User.failedLoginAttempts u + Z.of_nat (List.length reqs) < 10 ->
    exists s' u',
      loginSeq reqs s
      = (invalidCredentials (User.failedLoginAttempts u) (List.length reqs), s')
      /\ userByEmail email s' = Some u'
      /\ User.passwordHash u' = hash
      /\ User.status u' = User.status u
      /\ User.failedLoginAttempts u'
         = User.failedLoginAttempts u + Z.of_nat (List.length reqs).
Proof.
  induction reqs as [| r reqs IH]; intros s u Hu Hhash Hnb Hnw Hall Hlt.
  - exists s, u. simpl. repeat split; auto. lia.
  - inversion Hall as [| ? ? Hr Hrest]; subst.
    destruct Hr as (input & Hschema & Hemail & Hpw).
    simpl List.length in *. rewrite Nat2Z.inj_succ in Hlt.
    rewrite <- Hemail in Hu.
    destruct (login_wrong_password _ (lr_clock r) (lr_newId r) _ _ _
                Hschema Hu Hnb Hnw Hpw)
      as (s1 & Hrun & Hu1 & _).
    assert (Hlim : (User.failedLoginAttempts u + 1 >=? 10) = false)
      by (rewrite Z.geb_leb; apply Z.leb_gt; lia).
    rewrite Hlim in Hrun. rewrite Hemail in Hu1.
    assert (Hst : User.status (afterFailure u) = User.status u)
      by (unfold afterFailure; simpl; now rewrite Hlim).
    destruct (IH s1 (afterFailure u) Hu1 eq_refl
                ltac:(now rewrite Hst) ltac:(now rewrite Hst) Hrest
                ltac:(unfold afterFailure; simpl; lia))
      as (s' & u' & Hseq & Hu' & Hh' & Hs' & Hc').
    exists s', u'. simpl loginSeq. rewrite Hrun, Hseq.
    unfold afterFailure in Hc', Hseq. simpl in Hc', Hseq.
    repeat split; auto; try congruence.
    rewrite Hc', Nat2Z.inj_succ. lia.
Qed.

(** C5. On an account that passes the status tests, a login with a wrong
    password adds exactly 1 to the failed-login counter, the new count
    being one the INTEGER column holds; when the new count
    is 10 or more the account becomes BLOCKED and the answer is 403 Blocked,
    otherwise the answer is 401 InvalidCredentials with
    [remainingAttempts = 10 - count]. Hence, from a counter of 0, ten failed
    logins in a row are answered 401 nine times (9, 8, .., 1 attempts
    remaining) and then 403, they leave the account BLOCKED with a counter
    of 10, and any further login for it, whatever the password, is answered
    403 Blocked and changes nothing. *)
Theorem login_blocking (email : jsstring) (s : Store) (u : User.t) :
  userByEmail email s = Some u ->
  User.status u <> BLOCKED ->
  User.status u <> WAITING_EMAIL_CONFIRMATION ->
  (forall req,
     wrongPassword email (User.passwordHash u) req ->
     let count := User.failedLoginAttempts u + 1 in
     Postgres.int4 count = true ->
     exists s',
       login (lr_body req) (lr_clock req) (lr_newId req) s
       = (if count >=? 10
          then json 403
                 (BError (Text "Account blocked due to too many failed login attempts"))
          else json 401
                 (BErrorRemaining (Text "Invalid credentials") (10 - count)),
          s')
       /\ option_map User.failedLoginAttempts (userByEmail email s') = Some count
       /\ option_map User.status (userByEmail email s')
          = Some (if count >=? 10 then BLOCKED else User.status u))
  /\ (User.failedLoginAttempts u = 0 ->
      forall reqs,
        List.length reqs = 10%nat ->
        Forall (wrongPassword email (User.passwordHash u)) reqs ->
        exists s10,
          loginSeq reqs s
          = (invalidCredentials 0 9
             ++ [json 403
                   (BError (Text "Account blocked due to too many failed login attempts"))],
             s10)
          /\ option_map User.status (userByEmail email s10) = Some BLOCKED
          /\ option_map User.failedLoginAttempts (userByEmail email s10) = Some 10
          /\ forall reqBody input clock newId,
               loginSchema reqBody = inr input ->
               LoginInput.email input = email ->
               login reqBody clock newId s10
               = (json 403
                    (BError (Text "Account is blocked due to too many failed login attempts")),
                  s10)).
Proof.
  intros Hu Hnb Hnw. split.
  - intros req (input & Hschema & Hemail & Hpw) count Hfits. subst email.
    destruct (login_wrong_password _ (lr_clock req) (lr_newId req) _ _ _
                Hschema Hu Hnb Hnw Hpw) as (s' & Hrun & Hu' & _).
    exists s'. rewrite Hu'. unfold afterFailure. simpl. auto.
  - intros Hzero reqs Hlen Hall.
    rewrite <- (firstn_skipn 9 reqs) in Hall |- *.
    apply Forall_app in Hall. destruct Hall as [Hnine Hlast].
    assert (Hlen9 : List.length (firstn 9 reqs) = 9%nat)
      by (rewrite length_firstn; lia).
    destruct (skipn 9 reqs) as [| req [| ? ?]] eqn:Hskip;
      try (apply (f_equal (@List.length _)) in Hskip;
           rewrite length_skipn, Hlen in Hskip; simpl in Hskip; lia).
    destruct (loginSeq_below_limit email _ _ s u Hu eq_refl Hnb Hnw Hnine
                ltac:(rewrite Hlen9; lia))
      as (s9 & u9 & Hseq & Hu9 & Hh9 & Hs9 & Hc9).
    rewrite Hlen9, Hzero in Hseq, Hc9. simpl in Hc9.
    inversion Hlast as [| ? ? Hreq _]; subst.
    destruct Hreq as (input & Hschema & Hemail & Hpw).
    rewrite <- Hh9 in Hpw. rewrite <- Hemail in Hu9.
    destruct (login_wrong_password _ (lr_clock req) (lr_newId req) _ _ _
                Hschema Hu9 ltac:(congruence) ltac:(congruence) Hpw)
      as (s10 & Hrun & Hu10 & _).
    rewrite Hc9 in Hrun. simpl in Hrun. rewrite Hemail in Hu10.
    exists s10. rewrite loginSeq_app, Hseq. simpl loginSeq. rewrite Hrun.
    rewrite Hu10. unfold afterFailure. simpl. rewrite Hc9. simpl.
    repeat split.
    intros reqBody input' clock newId Hschema' Hemail'.
    apply (login_blocked _ _ _ _ input' (afterFailure u9) Hschema').
    + rewrite Hemail'. exact Hu10.
    + unfold afterFailure. simpl. rewrite Hc9. reflexivity.
Qed.

(** C4, as the code has it. A login for an account whose status is BLOCKED
    or WAITING_EMAIL_CONFIRMATION is answered 403 before the password is
    looked at, and nothing is written. A login answered 200 is a login for
    an account that is ACTIVE or SUSPENDED, with a matching password. Such
    a login, when the refresh-token row can be stored, resets the counter,
    stamps [lastLoginAt], stores the hash of the refresh token and answers
    with both tokens. *)
Theorem login_status_gate
  (reqBody : JsObject) (clock : nat -> Z) (newId : jsstring) (s : Store)
  (input : LoginInput.t) (u : User.t) :
  loginSchema reqBody = inr input ->
  userByEmail (LoginInput.email input) s = Some u ->
  let r := login reqBody clock newId s in
  let payload := JWT.Build_Payload (User.id u) (User.email u) in
  let accessToken := generateAccessToken payload (clock 1%nat) in
  let refreshToken := generateRefreshToken payload (clock 2%nat) in
  let row :=
    RefreshToken.mk newId (User.id u) (hashToken refreshToken) None
      (clock 3%nat + 7 * 24 * 60 * 60 * 1000) in
  (User.status u = BLOCKED ->
   r = (json 403
          (BError (Text "Account is blocked due to too many failed login attempts")),
        s))
  /\ (User.status u = WAITING_EMAIL_CONFIRMATION ->
      r = (json 403 (BError (Text "Please confirm your email before logging in")),
           s))
  /\ (statusCode (fst r) = 200 ->
      (User.status u = ACTIVE \/ User.status u = SUSPENDED)
      /\ comparePassword (LoginInput.password input) (User.passwordHash u) = true)
  /\ (User.status u = ACTIVE \/ User.status u = SUSPENDED ->
      comparePassword (LoginInput.password input) (User.passwordHash u) = true ->
      existsb (fun t => jsstring_eqb (RefreshToken.id t) newId
                        || jsstring_eqb (RefreshToken.tokenHash t)
                             (hashToken refreshToken))
        (refreshTokens s) = false ->
      exists s',
        r = (json 200
               (BLogin accessToken refreshToken
                  {| info_id := User.id u;
                     info_email := User.email u;
                     info_firstName := User.firstName u;
                     info_lastName := User.lastName u |}),
             s')
        /\ option_map User.failedLoginAttempts
             (userByEmail (LoginInput.email input) s') = Some 0
        /\ option_map User.lastLoginAt
             (userByEmail (LoginInput.email input) s') = Some (Some (clock 0%nat))
        /\ option_map User.status
             (userByEmail (LoginInput.email input) s') = Some (User.status u)
        /\ refreshTokens s' = refreshTokens s ++ [row]).
Proof.
  intros Hschema Hu r payload accessToken refreshToken row.
  assert (Hr : r = login reqBody clock newId s) by reflexivity. clearbody r.
  split; [| split; [| split]].
  - intros Hst. rewrite Hr. exact (login_blocked _ _ _ _ _ _ Hschema Hu Hst).
  - intros Hst. rewrite Hr. exact (login_unconfirmed _ _ _ _ _ _ Hschema Hu Hst).
  - rewrite (login_found _ _ _ _ _ _ Hschema Hu) in Hr.
    destruct (own_row_by_id _ _ _ Hu) as [u0 Hu0]. unfold userById in Hu0.
    unfold route, bind, await, Prisma.user_update, Prisma.refreshToken_create,
      respond, ret in Hr.
    destruct (User.status u) eqn:Hst; simpl in Hr;
      try (subst r; simpl; discriminate).
    all: destruct (comparePassword _ _) eqn:Hpw; simpl in Hr;
      [ intros _; auto |].
    all: rewrite Hu0 in Hr; simpl in Hr.
    all: destruct (User.failedLoginAttempts u + 1 >=? 10); simpl in Hr;
      subst r; simpl; discriminate.
  - intros Hst Hpw Hfresh.
    rewrite (login_found _ _ _ _ _ _ Hschema Hu) in Hr.
    destruct (own_row_by_id _ _ _ Hu) as [u0 Hu0]. unfold userById in Hu0.
    assert (Hnb : UserStatus_eqb (User.status u) BLOCKED = false)
      by (destruct Hst as [-> | ->]; reflexivity).
    assert (Hnw : UserStatus_eqb (User.status u) WAITING_EMAIL_CONFIRMATION = false)
      by (destruct Hst as [-> | ->]; reflexivity).
    rewrite Hnb, Hnw, Hpw in Hr.
    unfold route, bind, await, Prisma.user_update, Prisma.refreshToken_create,
      respond, ret in Hr.
    simpl in Hr. rewrite Hu0 in Hr. simpl in Hr.
    fold payload refreshToken in Hr. rewrite Hfresh in Hr.
    eexists. split; [exact Hr |].
    unfold userByEmail in *. simpl.
    rewrite find_updateWhere by reflexivity.
    rewrite Hu. simpl. rewrite jsstring_eqb_refl. simpl.
    repeat split.
Qed.

End LoginFacts.

(** *** The rules on the sample store *)

Lemma confirm_email_spec_witness :
  tokenByHash (hashToken (Externals := Sample.externals) (js "tok-1")) Sample.store
  = Some Sample.confirmToken
  /\ confirm_email (E := Sample.externals)
       (obj [("token"%string, JStr (js "tok-1"))])
       Sample.now Sample.now Sample.store
     = (json 200 (BMessage "Email confirmed successfully. You can now login."),
        confirmed Sample.confirmToken Sample.now Sample.store)
  /\ confirm_email_under (E := Sample.externals) (fun n => Nat.eqb n 2)
       (obj [("token"%string, JStr (js "tok-1"))])
       Sample.now Sample.now Sample.store
     = (json 500 (BError (Text "Internal server error")), Sample.store).
Proof.
  split; [reflexivity | split].
  - exact (proj1 (proj1 (confirm_email_spec (E := Sample.externals) noFaults
                           (obj [("token"%string, JStr (js "tok-1"))])
                           Sample.now Sample.now Sample.store))).
  - exact (proj1 (confirm_email_spec (E := Sample.externals)
                    (fun n => Nat.eqb n 2)
                    (obj [("token"%string, JStr (js "tok-1"))])
                    Sample.now Sample.now Sample.store)).
Defined.

(** A SUSPENDED account logs in with its password like an ACTIVE one. *)
Lemma login_suspended_succeeds :
  userByEmail (js "sam@example.com") Sample.store = Some Sample.sam
  /\ User.status Sample.sam = SUSPENDED
  /\ fst (login (E := Sample.externals)
            (obj [("email"%string, JStr (js "sam@example.com"));
                  ("password"%string, JStr (js "Abc12345!"))])
            (fun _ => Sample.now) (js "r1") Sample.store)
     = json 200
         (BLogin (js "access.u2") (js "refresh.u2")
            {| info_id := js "u2";
               info_email := js "sam@example.com";
               info_firstName := None;
               info_lastName := None |}).
Proof. repeat split. Qed.

Lemma login_status_gate_witness :
  exists s',
    login (E := Sample.externals)
      (obj [("email"%string, JStr (js "alice@example.com"));
            ("password"%string, JStr (js "Abc12345!"))])
      (fun _ => Sample.now) (js "r1") Sample.store
    = (json 200
         (BLogin (js "access.u1") (js "refresh.u1")
            {| info_id := js "u1";
               info_email := js "alice@example.com";
               info_firstName := None;
               info_lastName := None |}),
       s')
    /\ option_map User.lastLoginAt (userByEmail (js "alice@example.com") s')
       = Some (Some Sample.now).
Proof.
  destruct (proj2 (proj2 (proj2
              (login_status_gate (E := Sample.externals)
                 (obj [("email"%string, JStr (js "alice@example.com"));
                       ("password"%string, JStr (js "Abc12345!"))])
                 (fun _ => Sample.now) (js "r1") Sample.store
                 (LoginInput.mk (js "alice@example.com") (js "Abc12345!"))
                 Sample.alice eq_refl eq_refl)))
              (or_introl eq_refl) eq_refl eq_refl)
    as (s' & Hrun & _ & Hstamp & _).
  exists s'. split; [exact Hrun | exact Hstamp].
Defined.

Lemma login_blocking_witness :
  exists s10,
    loginSeq (E := Sample.externals) (repeat badLogin 10) Sample.store
    = (invalidCredentials 0 9
       ++ [json 403
             (BError (Text "Account blocked due to too many failed login attempts"))],
       s10)
    /\ option_map User.status (userByEmail (js "alice@example.com") s10)
       = Some BLOCKED
    /\ login (E := Sample.externals)
         (obj [("email"%string, JStr (js "alice@example.com"));
               ("password"%string, JStr (js "Abc12345!"))])
         (fun _ => Sample.now) (js "r1") s10
       = (json 403
            (BError (Text "Account is blocked due to too many failed login attempts")),
          s10).
Proof.
  assert (Hbad : wrongPassword (E := Sample.externals)
                   (js "alice@example.com") (User.passwordHash Sample.alice)
                   badLogin).
  { exists (LoginInput.mk (js "alice@example.com") (js "guess")).
    repeat split. }
  destruct (proj2 (login_blocking (E := Sample.externals)
                     (js "alice@example.com") Sample.store Sample.alice
                     eq_refl ltac:(discriminate) ltac:(discriminate))
              eq_refl (repeat badLogin 10) eq_refl
              ltac:(repeat constructor; exact Hbad))
    as (s10 & Hseq & Hst & _ & Hnext).
  exists s10. split; [exact Hseq | split; [exact Hst |]].
  exact (Hnext
           (obj [("email"%string, JStr (js "alice@example.com"));
                 ("password"%string, JStr (js "Abc12345!"))])
           (LoginInput.mk (js "alice@example.com") (js "Abc12345!"))
           (fun _ => Sample.now) (js "r1") eq_refl eq_refl).
Defined.

(** ** Forgotten password *)

Section ForgotFacts.
Context {E : Externals}.

(** C8. Two forgot-password requests with well-formed addresses, one for a
    registered address and one for an address nobody registered, get the
    same response: 200 and the same generic message. (The reset token drawn
    for the registered address is taken to be new to the store, as a random
    32-byte token is.) Only the store tells the two apart: a reset token
    with one hour to live and an outgoing email for the registered address,
    nothing for the other. *)
Theorem forgot_password_uniform
  (body1 body2 : JsObject) (email1 email2 : jsstring) (now1 now2 : Z)
  (token1 token2 id1 id2 : jsstring) (s1 s2 : Store) (u : User.t) :
  body1 "email"%string = JStr email1 -> zodEmail email1 = true ->
  body2 "email"%string = JStr email2 -> zodEmail email2 = true ->
  userByEmail email1 s1 = Some u ->
  userByEmail email2 s2 = None ->
  existsb (fun t => jsstring_eqb (EmailToken.id t) id1
                    || jsstring_eqb (EmailToken.tokenHash t) (hashToken token1))
    (emailTokens s1) = false ->
  let r1 := forgot_password body1 now1 token1 id1 s1 in
  let r2 := forgot_password body2 now2 token2 id2 s2 in
  fst r1 = fst r2
  /\ fst r1 = json 200
               (BMessage "If the email exists, a reset link has been sent.")
  /\ snd r2 = s2
  /\ emailTokens (snd r1)
     = emailTokens s1
       ++ [EmailToken.mk id1 (User.id u) RESET_PASSWORD (hashToken token1)
             (now1 + 60 * 60 * 1000) None]
  /\ outbox (snd r1)
     = outbox s1
       ++ [Email.mk (User.email u) "Reset your Schedula password"
             (js "http://localhost:5173/reset-password?token=" ++ token1)].
Proof.
  intros Hb1 He1 Hb2 He2 Hu1 Hu2 Hfresh r1 r2. subst r1 r2.
  unfold userByEmail in Hu1, Hu2.
  unfold forgot_password, route, forgot_password_body, bind, parse, await,
    forgotPasswordSchema, zEmail, zbind, zString, zFormat,
    Prisma.user_findUnique, Prisma.emailToken_create, sendPasswordReset,
    sendEmail, respond, ret.
  rewrite Hb1, He1, Hb2, He2, Hu1, Hu2. simpl. rewrite Hfresh. simpl.
  repeat split.
Qed.

End ForgotFacts.

Lemma forgot_password_uniform_witness :
  forgot_password (E := Sample.externals)
    (obj [("email"%string, JStr (js "alice@example.com"))])
    Sample.now (js "tok-2") (js "t2") Sample.store
  = (json 200 (BMessage "If the email exists, a reset link has been sent."),
     mkStore (users Sample.store)
       (emailTokens Sample.store
        ++ [EmailToken.mk (js "t2") (js "u1") RESET_PASSWORD (js "sha256:tok-2")
              (Sample.now + 3600000) None])
       [] (activities Sample.store)
       [Email.mk (js "alice@example.com") "Reset your Schedula password"
          (js "http://localhost:5173/reset-password?token=tok-2")])
  /\ fst (forgot_password (E := Sample.externals)
            (obj [("email"%string, JStr (js "alice@example.com"))])
            Sample.now (js "tok-2") (js "t2") Sample.store)
     = fst (forgot_password (E := Sample.externals)
              (obj [("email"%string, JStr (js "nobody@example.com"))])
              Sample.now (js "tok-3") (js "t3") Sample.store).
Proof.
  split; [reflexivity |].
  exact (proj1 (forgot_password_uniform (E := Sample.externals)
                  (obj [("email"%string, JStr (js "alice@example.com"))])
                  (obj [("email"%string, JStr (js "nobody@example.com"))])
                  (js "alice@example.com") (js "nobody@example.com")
                  Sample.now Sample.now (js "tok-2") (js "tok-3")
                  (js "t2") (js "t3") Sample.store Sample.store Sample.alice
                  eq_refl eq_refl eq_refl eq_refl eq_refl eq_refl eq_refl)).
Defined.

(** ** Creating activities *)

Section CreateFacts.
Context {E : Externals}.

Lemma recorded_schema_ignores_scheduledAt (o : JsObject) :
  createRecordedActivitySchema (without "scheduledAt" o)
  = createRecordedActivitySchema o.
Proof. reflexivity. Qed.

(** C3, as the code has it. A create request with neither [scheduledAt]
    nor [recordedAt] is answered 400 and creates nothing. A request with
    [recordedAt] is a request for a recorded activity whether or not it also
    carries [scheduledAt]: that field is not looked at. Every activity that
    is created has exactly one of the two timestamps, and a request that is
    not answered 201 creates nothing. *)
Theorem post_activities_exclusive
  (userId : jsstring) (reqBody : JsObject) (now : Z) (newId : jsstring)
  (s : Store) :
  let r := post_activities userId reqBody now newId s in
  (truthy (reqBody "scheduledAt"%string) = false ->
   truthy (reqBody "recordedAt"%string) = false ->
   r = (json 400 (BError (Text "Activity must be either scheduled or recorded")),
        s))
  /\ (truthy (reqBody "recordedAt"%string) = true ->
      r = post_activities userId (without "scheduledAt" reqBody) now newId s)
  /\ (forall a s',
        r = (json 201 (BActivity a), s') ->
        activities s' = activities s ++ [a]
        /\ ((Activity.scheduledAt a <> None /\ Activity.recordedAt a = None
             /\ Activity.completionOutcome a = None
             /\ truthy (reqBody "recordedAt"%string) = false)
            \/ (Activity.scheduledAt a = None /\ Activity.recordedAt a <> None
                /\ Activity.completionOutcome a <> None
                /\ truthy (reqBody "recordedAt"%string) = true)))
  /\ (statusCode (fst r) <> 201 -> snd r = s).
Proof.
  intros r. subst r. split; [| split; [| split]].
  - intros Hs Hr. unfold post_activities, route, post_activities_body, respond.
    rewrite Hs, Hr. reflexivity.
  - intros Hr. unfold post_activities, route, post_activities_body.
    change (without "scheduledAt" reqBody "recordedAt"%string)
      with (reqBody "recordedAt"%string).
    change (without "scheduledAt" reqBody "scheduledAt"%string) with JUndefined.
    rewrite recorded_schema_ignores_scheduledAt, Hr.
    simpl. rewrite Bool.andb_false_r. reflexivity.
  - intros a s'.
    unfold post_activities, route, post_activities_body, bind, parse, await,
      respond, ret, validDate, Prisma.activity_create.
    destruct (truthy (reqBody "recordedAt"%string)) eqn:Hrec;
      destruct (truthy (reqBody "scheduledAt"%string)) eqn:Hsch; simpl;
      repeat branch; intros Hrun; try discriminate;
      injection Hrun as <- <-; simpl; split; try reflexivity;
      [right | right | left]; repeat split; discriminate.
  - unfold post_activities, route, post_activities_body, bind, parse, await,
      respond, ret, validDate, Prisma.activity_create.
    destruct (truthy (reqBody "recordedAt"%string)) eqn:Hrec;
      destruct (truthy (reqBody "scheduledAt"%string)) eqn:Hsch; simpl;
      repeat branch; simpl; intros Hcode; try reflexivity; congruence.
Qed.

End CreateFacts.

(** A request that carries both timestamps is accepted, as a recorded
    activity. *)
Lemma post_activities_both_accepted :
  let reqBody :=
    obj [("activityType"%string, JStr (js "CALL"));
         ("scheduledAt"%string, JStr (js "2024-01-02T00:00:00Z"));
         ("recordedAt"%string, JStr (js "2023-12-30T00:00:00Z"));
         ("completionOutcome"%string, JStr (js "COMPLETED_OK"))] in
  let row :=
    Activity.mk (js "a9") (js "u1") None None CALL None (Some 1703894400000)
      (Some COMPLETED_OK) None None in
  truthy (reqBody "scheduledAt"%string) = true
  /\ truthy (reqBody "recordedAt"%string) = true
  /\ post_activities (E := Sample.externals) (js "u1") reqBody Sample.now
       (js "a9") Sample.store
     = (json 201 (BActivity row),
        set_activities (activities Sample.store ++ [row]) Sample.store).
Proof. repeat split. Qed.

Lemma post_activities_exclusive_witness :
  post_activities (E := Sample.externals) (js "u1")
    (obj [("title"%string, JStr (js "Dentist"))]) Sample.now (js "a9")
    Sample.store
  = (json 400 (BError (Text "Activity must be either scheduled or recorded")),
     Sample.store).
Proof.
  exact (proj1 (post_activities_exclusive (E := Sample.externals) (js "u1")
                  (obj [("title"%string, JStr (js "Dentist"))]) Sample.now
                  (js "a9") Sample.store) eq_refl eq_refl).
Defined.

(** ** Editing and completing *)

Section EditFacts.
Context {E : Externals}.

Lemma own_activity_by_id (userId id : jsstring) (s : Store) (a : Activity.t) :
  ownActivity userId id s = Some a ->
  jsstring_eqb (Activity.id a) id = true
  /\ exists b,
       find (fun x => jsstring_eqb (Activity.id x) id) (activities s) = Some b.
Proof.
  intros H. destruct (find_some _ _ H) as [Hin Hsel].
  apply Bool.andb_true_iff in Hsel. destruct Hsel as [Hid _].
  split; [exact Hid |]. exact (find_exists _ _ a Hin Hid).
Qed.

(** C1, at the point where the code departs from it. PATCH has no test on
    [recordedAt]: on an activity of the caller that has been recorded, a
    request that renames it is answered 200 and the stored title changes. *)
Theorem patch_recorded_activity
  (userId id : jsstring) (reqBody : JsObject) (now : Z) (s : Store)
  (a : Activity.t) (recorded : Z) (title : jsstring) :
  ownActivity userId id s = Some a ->
  Activity.recordedAt a = Some recorded ->
  reqBody "title"%string = JStr title ->
  title <> [] ->
  reqBody "notes"%string = JUndefined ->
  reqBody "scheduledAt"%string = JUndefined ->
  exists updated s',
    patch_activity userId id reqBody now s = (json 200 (BActivity updated), s')
    /\ Activity.title updated = Some title
    /\ option_map Activity.title (ownActivity userId id s') = Some (Some title)
    /\ option_map Activity.recordedAt (ownActivity userId id s')
       = Some (Some recorded).
Proof.
  intros Hown Hrec Htitle Hne Hnotes Hsched.
  destruct (own_activity_by_id _ _ _ _ Hown) as [Hid [b Hb]].
  unfold ownActivity in *.
  unfold patch_activity, route, patch_activity_body, bind, parse, await,
    updateActivitySchema, zbind, zOptional, zString, zMin1,
    Prisma.activity_findFirst, Prisma.activity_update, newScheduledAt, ret.
  rewrite Htitle, Hnotes, Hsched, (nonEmpty_length _ Hne). simpl.
  rewrite Hown. simpl. rewrite Hb. do 2 eexists. split; [reflexivity |].
  simpl. rewrite find_updateWhere by reflexivity.
  rewrite Hown. simpl. rewrite Hid. simpl. rewrite Hrec. repeat split.
Qed.

(** C2, at the point where the code departs from it. The route tests
    [scheduledAt] only: an activity that was scheduled and has since been
    completed is completed again, and its [recordedAt] and
    [completionOutcome] are overwritten. *)
Theorem complete_activity_again
  (userId id : jsstring) (reqBody : JsObject) (now : Z) (s : Store)
  (a : Activity.t) (scheduled recorded at_ : Z) (input : CompleteInput.t) :
  ownActivity userId id s = Some a ->
  Activity.scheduledAt a = Some scheduled ->
  Activity.recordedAt a = Some recorded ->
  completeActivitySchema reqBody = inr input ->
  newDate (CompleteInput.completionDate input) = ValidDate at_ ->
  at_ < now ->
  exists updated s',
    complete_activity userId id reqBody now s
    = (json 200 (BActivity updated), s')
    /\ option_map Activity.recordedAt (ownActivity userId id s')
       = Some (Some at_)
    /\ option_map Activity.completionOutcome (ownActivity userId id s')
       = Some (Some (CompleteInput.completionOutcome input)).
Proof.
  intros Hown Hsch Hrec Hschema Hdate Hpast.
  destruct (own_activity_by_id _ _ _ _ Hown) as [Hid [b Hb]].
  unfold ownActivity in *.
  unfold complete_activity, route, complete_activity_body, bind, parse, await,
    Prisma.activity_findFirst, Prisma.activity_update, validDate, respond, ret.
  rewrite Hschema, Hown, Hsch, Hdate. simpl.
  replace (now <=? at_) with false by (symmetry; apply Z.leb_gt; exact Hpast).
  rewrite Hb. do 2 eexists. split; [reflexivity |].
  simpl. rewrite find_updateWhere by reflexivity.
  rewrite Hown. simpl. rewrite Hid. repeat split.
Qed.

(** What the route does enforce: a completion that is answered 200 was
    asked for an activity of the caller with [scheduledAt] set, with a
    well-formed date strictly before the time of the request. *)
Lemma complete_activity_guards
  (userId id : jsstring) (reqBody : JsObject) (now : Z) (s s' : Store)
  (b : Body) :
  complete_activity userId id reqBody now s = (json 200 b, s') ->
  exists a input at_,
    ownActivity userId id s = Some a
    /\ Activity.scheduledAt a <> None
    /\ completeActivitySchema reqBody = inr input
    /\ newDate (CompleteInput.completionDate input) = ValidDate at_
    /\ at_ < now.
Proof.
  unfold ownActivity.
  unfold complete_activity, route, complete_activity_body, bind, parse, await,
    Prisma.activity_findFirst, Prisma.activity_update, validDate, respond, ret.
  destruct (completeActivitySchema reqBody) as [m | input]; [discriminate |].
  destruct (find _ (activities s)) as [a |]; [| discriminate].
  destruct (Activity.scheduledAt a) as [sch |] eqn:Hsch; simpl; [| discriminate].
  destruct (newDate (CompleteInput.completionDate input)) as [at_ |] eqn:Hdate;
    simpl; [| discriminate].
  destruct (now <=? at_) eqn:Hcmp; [discriminate |].
  intros _. exists a, input, at_. rewrite Hsch.
  split; [reflexivity |]. split; [discriminate |]. split; [reflexivity |].
  split; [exact Hdate | apply Z.leb_gt; exact Hcmp].
Qed.

End EditFacts.

Lemma patch_recorded_activity_witness :
  Activity.recordedAt Sample.dentist = Some 1703894400000
  /\ patch_activity (E := Sample.externals) (js "u1") (js "a1")
       (obj [("title"%string, JStr (js "Root canal"))]) Sample.now Sample.store
     = (json 200
          (BActivity
             (Activity.mk (js "a1") (js "u1") (Some (js "Root canal")) None
                DENTIST_APPOINTMENT (Some 1703930400000) (Some 1703894400000)
                (Some COMPLETED_OK) None None)),
        set_activities
          [Activity.mk (js "a1") (js "u1") (Some (js "Root canal")) None
             DENTIST_APPOINTMENT (Some 1703930400000) (Some 1703894400000)
             (Some COMPLETED_OK) None None;
           Sample.call; Sample.gym]
          Sample.store)
  /\ exists updated s',
       patch_activity (E := Sample.externals) (js "u1") (js "a1")
         (obj [("title"%string, JStr (js "Root canal"))]) Sample.now Sample.store
       = (json 200 (BActivity updated), s')
       /\ Activity.title updated = Some (js "Root canal").
Proof.
  split; [reflexivity | split; [reflexivity |]].
  destruct (patch_recorded_activity (E := Sample.externals)
              (js "u1") (js "a1")
              (obj [("title"%string, JStr (js "Root canal"))])
              Sample.now Sample.store Sample.dentist 1703894400000
              (js "Root canal") eq_refl eq_refl eq_refl ltac:(discriminate)
              eq_refl eq_refl)
    as (updated & s' & Hrun & Htitle & _).
  exists updated, s'. split; [exact Hrun | exact Htitle].
Defined.

Lemma complete_activity_again_witness :
  Activity.recordedAt Sample.dentist = Some 1703894400000
  /\ Activity.completionOutcome Sample.dentist = Some COMPLETED_OK
  /\ exists updated s',
       complete_activity (E := Sample.externals) (js "u1") (js "a1")
         (obj [("completionDate"%string, JStr (js "2023-12-31T00:00:00Z"));
               ("completionOutcome"%string, JStr (js "FAILED"))])
         Sample.now Sample.store
       = (json 200 (BActivity updated), s')
       /\ option_map Activity.recordedAt (ownActivity (js "u1") (js "a1") s')
          = Some (Some 1703980800000)
       /\ option_map Activity.completionOutcome
            (ownActivity (js "u1") (js "a1") s')
          = Some (Some FAILED).
Proof.
  split; [reflexivity | split; [reflexivity |]].
  exact (complete_activity_again (E := Sample.externals)
           (js "u1") (js "a1")
           (obj [("completionDate"%string, JStr (js "2023-12-31T00:00:00Z"));
                 ("completionOutcome"%string, JStr (js "FAILED"))])
           Sample.now Sample.store Sample.dentist
           1703930400000 1703894400000 1703980800000
           (CompleteInput.mk (js "2023-12-31T00:00:00Z") FAILED)
           eq_refl eq_refl eq_refl eq_refl eq_refl eq_refl).
Defined.

(** ** Scenarios, run on the sample store *)

(** A scheduled activity an hour ahead is created. *)
Example create_scheduled :
  post_activities (E := Sample.externals) (js "u1")
    (obj [("title"%string, JStr (js "Dentist"));
          ("activityType"%string, JStr (js "DENTIST_APPOINTMENT"));
          ("scheduledAt"%string, JStr (js "2024-01-01T01:00:00Z"))])
    Sample.now (js "a9") Sample.store
  = (json 201
       (BActivity
          (Activity.mk (js "a9") (js "u1") (Some (js "Dentist")) None
             DENTIST_APPOINTMENT (Some 1704070800000) None None None None)),
     set_activities
       (activities Sample.store
        ++ [Activity.mk (js "a9") (js "u1") (Some (js "Dentist")) None
              DENTIST_APPOINTMENT (Some 1704070800000) None None None None])
       Sample.store).
Proof. reflexivity. Qed.

(** A scheduled activity must lie strictly in the future. *)
Example create_scheduled_now :
  post_activities (E := Sample.externals) (js "u1")
    (obj [("title"%string, JStr (js "Dentist"));
          ("activityType"%string, JStr (js "DENTIST_APPOINTMENT"));
          ("scheduledAt"%string, JStr (js "2024-01-01T00:00:00Z"))])
    Sample.now (js "a9") Sample.store
  = (json 400 (BError (Text "Scheduled activities must be in the future")),
     Sample.store).
Proof. reflexivity. Qed.

(** A delete without a reason is refused. *)
Example delete_without_reason :
  delete_activity (js "u1") (js "a3") (obj [("reason"%string, JStr [])])
    Sample.now Sample.store
  = (json 400 (BError (Text "Deletion reason is required")), Sample.store).
Proof. reflexivity. Qed.

(** Somebody else's activity is not found. *)
Example delete_foreign :
  delete_activity (js "u2") (js "a3") (obj [("reason"%string, JStr (js "done"))])
    Sample.now Sample.store
  = (json 404 (BError (Text "Activity not found")), Sample.store).
Proof. reflexivity. Qed.

(** The default listing leaves the deleted activity out. *)
Example list_default :
  get_activities (E := Sample.externals) (js "u1") (obj []) Sample.store
  = (json 200
       (BActivities [Sample.dentist; Sample.gym]
          {| total := 2; open := 1; completed := 1 |}),
     Sample.store).
Proof. reflexivity. Qed.

(** A used confirmation token is refused, and so is a second use. *)
Example confirm_twice :
  let once :=
    confirm_email (E := Sample.externals)
      (obj [("token"%string, JStr (js "tok-1"))])
      Sample.now Sample.now Sample.store in
  confirm_email (E := Sample.externals)
    (obj [("token"%string, JStr (js "tok-1"))])
    Sample.now Sample.now (snd once)
  = (json 400 (BError (Text "Token already used")), snd once).
Proof. reflexivity. Qed.

(** * Further properties of the routes *)

(** ** What the listing returns *)

Section ListingFacts.
Context {E : Externals}.

Lemma insertOrdered_In (a x : Activity.t) (l : list Activity.t) :
  In x (insertOrdered a l) <-> x = a \/ In x l.
Proof.
  induction l as [| b l IH]; simpl.
  - intuition.
  - destruct (orderBy a b); simpl; rewrite ?IH; intuition.
Qed.

Lemma sortActivities_In (x : Activity.t) (l : list Activity.t) :
  In x (sortActivities l) <-> In x l.
Proof.
  induction l as [| a l IH]; simpl; [tauto |].
  rewrite insertOrdered_In, IH. intuition.
Qed.

Lemma optDate_cases (d : option JSDate) (s : Store) :
  optDate d s = inl (PrismaError InvalidArgument)
  \/ exists ms, optDate d s = inr (ms, s).
Proof.
  unfold optDate, validDate. destruct d as [[ms |] |]; eauto.
Qed.

(** What a well-formed query answers, read off the handler. *)
Lemma get_activities_run (userId : jsstring) (reqQuery : JsObject) (s : Store)
  (query : ListQuery.t) :
  getActivitiesSchema reqQuery = inr query ->
  get_activities userId reqQuery s =
  match activity_findMany userId
          (match ListQuery.includeDeleted query with
           | Some true => true
           | _ => false
           end)
          (dateOfParam (ListQuery.from query))
          (dateOfParam (ListQuery.to query)) s with
  | inl _ => (json 500 (BError (Text "Internal server error")), s)
  | inr (listed, _) => (json 200 (BActivities listed (computeStats listed)), s)
  end.
Proof.
  intros Hq.
  unfold get_activities, route, get_activities_body, bind, parse, await, ret.
  rewrite Hq. unfold activity_findMany.
  destruct (optDate_cases (dateOfParam (ListQuery.from query)) s)
    as [-> | [f ->]]; [reflexivity |].
  destruct (optDate_cases (dateOfParam (ListQuery.to query)) s)
    as [-> | [t ->]]; reflexivity.
Qed.

Lemma getActivitiesSchema_inv (reqQuery : JsObject) (query : ListQuery.t) :
  getActivitiesSchema reqQuery = inr query ->
  zOptional (zEnum [("true", true); ("false", false)]%string "includeDeleted")
    (reqQuery "includeDeleted"%string)
  = inr (ListQuery.includeDeleted query)
  /\ zOptional (zDatetime "from") (reqQuery "from"%string)
     = inr (ListQuery.from query)
  /\ zOptional (zDatetime "to") (reqQuery "to"%string)
     = inr (ListQuery.to query).
Proof.
  unfold getActivitiesSchema, zbind.
  destruct (zOptional (zEnum [("true", true); ("false", false)]%string
                         "includeDeleted") (reqQuery "includeDeleted"%string))
    as [? | inc]; [discriminate |].
  destruct (zOptional (zEnum [("list", tt); ("calendar", tt)]%string "view")
              (reqQuery "view"%string)) as [? | view]; [discriminate |].
  destruct (zOptional (zDatetime "from") (reqQuery "from"%string))
    as [? | from]; [discriminate |].
  destruct (zOptional (zDatetime "to") (reqQuery "to"%string))
    as [? | to]; [discriminate |].
  intros H. injection H as <-. repeat split.
Qed.

Lemma includeDeleted_true (reqQuery : JsObject) (query : ListQuery.t) :
  getActivitiesSchema reqQuery = inr query ->
  (ListQuery.includeDeleted query = Some true
   <-> reqQuery "includeDeleted"%string = JStr (js "true")).
Proof.
  intros Hq. destruct (getActivitiesSchema_inv _ _ Hq) as [Hinc _].
  revert Hinc. generalize (ListQuery.includeDeleted query) as inc.
  generalize (reqQuery "includeDeleted"%string) as v. clear.
  intros v inc. unfold zOptional, zEnum, zbind. cbn [find fst snd].
  destruct v as [| | b | z | v |]; try discriminate.
  - intros H. injection H as <-. split; discriminate.
  - destruct (jsstring_eqb (js "true") v) eqn:Ht.
    + apply jsstring_eqb_eq in Ht. subst v.
      intros H. injection H as <-. split; reflexivity.
    + destruct (jsstring_eqb (js "false") v) eqn:Hf; [| discriminate].
      intros H. injection H as <-. split; [discriminate |].
      intros Heq. injection Heq as Heq. subst v.
      rewrite jsstring_eqb_refl in Ht. discriminate.
Qed.

Lemma get_activities_store (userId : jsstring) (reqQuery : JsObject)
  (s : Store) :
  snd (get_activities userId reqQuery s) = s.
Proof.
  destruct (getActivitiesSchema reqQuery) as [m | query] eqn:Hq.
  - unfold get_activities, route, get_activities_body, bind, parse.
    rewrite Hq. reflexivity.
  - rewrite (get_activities_run _ _ _ _ Hq).
    destruct (activity_findMany _ _ _ _ s) as [e | [listed s1]]; reflexivity.
Qed.

Lemma get_activities_computes (userId : jsstring) (reqQuery : JsObject)
  (s : Store) (code : Z) (listed : list Activity.t) (stats : Stats) :
  fst (get_activities userId reqQuery s) = json code (BActivities listed stats) ->
  stats = computeStats listed
  /\ forall a, In a listed -> In a (activities s).
Proof.
  destruct (getActivitiesSchema reqQuery) as [m | query] eqn:Hq.
  - unfold get_activities, route, get_activities_body, bind, parse.
    rewrite Hq. discriminate.
  - rewrite (get_activities_run _ _ _ _ Hq). unfold activity_findMany.
    destruct (optDate_cases (dateOfParam (ListQuery.from query)) s)
      as [-> | [f ->]]; [discriminate |].
    destruct (optDate_cases (dateOfParam (ListQuery.to query)) s)
      as [-> | [t ->]]; [discriminate |].
    simpl. intros H. injection H as _ <- <-. split; [reflexivity |].
    intros a Ha. apply sortActivities_In, filter_In in Ha. tauto.
Qed.

(** X1. The listing never changes the store, and what it lists are rows of
    the store that belong to the caller; a soft-deleted row is listed only
    when the query says [includeDeleted=true]. Without a date filter every
    row of the caller that is not deleted is listed. *)
Theorem get_activities_own
  (userId : jsstring) (reqQuery : JsObject) (s : Store) :
  snd (get_activities userId reqQuery s) = s
  /\ forall code listed stats,
       fst (get_activities userId reqQuery s)
       = json code (BActivities listed stats) ->
       (forall a, In a listed ->
          In a (activities s)
          /\ Activity.userId a = userId
          /\ (Activity.deletedAt a <> None ->
              reqQuery "includeDeleted"%string = JStr (js "true")))
       /\ (reqQuery "from"%string = JUndefined ->
           reqQuery "to"%string = JUndefined ->
           forall a, In a (activities s) ->
             Activity.userId a = userId ->
             Activity.deletedAt a = None ->
             In a listed).
Proof.
  destruct (getActivitiesSchema reqQuery) as [m | query] eqn:Hq.
  - unfold get_activities, route, get_activities_body, bind, parse.
    rewrite Hq. simpl. split; [reflexivity |]. discriminate.
  - rewrite (get_activities_run _ _ _ _ Hq).
    pose proof (includeDeleted_true _ _ Hq) as Hinc.
    unfold activity_findMany.
    destruct (optDate (dateOfParam (ListQuery.from query)) s)
      as [e | [f s1]] eqn:Hf;
      [simpl; split; [reflexivity | discriminate] |].
    destruct (optDate (dateOfParam (ListQuery.to query)) s)
      as [e | [t s2]] eqn:Ht;
      [simpl; split; [reflexivity | discriminate] |].
    simpl. split; [reflexivity |].
    intros code listed stats Hrun. injection Hrun as _ <- _.
    split.
    + intros a Ha. apply sortActivities_In, filter_In in Ha.
      destruct Ha as [Hin Hsel].
      apply Bool.andb_true_iff in Hsel. destruct Hsel as [Hsel _].
      apply Bool.andb_true_iff in Hsel. destruct Hsel as [Hu Hd].
      apply jsstring_eqb_eq in Hu.
      split; [exact Hin | split; [exact Hu |]].
      intros Hdel. apply Hinc.
      destruct (ListQuery.includeDeleted query) as [[|] |];
        try reflexivity; simpl in Hd;
        destruct (Activity.deletedAt a); simpl in Hd; congruence.
    + intros Hfrom Hto a Hin Hu Hd.
      apply sortActivities_In, filter_In. split; [exact Hin |].
      destruct (getActivitiesSchema_inv _ _ Hq) as (_ & Hfn & Htn).
      rewrite Hfrom in Hfn. rewrite Hto in Htn.
      injection Hfn as <-. injection Htn as <-. simpl.
      rewrite Hd, Hu, jsstring_eqb_refl. simpl.
      now rewrite Bool.orb_true_r.
Qed.

Lemma inRange_spec (lo hi : Z) (d : option Z) :
  inRange (Some lo) (Some hi) d = true <-> exists x, d = Some x /\ lo <= x <= hi.
Proof.
  unfold inRange. destruct d as [x |].
  - rewrite Bool.andb_true_iff, !Z.leb_le. split.
    + intros H. exists x. split; [reflexivity | lia].
    + intros [y [Hy H]]. injection Hy as <-. lia.
  - split; [discriminate | intros [x [H _]]; discriminate].
Qed.

(** X2. With both bounds of the date filter given, the listing is answered
    200 and lists exactly the caller's rows (soft-deleted ones only on
    request) that have [scheduledAt] or [recordedAt] between the bounds,
    both included: one date in range is enough, a row with no date is never
    listed, and bounds in the wrong order list nothing. *)
Theorem get_activities_range
  (userId : jsstring) (reqQuery : JsObject) (s : Store) (query : ListQuery.t)
  (from to : jsstring) (lo hi : Z) :
  getActivitiesSchema reqQuery = inr query ->
  ListQuery.from query = Some from -> from <> [] ->
  ListQuery.to query = Some to -> to <> [] ->
  newDate from = ValidDate lo ->
  newDate to = ValidDate hi ->
  exists listed,
    get_activities userId reqQuery s
    = (json 200 (BActivities listed (computeStats listed)), s)
    /\ (forall a,
          In a listed <->
          In a (activities s)
          /\ Activity.userId a = userId
          /\ (Activity.deletedAt a = None
              \/ ListQuery.includeDeleted query = Some true)
          /\ exists x,
               (Activity.scheduledAt a = Some x \/ Activity.recordedAt a = Some x)
               /\ lo <= x <= hi)
    /\ (hi < lo -> listed = []).
Proof.
  intros Hq Hfrom Hfne Hto Htne Hlo Hhi.
  rewrite (get_activities_run _ _ _ _ Hq), Hfrom, Hto.
  unfold activity_findMany, dateOfParam, optDate, validDate.
  destruct from as [| c from]; [congruence |].
  destruct to as [| c' to]; [congruence |].
  cbn [nonEmpty]. rewrite Hlo, Hhi. cbn [isSome orb].
  eexists. split; [reflexivity |].
  assert (Hchar : forall a,
    In a (sortActivities
            (filter
               (fun a0 =>
                  jsstring_eqb (Activity.userId a0) userId
                  && (match ListQuery.includeDeleted query with
                      | Some true => true
                      | _ => false
                      end || negb (isSome (Activity.deletedAt a0)))
                  && (inRange (Some lo) (Some hi) (Activity.scheduledAt a0)
                      || inRange (Some lo) (Some hi) (Activity.recordedAt a0)))
               (activities s)))
    <-> In a (activities s)
        /\ Activity.userId a = userId
        /\ (Activity.deletedAt a = None
            \/ ListQuery.includeDeleted query = Some true)
        /\ exists x,
             (Activity.scheduledAt a = Some x \/ Activity.recordedAt a = Some x)
             /\ lo <= x <= hi).
  { intros a. rewrite sortActivities_In, filter_In.
    rewrite !Bool.andb_true_iff, !Bool.orb_true_iff, !inRange_spec,
      jsstring_eqb_eq.
    assert (Hvis :
      (match ListQuery.includeDeleted query with
       | Some true => true
       | _ => false
       end = true \/ negb (isSome (Activity.deletedAt a)) = true)
      <-> (Activity.deletedAt a = None
           \/ ListQuery.includeDeleted query = Some true)).
    { destruct (ListQuery.includeDeleted query) as [[|] |],
               (Activity.deletedAt a); simpl; intuition congruence. }
    rewrite Hvis. split.
    - intros (Hin & (Hu & Hv) & Hr). repeat split; auto.
      destruct Hr as [[x [Hx Hb]] | [x [Hx Hb]]]; exists x; auto.
    - intros (Hin & Hu & Hv & x & [Hx | Hx] & Hb); repeat split; auto;
        [left | right]; exists x; auto. }
  split; [exact Hchar |].
  intros Hwrong.
  match goal with
  | |- ?l = [] => destruct l as [| a rest] eqn:Hl; [reflexivity |]
  end.
  exfalso.
  assert (Ha : In a (a :: rest)) by (left; reflexivity).
  apply Hchar in Ha.
  destruct Ha as (_ & _ & _ & x & _ & Hb). lia.
Qed.

End ListingFacts.

(** ** What the routes on one activity write *)

Section MutationFacts.
Context {E : Externals}.

(** Every answer of the three routes is either a refusal that leaves the
    store alone, or a 200 for a row of the caller, updated in the way the
    route allows. *)
Lemma mutate_effect (m : Mutation) (userId id : jsstring) (reqBody : JsObject)
  (now : Z) (s : Store) :
  let r := mutate m userId id reqBody now s in
  (statusCode (fst r) <> 200 /\ snd r = s)
  \/ (statusCode (fst r) = 200
      /\ exists a d,
           ownActivity userId id s = Some a
           /\ allowed m now a d
           /\ snd r
              = set_activities
                  (updateWhere (fun x => jsstring_eqb (Activity.id x) id)
                     (ActivityData.apply d) (activities s)) s).
Proof.
  destruct m; cbn [mutate]; unfold ownActivity.
  - unfold patch_activity, route, patch_activity_body, bind, parse, await,
      Prisma.activity_findFirst, Prisma.activity_update, newScheduledAt,
      validDate, respond, ret.
    destruct (updateActivitySchema reqBody) as [issue | body];
      [left; split; [discriminate | reflexivity] |].
    destruct (find _ (activities s)) as [a |] eqn:Hown;
      [| left; split; [discriminate | reflexivity]].
    destruct (own_activity_by_id userId id s a Hown) as [_ [b Hb]].
    destruct (UpdateInput.scheduledAt body) as [str |].
    + destruct (nonEmpty str) eqn:Hne; cbn [andb].
      * destruct (newDate str) as [ms |] eqn:Hdate; cbn [date_le].
        -- destruct (ms <=? now) eqn:Hcmp;
             [left; split; [discriminate | reflexivity] |].
           simpl. rewrite Hb. right. split; [reflexivity |].
           eexists a, _. split; [reflexivity |]. split; [| reflexivity].
           cbn. repeat split.
           intros x Hx. injection Hx as <-. apply Z.leb_gt. exact Hcmp.
        -- left. split; [discriminate | reflexivity].
      * simpl. rewrite Hb. right. split; [reflexivity |].
        eexists a, _. split; [reflexivity |]. split; [| reflexivity].
        cbn. repeat split. discriminate.
    + simpl. rewrite Hb. right. split; [reflexivity |].
      eexists a, _. split; [reflexivity |]. split; [| reflexivity].
      cbn. repeat split. discriminate.
  - unfold complete_activity, route, complete_activity_body, bind, parse,
      await, Prisma.activity_findFirst, Prisma.activity_update, validDate,
      respond, ret.
    destruct (completeActivitySchema reqBody) as [issue | body];
      [left; split; [discriminate | reflexivity] |].
    destruct (find _ (activities s)) as [a |] eqn:Hown;
      [| left; split; [discriminate | reflexivity]].
    destruct (own_activity_by_id userId id s a Hown) as [_ [b Hb]].
    destruct (Activity.scheduledAt a) as [sch |] eqn:Hsch; cbn [isSome negb];
      [| left; split; [discriminate | reflexivity]].
    destruct (newDate (CompleteInput.completionDate body)) as [ms |];
      cbn [date_ge]; [| left; split; [discriminate | reflexivity]].
    destruct (now <=? ms) eqn:Hcmp;
      [left; split; [discriminate | reflexivity] |].
    simpl. rewrite Hb. right. split; [reflexivity |].
    eexists a, _. split; [reflexivity |]. split; [| reflexivity].
    cbn. rewrite Hsch. repeat split; try discriminate.
    exists ms. split; [reflexivity | apply Z.leb_gt; exact Hcmp].
  - unfold delete_activity, route, delete_activity_body, bind, parse, await,
      Prisma.activity_findFirst, Prisma.activity_update, respond, ret.
    destruct (deleteActivitySchema reqBody) as [issue | reason] eqn:Hschema;
      [left; split; [discriminate | reflexivity] |].
    destruct (find _ (activities s)) as [a |] eqn:Hown;
      [| left; split; [discriminate | reflexivity]].
    destruct (own_activity_by_id userId id s a Hown) as [_ [b Hb]].
    simpl. rewrite Hb. right. split; [reflexivity |].
    eexists a, _. split; [reflexivity |]. split; [| reflexivity].
    cbn. repeat split. exists reason. split; [reflexivity |].
    revert Hschema. unfold deleteActivitySchema, zbind, zString, zMin1.
    destruct (reqBody "reason"%string); try discriminate.
    destruct s0; [discriminate |]. intros H. injection H as <-. discriminate.
Qed.

Lemma sameRowsBut_updateWhere (id : jsstring) (d : ActivityData.t)
  (l : list Activity.t) :
  sameRowsBut id l
    (updateWhere (fun x => jsstring_eqb (Activity.id x) id)
       (ActivityData.apply d) l).
Proof.
  induction l as [| a l IH]; [constructor |].
  constructor; [| exact IH].
  destruct (jsstring_eqb (Activity.id a) id) eqn:Hid.
  - apply jsstring_eqb_eq in Hid. repeat split. congruence.
  - repeat split.
Qed.

Lemma sameRowsBut_refl (id : jsstring) (l : list Activity.t) :
  sameRowsBut id l l.
Proof. induction l; constructor; [repeat split | assumption]. Qed.

(** X3. PATCH, complete and DELETE on an activity answer 200 only for an
    activity of the caller, and any other answer leaves the store as it
    was. Whatever the answer, they touch no other table, add or remove no
    row, change no row's key, owner or type, and change no activity but
    the one named. *)
Theorem mutate_frame (m : Mutation) (userId id : jsstring)
  (reqBody : JsObject) (now : Z) (s : Store) :
  let r := mutate m userId id reqBody now s in
  (statusCode (fst r) <> 200 -> snd r = s)
  /\ (statusCode (fst r) = 200 -> ownActivity userId id s <> None)
  /\ users (snd r) = users s
  /\ emailTokens (snd r) = emailTokens s
  /\ refreshTokens (snd r) = refreshTokens s
  /\ outbox (snd r) = outbox s
  /\ sameRowsBut id (activities s) (activities (snd r)).
Proof.
  intros r. subst r.
  destruct (mutate_effect m userId id reqBody now s)
    as [[Hcode Hs] | [Hcode (a & d & Hown & _ & Hs)]]; rewrite Hs.
  - repeat split; auto; try congruence. apply sameRowsBut_refl.
  - repeat split; auto; try congruence. simpl.
    apply sameRowsBut_updateWhere.
Qed.

Lemma apply_wellFormed (m : Mutation) (now : Z) (a x : Activity.t)
  (d : ActivityData.t) :
  allowed m now a d -> wellFormed x -> wellFormed (ActivityData.apply d x).
Proof.
  unfold wellFormed, ActivityData.apply, ActivityData.keep.
  destruct d as [title notes sch rec out del reason].
  destruct m; cbn.
  - intros (-> & -> & -> & -> & _) (Hdate & Hrec & Hdel).
    repeat split; try tauto.
    destruct sch; [left; discriminate | exact Hdate].
  - intros (_ & _ & _ & -> & [ms [-> _]] & Hout & -> & ->) (Hdate & Hrec & Hdel).
    destruct out; [| congruence].
    repeat split; try tauto; try discriminate. right. discriminate.
  - intros (_ & _ & -> & -> & -> & -> & [reason' [-> _]]) (Hdate & Hrec & Hdel).
    repeat split; try tauto; discriminate.
Qed.

Lemma mutate_wellFormed (m : Mutation) (userId id : jsstring)
  (reqBody : JsObject) (now : Z) (s : Store) :
  Forall wellFormed (activities s) ->
  Forall wellFormed (activities (snd (mutate m userId id reqBody now s))).
Proof.
  intros Hall.
  destruct (mutate_effect m userId id reqBody now s)
    as [[_ Hs] | [_ (a & d & _ & Hallowed & Hs)]]; rewrite Hs;
    [exact Hall |].
  simpl. unfold updateWhere. apply Forall_map.
  apply Forall_impl with (2 := Hall). intros x Hx.
  destruct (jsstring_eqb (Activity.id x) id);
    [exact (apply_wellFormed _ _ _ _ _ Hallowed Hx) | exact Hx].
Qed.

(** What POST /activities writes: nothing, or one new row at the end. *)
Lemma post_activities_effect (userId : jsstring) (reqBody : JsObject)
  (now : Z) (newId : jsstring) (s : Store) :
  let r := post_activities userId reqBody now newId s in
  snd r = s
  \/ exists a,
       snd r = set_activities (activities s ++ [a]) s
       /\ wellFormed a
       /\ Activity.id a = newId
       /\ Activity.userId a = userId
       /\ Activity.deletedAt a = None.
Proof.
  unfold post_activities, route, post_activities_body, bind, parse, await,
    respond, ret, validDate, Prisma.activity_create.
  destruct (truthy (reqBody "recordedAt"%string));
    destruct (truthy (reqBody "scheduledAt"%string)); simpl;
    repeat branch; simpl; try (left; reflexivity);
    right; eexists; (split; [reflexivity |]);
    unfold wellFormed; cbn; repeat split; try discriminate; auto;
    try (left; discriminate); try (right; discriminate).
Qed.

Lemma other_routes_keep_activities (r : Request) (s : Store) :
  match r with
  | CreateActivity _ _ _ _ | MutateActivity _ _ _ _ _ => True
  | _ => activities (snd (serve r s)) = activities s
  end.
Proof.
  destruct r; cbn [serve]; try exact I.
  - apply (f_equal activities), get_activities_store.
  - rewrite confirm_email_answered.
    unfold route, bind, parse, await,
      respond, ret, Prisma.emailToken_findUnique, Prisma.transaction,
      Prisma.batch, Prisma.void, Prisma.user_update, Prisma.emailToken_update.
    repeat branch; simpl in *; try reflexivity.
    all: repeat match goal with
         | H : inl _ = inr _ |- _ => discriminate H
         | H : inr _ = inl _ |- _ => discriminate H
         | H : inr _ = inr _ |- _ => injection H as ?; subst
         | H : (_, _) = (_, _) |- _ => injection H as ?; subst
         end; try reflexivity.
  - unfold login, route, login_body, bind, parse, await, respond, ret,
      Prisma.user_findUnique, Prisma.user_update, Prisma.refreshToken_create.
    repeat branch; simpl in *; try reflexivity.
  - unfold forgot_password, route, forgot_password_body, bind, parse, await,
      respond, ret, Prisma.user_findUnique, Prisma.emailToken_create,
      sendPasswordReset, sendEmail.
    repeat branch; simpl in *; try reflexivity.
Qed.

Lemma serve_wellFormed (r : Request) (s : Store) :
  Forall wellFormed (activities s) ->
  Forall wellFormed (activities (snd (serve r s))).
Proof.
  intros Hall. pose proof (other_routes_keep_activities r s) as Hkeep.
  destruct r; try (rewrite Hkeep; exact Hall).
  - cbn [serve].
    destruct (post_activities_effect userId reqBody now newId s)
      as [-> | (a & -> & Ha & _)]; [exact Hall |].
    simpl. apply Forall_app. split; [exact Hall | constructor; [exact Ha | constructor]].
  - cbn [serve]. apply mutate_wellFormed, Hall.
Qed.

(** X4. Starting from a store whose activities have the shape the data
    model asks for (for one, from no activities at all), whatever requests
    are served, every activity still has it: it is scheduled or recorded,
    it has an outcome exactly when it is recorded and a deletion reason
    exactly when it is deleted. So every listing served afterwards has a
    summary with [total = open + completed]. *)
Theorem serveAll_wellFormed (rs : list Request) (s0 : Store) :
  Forall wellFormed (activities s0) ->
  Forall wellFormed (activities (serveAll rs s0))
  /\ forall userId reqQuery code listed stats,
       fst (get_activities userId reqQuery (serveAll rs s0))
       = json code (BActivities listed stats) ->
       total stats = (open stats + completed stats)%nat.
Proof.
  intros H0.
  assert (Hinv : Forall wellFormed (activities (serveAll rs s0))).
  { revert s0 H0. unfold serveAll.
    induction rs as [| r rs IH]; intros s0 H0; simpl; [exact H0 |].
    apply IH, serve_wellFormed, H0. }
  split; [exact Hinv |].
  intros userId reqQuery code listed stats Hrun.
  destruct (get_activities_computes _ _ _ _ _ _ Hrun) as [-> Hsub].
  unfold computeStats. simpl. apply count_partition.
  intros a Ha. rewrite Forall_forall in Hinv.
  exact (proj1 (Hinv a (Hsub a Ha))).
Qed.

End MutationFacts.

(** ** Editing a scheduled activity *)

Section PatchFacts.
Context {E : Externals}.

Lemma apply_nothing (a : Activity.t) :
  ActivityData.apply (ActivityData.mk None None None None None None None) a = a.
Proof. destruct a. reflexivity. Qed.

Lemma updateWhere_id {Row} (p : Row -> bool) (f : Row -> Row) (l : list Row) :
  (forall r, f r = r) -> updateWhere p f l = l.
Proof.
  intros Hf. unfold updateWhere. induction l as [| r l IH]; simpl;
    [reflexivity |].
  rewrite IH. destruct (p r); [rewrite Hf |]; reflexivity.
Qed.

(** X5. A PATCH whose body names none of [title], [notes], [scheduledAt]
    (the empty object, say) on an activity of the caller is answered 200
    and changes nothing. *)
Theorem patch_activity_empty
  (userId id : jsstring) (reqBody : JsObject) (now : Z) (s : Store)
  (a : Activity.t) :
  ownActivity userId id s = Some a ->
  reqBody "title"%string = JUndefined ->
  reqBody "notes"%string = JUndefined ->
  reqBody "scheduledAt"%string = JUndefined ->
  statusCode (fst (patch_activity userId id reqBody now s)) = 200
  /\ snd (patch_activity userId id reqBody now s) = s.
Proof.
  intros Hown Ht Hn Hs.
  destruct (own_activity_by_id _ _ _ _ Hown) as [_ [b Hb]].
  unfold ownActivity in Hown.
  unfold patch_activity, route, patch_activity_body, bind, parse, await,
    updateActivitySchema, zbind, zOptional, Prisma.activity_findFirst,
    Prisma.activity_update, newScheduledAt, ret.
  rewrite Ht, Hn, Hs. simpl. rewrite Hown. simpl. rewrite Hb. simpl.
  split; [reflexivity |].
  rewrite (updateWhere_id _ _ _ apply_nothing). destruct s; reflexivity.
Qed.

(** X6. A PATCH that carries a well-formed [scheduledAt] on an activity of
    the caller is refused with 400, the store untouched, unless the new
    date lies strictly after the time of the request; then, the [title]
    and [notes] of the body being strings the TEXT columns keep as they
    are given, it is answered
    200, the stored [scheduledAt] is the new date, [title] and [notes] are
    replaced when the body carries them and kept when it does not, and the
    other columns are kept. *)
Theorem patch_activity_reschedule
  (userId id : jsstring) (reqBody : JsObject) (now : Z) (s : Store)
  (a : Activity.t) (body : UpdateInput.t) (str : jsstring) (ms : Z) :
  ownActivity userId id s = Some a ->
  updateActivitySchema reqBody = inr body ->
  UpdateInput.scheduledAt body = Some str ->
  str <> [] ->
  newDate str = ValidDate ms ->
  let r := patch_activity userId id reqBody now s in
  (ms <= now ->
   r = (json 400 (BError (Text "Scheduled date must be in the future")), s))
  /\ (now < ms ->
      Postgres.optText (UpdateInput.title body) = true ->
      Postgres.optText (UpdateInput.notes body) = true ->
      statusCode (fst r) = 200
      /\ ownActivity userId id (snd r)
         = Some (Activity.mk (Activity.id a) (Activity.userId a)
                   (match UpdateInput.title body with
                    | Some t => Some t
                    | None => Activity.title a
                    end)
                   (match UpdateInput.notes body with
                    | Some n => Some n
                    | None => Activity.notes a
                    end)
                   (Activity.activityType a) (Some ms)
                   (Activity.recordedAt a) (Activity.completionOutcome a)
                   (Activity.deletedAt a) (Activity.deletedReason a))).
Proof.
  intros Hown Hschema Hsch Hne Hdate r. subst r.
  destruct (own_activity_by_id _ _ _ _ Hown) as [Hid [b Hb]].
  unfold ownActivity in *.
  unfold patch_activity, route, patch_activity_body, bind, parse, await,
    Prisma.activity_findFirst, Prisma.activity_update, newScheduledAt,
    validDate, respond, ret.
  rewrite Hschema. simpl. rewrite Hown, Hsch.
  destruct str as [| c str]; [congruence |]. cbn [nonEmpty andb].
  rewrite Hdate. cbn [date_le]. split.
  - intros Hle. apply Z.leb_le in Hle. rewrite Hle. reflexivity.
  - intros Hlt Htitle Hnotes.
    apply Z.leb_gt in Hlt. rewrite Hlt. simpl. rewrite Hb. simpl.
    split; [reflexivity |].
    rewrite find_updateWhere by reflexivity. rewrite Hown. simpl.
    rewrite Hid. reflexivity.
Qed.

End PatchFacts.

(** ** More on login *)

Section LoginMore.
Context {E : Externals}.

(** A login for an account that passes the status tests, with its
    password, when the refresh-token row can be stored. *)
Lemma login_accepts (reqBody : JsObject) (clock : nat -> Z) (newId : jsstring)
  (s : Store) (input : LoginInput.t) (u : User.t) :
  loginSchema reqBody = inr input ->
  userByEmail (LoginInput.email input) s = Some u ->
  User.status u <> BLOCKED ->
  User.status u <> WAITING_EMAIL_CONFIRMATION ->
  comparePassword (LoginInput.password input) (User.passwordHash u) = true ->
  let payload := JWT.Build_Payload (User.id u) (User.email u) in
  let refreshToken := generateRefreshToken payload (clock 2%nat) in
  existsb (fun t => jsstring_eqb (RefreshToken.id t) newId
                    || jsstring_eqb (RefreshToken.tokenHash t)
                         (hashToken refreshToken))
    (refreshTokens s) = false ->
  exists s',
    login reqBody clock newId s
    = (json 200
         (BLogin (generateAccessToken payload (clock 1%nat)) refreshToken
            {| info_id := User.id u;
               info_email := User.email u;
               info_firstName := User.firstName u;
               info_lastName := User.lastName u |}),
       s')
    /\ userByEmail (LoginInput.email input) s'
       = Some (UserData.apply
                 (UserData.mk None (Some 0) (Some (clock 0%nat))) u)
    /\ refreshTokens s'
       = refreshTokens s
         ++ [RefreshToken.mk newId (User.id u) (hashToken refreshToken) None
               (clock 3%nat + 7 * 24 * 60 * 60 * 1000)]
    /\ emailTokens s' = emailTokens s
    /\ activities s' = activities s.
Proof.
  intros Hschema Hu Hnb Hnw Hpw payload refreshToken Hfresh.
  rewrite (login_found _ _ _ _ _ _ Hschema Hu).
  rewrite (UserStatus_eqb_neq _ _ Hnb), (UserStatus_eqb_neq _ _ Hnw), Hpw.
  destruct (own_row_by_id _ _ _ Hu) as [u0 Hu0]. unfold userById in Hu0.
  unfold route, bind, await, Prisma.user_update, Prisma.refreshToken_create,
    respond, ret.
  simpl. rewrite Hu0. simpl.
  fold payload. fold refreshToken. rewrite Hfresh.
  eexists. split; [reflexivity |].
  unfold userByEmail in *. simpl.
  rewrite find_updateWhere by reflexivity.
  rewrite Hu. simpl. rewrite jsstring_eqb_refl. repeat split.
Qed.

(** X7. Login tells a registered address from an unregistered one: a
    well-formed login for an address nobody registered is answered 401
    [Invalid credentials] with nothing else in the body and nothing
    written, and no login for a registered address is ever answered that
    way, whatever the password and the status of the account. *)
Theorem login_tells_registered
  (body1 body2 : JsObject) (clock1 clock2 : nat -> Z) (id1 id2 : jsstring)
  (s : Store) (input1 input2 : LoginInput.t) (u : User.t) :
  loginSchema body1 = inr input1 ->
  loginSchema body2 = inr input2 ->
  userByEmail (LoginInput.email input1) s = Some u ->
  userByEmail (LoginInput.email input2) s = None ->
  login body2 clock2 id2 s
  = (json 401 (BError (Text "Invalid credentials")), s)
  /\ fst (login body1 clock1 id1 s) <> fst (login body2 clock2 id2 s).
Proof.
  intros Hs1 Hs2 Hu1 Hu2.
  assert (H2 : login body2 clock2 id2 s
               = (json 401 (BError (Text "Invalid credentials")), s)).
  { unfold userByEmail in Hu2.
    unfold login, route, login_body, bind, parse, await, respond,
      Prisma.user_findUnique.
    rewrite Hs2, Hu2. reflexivity. }
  split; [exact H2 |]. rewrite H2.
  rewrite (login_found _ _ _ _ _ _ Hs1 Hu1).
  destruct (own_row_by_id _ _ _ Hu1) as [u0 Hu0]. unfold userById in Hu0.
  unfold route, bind, await, Prisma.user_update, Prisma.refreshToken_create,
    respond, ret.
  destruct (User.status u); simpl; try discriminate.
  all: destruct (comparePassword _ _); simpl; rewrite Hu0; simpl.
  all: repeat branch; simpl; discriminate.
Qed.

(** Failed attempts below the limit move the counter of the account and
    nothing else. *)
Lemma loginSeq_failures (email hash : jsstring) (reqs : list LoginRequest) :
  forall (s : Store) (u : User.t),
    userByEmail email s = Some u ->
    User.passwordHash u = hash ->
    User.status u <> BLOCKED ->
    User.status u <> WAITING_EMAIL_CONFIRMATION ->
    Forall (wrongPassword email hash) reqs ->
    User.failedLoginAttempts u + Z.of_nat (List.length reqs) < 10 ->
    exists s',
      loginSeq reqs s
      = (invalidCredentials (User.failedLoginAttempts u) (List.length reqs), s')
      /\ userByEmail email s'
         = Some (UserData.apply
                   (UserData.mk None
                      (Some (User.failedLoginAttempts u
                             + Z.of_nat (List.length reqs)))
                      None) u)
      /\ refreshTokens s' = refreshTokens s.
Proof.
  induction reqs as [| r reqs IH]; intros s u Hu Hhash Hnb Hnw Hall Hlt.
  - exists s. simpl. rewrite Z.add_0_r. repeat split.
    rewrite Hu. destruct u. reflexivity.
  - inversion Hall as [| ? ? Hr Hrest]; subst.
    destruct Hr as (input & Hschema & Hemail & Hpw).
    simpl List.length in *. rewrite Nat2Z.inj_succ in *.
    rewrite <- Hemail in Hu.
    destruct (login_wrong_password _ (lr_clock r) (lr_newId r) _ _ _
                Hschema Hu Hnb Hnw Hpw)
      as (s1 & Hrun & Hu1 & _ & Hrt & _).
    assert (Hlim : (User.failedLoginAttempts u + 1 >=? 10) = false)
      by (rewrite Z.geb_leb; apply Z.leb_gt; lia).
    rewrite Hlim in Hrun. rewrite Hemail in Hu1.
    unfold afterFailure in Hu1. rewrite Hlim in Hu1.
    destruct (fun H => IH s1 _ Hu1 eq_refl Hnb Hnw Hrest H)
      as (s' & Hseq & Hu' & Hrt'); [simpl; clear - Hlt; lia |].
    exists s'. simpl loginSeq. rewrite Hrun, Hseq.
    split; [reflexivity |]. split; [| congruence].
    rewrite Hu'. unfold UserData.apply, assign.
    cbn [User.id User.email User.passwordHash User.firstName User.lastName
         User.status User.failedLoginAttempts User.lastLoginAt
         UserData.status UserData.failedLoginAttempts UserData.lastLoginAt].
    do 2 f_equal. clear. lia.
Qed.

(** X8. A successful login starts the count of failures afresh: failed
    attempts that stay below ten, then a login with the right password,
    then up to nine more failed attempts are answered 401, 200 and 401
    again, the remaining attempts counting down from 9 after the success,
    and the account keeps its status. *)
Theorem login_success_resets
  (email : jsstring) (s : Store) (u : User.t)
  (fails1 fails2 : list LoginRequest) (good : LoginRequest)
  (input : LoginInput.t) :
  userByEmail email s = Some u ->
  User.status u <> BLOCKED ->
  User.status u <> WAITING_EMAIL_CONFIRMATION ->
  Forall (wrongPassword email (User.passwordHash u)) fails1 ->
  Forall (wrongPassword email (User.passwordHash u)) fails2 ->
  User.failedLoginAttempts u + Z.of_nat (List.length fails1) < 10 ->
  (List.length fails2 < 10)%nat ->
  loginSchema (lr_body good) = inr input ->
  LoginInput.email input = email ->
  comparePassword (LoginInput.password input) (User.passwordHash u) = true ->
  existsb (fun t => jsstring_eqb (RefreshToken.id t) (lr_newId good)
                    || jsstring_eqb (RefreshToken.tokenHash t)
                         (hashToken
                            (generateRefreshToken
                               (JWT.Build_Payload (User.id u) (User.email u))
                               (lr_clock good 2%nat))))
    (refreshTokens s) = false ->
  exists ok s',
    loginSeq (fails1 ++ good :: fails2) s
    = (invalidCredentials (User.failedLoginAttempts u) (List.length fails1)
       ++ ok :: invalidCredentials 0 (List.length fails2),
       s')
    /\ statusCode ok = 200
    /\ option_map User.status (userByEmail email s') = Some (User.status u)
    /\ option_map User.failedLoginAttempts (userByEmail email s')
       = Some (Z.of_nat (List.length fails2)).
Proof.
  intros Hu Hnb Hnw Hf1 Hf2 Hlt1 Hlt2 Hschema Hemail Hpw Hfresh.
  destruct (loginSeq_failures email _ fails1 s u Hu eq_refl Hnb Hnw Hf1 Hlt1)
    as (s1 & Hseq1 & Hu1 & Hrt1).
  rewrite <- Hrt1 in Hfresh. rewrite <- Hemail in Hu1.
  destruct (login_accepts (lr_body good) (lr_clock good) (lr_newId good)
              s1 input _ Hschema Hu1 Hnb Hnw Hpw Hfresh)
    as (s2 & Hrun & Hu2 & _).
  rewrite Hemail in Hu2.
  destruct (fun H => loginSeq_failures email _ fails2 s2 _ Hu2 eq_refl Hnb
                       Hnw Hf2 H)
    as (s3 & Hseq3 & Hu3 & _); [simpl; clear - Hlt2; lia |].
  eexists _, s3.
  rewrite loginSeq_app, Hseq1. simpl loginSeq. rewrite Hrun, Hseq3.
  split; [reflexivity |]. rewrite Hu3. simpl. repeat split.
Qed.

End LoginMore.

(** ** Email tokens across routes *)

Section TokenFacts.
Context {E : Externals}.

Lemma find_app_new {Row} (p : Row -> bool) (l : list Row) (r : Row) :
  existsb p l = false ->
  find p (l ++ [r]) = if p r then Some r else None.
Proof.
  induction l as [| x l IH]; simpl; [reflexivity |].
  destruct (p x); [discriminate | exact IH].
Qed.

Lemma existsb_weaken {Row} (p q : Row -> bool) (l : list Row) :
  (forall x, q x = true -> p x = true) ->
  existsb p l = false -> existsb q l = false.
Proof.
  intros Hqp. induction l as [| x l IH]; simpl; [reflexivity |].
  destruct (p x) eqn:Hp; [discriminate |]. intros H.
  destruct (q x) eqn:Hq; [apply Hqp in Hq; congruence | exact (IH H)].
Qed.

(** X9. The token forgot-password issues cannot confirm an email address:
    handed to confirm-email it is refused with 400, [Invalid token type]
    within its hour and [Token expired] after it, and the store stays as
    forgot-password left it. *)
Theorem reset_token_cannot_confirm
  (body confirmBody : JsObject) (email token newId : jsstring)
  (now at_ usedNow : Z) (s : Store) (u : User.t) :
  body "email"%string = JStr email ->
  zodEmail email = true ->
  userByEmail email s = Some u ->
  existsb (fun t => jsstring_eqb (EmailToken.id t) newId
                    || jsstring_eqb (EmailToken.tokenHash t) (hashToken token))
    (emailTokens s) = false ->
  confirmBody "token"%string = JStr token ->
  token <> [] ->
  let s1 := snd (forgot_password body now token newId s) in
  confirm_email confirmBody at_ usedNow s1
  = (json 400
       (BError (Text (if now + 60 * 60 * 1000 <? at_
                      then "Token expired" else "Invalid token type"))),
     s1).
Proof.
  intros Hbody Hemail Hu Hfresh Hcb Hne s1.
  assert (Hs1 : emailTokens s1
                = emailTokens s
                  ++ [EmailToken.mk newId (User.id u) RESET_PASSWORD
                        (hashToken token) (now + 60 * 60 * 1000) None]).
  { subst s1. unfold userByEmail in Hu.
    unfold forgot_password, route, forgot_password_body, bind, parse, await,
      forgotPasswordSchema, zEmail, zbind, zString, zFormat,
      Prisma.user_findUnique, Prisma.emailToken_create, sendPasswordReset,
      sendEmail, respond, ret.
    rewrite Hbody, Hemail, Hu. simpl. rewrite Hfresh. reflexivity. }
  clearbody s1.
  rewrite confirm_email_answered.
  unfold route, bind, parse, await,
    confirmEmailSchema, zbind, zString, zMin1, Prisma.emailToken_findUnique,
    respond.
  rewrite Hcb, (nonEmpty_length _ Hne). simpl. rewrite Hs1.
  rewrite find_app_new.
  - simpl. rewrite jsstring_eqb_refl. simpl.
    destruct (now + 3600000 <? at_); reflexivity.
  - apply existsb_weaken with (2 := Hfresh).
    intros x Hx. rewrite Hx. apply Bool.orb_true_r.
Qed.

Lemma map_updateWhere {Row A} (proj : Row -> A) (p : Row -> bool)
  (f : Row -> Row) (l : list Row) :
  (forall r, proj (f r) = proj r) ->
  map proj (updateWhere p f l) = map proj l.
Proof.
  intros Hf. unfold updateWhere. rewrite map_map. apply map_ext.
  intros r. destruct (p r); [apply Hf | reflexivity].
Qed.

(** X10. Confirming an email address writes the status of users and the
    [usedAt] of email tokens and nothing else: whatever the request, no
    user's key, address, password hash, names, failed-login counter or
    last login changes, no token's key, owner, type, hash or expiry
    changes, and activities, refresh tokens and outgoing mail are what they
    were. In particular a confirmation does not reset the failed-login
    counter. *)
Theorem confirm_email_frame
  (reqBody : JsObject) (now usedNow : Z) (s : Store) :
  let s' := snd (confirm_email reqBody now usedNow s) in
  map (fun u => (User.id u, User.email u, User.passwordHash u,
                 User.firstName u, User.lastName u,
                 User.failedLoginAttempts u, User.lastLoginAt u)) (users s')
  = map (fun u => (User.id u, User.email u, User.passwordHash u,
                   User.firstName u, User.lastName u,
                   User.failedLoginAttempts u, User.lastLoginAt u)) (users s)
  /\ map (fun t => (EmailToken.id t, EmailToken.userId t, EmailToken.type t,
                    EmailToken.tokenHash t, EmailToken.expiresAt t))
       (emailTokens s')
     = map (fun t => (EmailToken.id t, EmailToken.userId t, EmailToken.type t,
                      EmailToken.tokenHash t, EmailToken.expiresAt t))
         (emailTokens s)
  /\ activities s' = activities s
  /\ refreshTokens s' = refreshTokens s
  /\ outbox s' = outbox s.
Proof.
  intros s'. subst s'.
  rewrite confirm_email_answered.
  unfold route, bind, parse, await,
    respond, ret, Prisma.emailToken_findUnique, Prisma.transaction,
    Prisma.batch, Prisma.void, Prisma.user_update, Prisma.emailToken_update.
  destruct (confirmEmailSchema reqBody) as [issue | token];
    [repeat split |].
  destruct (find _ (emailTokens s)) as [t |]; [| repeat split].
  destruct (isSome (EmailToken.usedAt t)); [repeat split |].
  destruct (EmailToken.expiresAt t <? now); [repeat split |].
  destruct (negb (EmailTokenType_eqb (EmailToken.type t) CONFIRM_EMAIL));
    [repeat split |].
  destruct (find _ (users s)) as [u |]; [| repeat split].
  simpl.
  destruct (find _ (emailTokens s)) as [t' |]; [| repeat split].
  simpl. repeat split; apply map_updateWhere; reflexivity.
Qed.

End TokenFacts.

(** ** The password schema and the strength validator *)

Lemma passwordSchema_sound (path : string) (v : jsval) (p : jsstring) :
  passwordSchema path v = inr p ->
  v = JStr p /\ Password.valid (Password.validatePasswordStrength p) = true.
Proof.
  rewrite PasswordFacts.validate_cascade.
  unfold passwordSchema, zbind, zString, zMin, zRefine, Password.check.
  destruct v as [| | b | z | s |]; try discriminate.
  assert (Hlen : Nat.ltb (List.length s) 8 = (Z.of_nat (List.length s) <? 8)).
  { destruct (Nat.ltb_spec (List.length s) 8);
      symmetry; [apply Z.ltb_lt | apply Z.ltb_ge]; lia. }
  rewrite Hlen. clear Hlen.
  destruct (Z.of_nat (List.length s) <? 8) eqn:Hc; [discriminate |].
  destruct (Password.test Password.isLetter s) eqn:Hl,
           (Password.test Password.isNumber s) eqn:Hn,
           (Password.test Password.isSymbol s) eqn:Hs; simpl;
    try discriminate.
  intros H. injection H as <-. rewrite Hc, Hl, Hn, Hs. split; reflexivity.
Qed.

(** X11. The password schema of signup and reset-password accepts a value
    exactly when it is a string that [validatePasswordStrength] finds
    valid, and hands that string on unchanged; so the strength test the two
    routes make after parsing never fails. A password that is too short is
    refused with the length issue even when it also lacks a kind of
    character. *)
Theorem passwordSchema_agrees (path : string) (v : jsval) :
  (forall p, passwordSchema path v = inr p
             <-> v = JStr p
                 /\ Password.valid (Password.validatePasswordStrength p) = true)
  /\ (forall p, v = JStr p -> (List.length p < 8)%nat ->
        passwordSchema path v = inl (ZodDefault too_small path)).
Proof.
  split.
  - intros p. rewrite PasswordFacts.validate_cascade.
    unfold passwordSchema, zbind, zString, zMin, zRefine, Password.check.
    destruct v as [| | b | z | s |];
      try (split; [discriminate | intros [H _]; discriminate]).
    assert (Hlen : Nat.ltb (List.length s) 8 = (Z.of_nat (List.length s) <? 8)).
    { destruct (Nat.ltb_spec (List.length s) 8);
        symmetry; [apply Z.ltb_lt | apply Z.ltb_ge]; lia. }
    rewrite Hlen. clear Hlen. split.
    + destruct (Z.of_nat (List.length s) <? 8) eqn:Hc; [discriminate |].
      destruct (Password.test Password.isLetter s) eqn:Hl,
               (Password.test Password.isNumber s) eqn:Hn,
               (Password.test Password.isSymbol s) eqn:Hs; simpl;
        try discriminate.
      intros H. injection H as <-. rewrite Hc, Hl, Hn, Hs.
      split; reflexivity.
    + intros [H Hvalid]. injection H as <-.
      destruct (Z.of_nat (List.length s) <? 8); [discriminate |].
      destruct (Password.test Password.isLetter s),
               (Password.test Password.isNumber s),
               (Password.test Password.isSymbol s); simpl in *;
        try discriminate; reflexivity.
  - intros p -> Hshort. unfold passwordSchema, zbind, zString, zMin.
    apply Nat.ltb_lt in Hshort. rewrite Hshort. reflexivity.
Qed.

(** ** The access-token middleware *)

Section MiddlewareFacts.
Context {V : Verifier}.

Lemma startsWith_spec (prefix s : jsstring) :
  startsWith prefix s = true <-> exists rest, s = prefix ++ rest.
Proof.
  unfold startsWith. rewrite jsstring_eqb_eq. split.
  - intros H. exists (skipn (List.length prefix) s).
    rewrite <- H at 1. symmetry. apply firstn_skipn.
  - intros [rest ->]. rewrite firstn_app, Nat.sub_diag, firstn_all.
    simpl. apply app_nil_r.
Qed.

(** X12. The middleware lets a request through exactly when its
    Authorization header is [Bearer ] followed by a token that verifies,
    and hands on the payload of that token; every other request is
    answered 401, with [Token expired] only for a bearer token whose
    verification fails as expired. The scheme is matched by case and with
    its space: [bearer x] and [Bearer] are refused as missing. *)
Theorem authMiddleware_spec (authorization : option jsstring) :
  (forall payload,
     authMiddleware authorization = inr payload
     <-> exists token,
           authorization = Some (js "Bearer " ++ token)
           /\ verifyAccessToken token = Verified payload)
  /\ (forall refused,
        authMiddleware authorization = inl refused ->
        statusCode refused = 401)
  /\ (authMiddleware authorization
      = inl (json 401 (BError (Text "Token expired")))
      <-> exists token,
            authorization = Some (js "Bearer " ++ token)
            /\ verifyAccessToken token = TokenExpiredError)
  /\ (forall rest,
        authMiddleware (Some (js "bearer " ++ rest))
        = inl (json 401 (BError (Text "No authorization token provided"))))
  /\ authMiddleware (Some (js "Bearer"))
     = inl (json 401 (BError (Text "No authorization token provided"))).
Proof.
  assert (Hcases :
    match authorization with
    | Some h =>
        (exists token, h = js "Bearer " ++ token
                       /\ authMiddleware authorization
                          = match verifyAccessToken token with
                            | Verified payload => inr payload
                            | TokenExpiredError =>
                                inl (json 401 (BError (Text "Token expired")))
                            | OtherTokenError =>
                                inl (json 401 (BError (Text "Invalid token")))
                            end)
        \/ ((forall token, h <> js "Bearer " ++ token)
            /\ authMiddleware authorization
               = inl (json 401 (BError (Text "No authorization token provided"))))
    | None =>
        authMiddleware authorization
        = inl (json 401 (BError (Text "No authorization token provided")))
    end).
  { destruct authorization as [h |]; [| reflexivity].
    unfold authMiddleware.
    destruct (startsWith (js "Bearer ") h) eqn:Hsw.
    - left. apply startsWith_spec in Hsw. destruct Hsw as [rest ->].
      exists rest. split; reflexivity.
    - right. split.
      + intros token ->.
        assert (H : startsWith (js "Bearer ") (js "Bearer " ++ token) = true)
          by (apply startsWith_spec; eauto).
        congruence.
      + now rewrite Bool.orb_true_r. }
  split; [| split; [| split; [| split]]].
  - intros payload. destruct authorization as [h |].
    + destruct Hcases as [(token & -> & ->) | [Hno ->]].
      * split.
        -- intros H. exists token. split; [reflexivity |].
           destruct (verifyAccessToken token); congruence.
        -- intros (token' & Heq & Hv). injection Heq as Heq.
           subst token'. now rewrite Hv.
      * split; [discriminate |].
        intros (token & Heq & _). injection Heq as ->.
        exfalso. exact (Hno token eq_refl).
    + rewrite Hcases. split; [discriminate | intros (t & H & _); discriminate].
  - intros refused. destruct authorization as [h |].
    + destruct Hcases as [(token & -> & ->) | [Hno ->]].
      * destruct (verifyAccessToken token); intros H; try discriminate;
          injection H as <-; reflexivity.
      * intros H. injection H as <-. reflexivity.
    + rewrite Hcases. intros H. injection H as <-. reflexivity.
  - destruct authorization as [h |].
    + destruct Hcases as [(token & -> & ->) | [Hno ->]].
      * split.
        -- intros H. exists token. split; [reflexivity |].
           destruct (verifyAccessToken token);
             [discriminate H | reflexivity | discriminate H].
        -- intros (token' & Heq & Hv). injection Heq as Heq.
           subst token'. now rewrite Hv.
      * split; [discriminate |].
        intros (token & Heq & _). injection Heq as ->.
        exfalso. exact (Hno token eq_refl).
    + rewrite Hcases. split; [discriminate | intros (t & H & _); discriminate].
  - intros rest. reflexivity.
  - reflexivity.
Qed.

End MiddlewareFacts.

(** ** Sessions: refresh and logout *)

Section SessionFacts.
Context {E : Externals} {V : Verifier}.

(** The refresh-token row stored under a hash. *)
Lemma refresh_run (reqBody : JsObject) (now signedAt : Z) (d : Database)
  (token : jsstring) :
  refreshTokenSchema reqBody = inr token ->
  refresh reqBody now signedAt d =
  (match verifyRefreshToken token with
   | Verified payload =>
       match find (fun t => jsstring_eqb (RefreshToken.tokenHash t)
                              (hashToken token))
               (refreshTokens (core d)) with
       | None =>
           reply 401 (Plain (BError (Text "Invalid or expired refresh token")))
       | Some row =>
           if isSome (RefreshToken.revokedAt row)
              || (RefreshToken.expiresAt row <? now)
           then reply 401
                  (Plain (BError (Text "Invalid or expired refresh token")))
           else reply 200
                  (CAccessToken
                     (generateAccessToken
                        (JWT.Build_Payload (JWT.userId payload)
                           (JWT.email payload)) signedAt))
       end
   | _ => reply 401 (Plain (BError (Text "Invalid refresh token")))
   end, d).
Proof.
  intros Hschema.
  unfold refresh, endpoint, refresh_body, andThen, parsed, awaited, onStore,
    PrismaMore.refreshToken_findUnique, send, done.
  rewrite Hschema.
  destruct (verifyRefreshToken token); try reflexivity.
  simpl. destruct (find _ (refreshTokens (core d))) as [row |].
  - destruct (isSome (RefreshToken.revokedAt row)
              || (RefreshToken.expiresAt row <? now));
      destruct d; reflexivity.
  - destruct d; reflexivity.
Qed.

(** X13. Refreshing never writes to the database. It is answered 200 only
    for a token that verifies and whose hash is stored in a row that is not
    revoked and has not expired (a row expiring at this very instant still
    counts); the access token it then returns is signed for the user and
    address of the verified payload. A token that does not verify is
    refused as [Invalid refresh token] before the table is looked at. *)
Theorem refresh_spec (reqBody : JsObject) (now signedAt : Z) (d : Database) :
  snd (refresh reqBody now signedAt d) = d
  /\ (code (fst (refresh reqBody now signedAt d)) = 200 <->
      exists token payload row,
        refreshTokenSchema reqBody = inr token
        /\ verifyRefreshToken token = Verified payload
        /\ find (fun t => jsstring_eqb (RefreshToken.tokenHash t)
                            (hashToken token))
             (refreshTokens (core d)) = Some row
        /\ RefreshToken.revokedAt row = None
        /\ now <= RefreshToken.expiresAt row
        /\ fst (refresh reqBody now signedAt d)
           = reply 200
               (CAccessToken
                  (generateAccessToken
                     (JWT.Build_Payload (JWT.userId payload) (JWT.email payload))
                     signedAt)))
  /\ (forall token,
        refreshTokenSchema reqBody = inr token ->
        (forall payload, verifyRefreshToken token <> Verified payload) ->
        fst (refresh reqBody now signedAt d)
        = reply 401 (Plain (BError (Text "Invalid refresh token")))).
Proof.
  destruct (refreshTokenSchema reqBody) as [issue | token] eqn:Hschema.
  - unfold refresh, endpoint, refresh_body, andThen, parsed.
    rewrite Hschema. simpl. split; [reflexivity |]. split.
    + split; [discriminate |]. intros (t & _ & _ & H & _). discriminate.
    + intros t H. discriminate.
  - rewrite (refresh_run _ _ _ _ _ Hschema). simpl.
    split; [reflexivity |]. split.
    + split.
      * destruct (verifyRefreshToken token) as [payload | |] eqn:Hv;
          try discriminate.
        destruct (find _ (refreshTokens (core d))) as [row |] eqn:Hrow;
          [| discriminate].
        destruct (RefreshToken.revokedAt row) eqn:Hrev; [discriminate |].
        simpl. destruct (RefreshToken.expiresAt row <? now) eqn:Hexp;
          [discriminate |].
        intros _. exists token, payload, row.
        repeat split; auto. apply Z.ltb_ge. exact Hexp.
      * intros (t & payload & row & Ht & Hv & Hrow & Hrev & Hexp & _).
        injection Ht as <-. rewrite Hv, Hrow, Hrev. simpl.
        apply Z.ltb_ge in Hexp. rewrite Hexp. reflexivity.
    + intros t Ht Hbad. injection Ht as <-.
      destruct (verifyRefreshToken token) as [payload | |];
        [exfalso; exact (Hbad payload eq_refl) | reflexivity | reflexivity].
Qed.

Lemma logout_run (reqBody : JsObject) (now : Z) (d : Database)
  (token : jsstring) :
  refreshTokenSchema reqBody = inr token ->
  logout reqBody now d =
  (reply 200 (Plain (BMessage "Logged out successfully")),
   mkDatabase
     (set_refreshTokens
        (updateWhere
           (fun t => jsstring_eqb (RefreshToken.tokenHash t) (hashToken token))
           (PrismaMore.revoke now) (refreshTokens (core d)))
        (core d))
     (passwordHistory d)).
Proof.
  intros Hschema.
  unfold logout, endpoint, logout_body, andThen, parsed, awaited, onStore,
    PrismaMore.refreshToken_updateMany, done.
  rewrite Hschema. reflexivity.
Qed.

Lemma updateWhere_none {Row} (p : Row -> bool) (f : Row -> Row) (l : list Row) :
  find p l = None -> updateWhere p f l = l.
Proof.
  unfold updateWhere. induction l as [| r l IH]; simpl; [reflexivity |].
  destruct (p r); [discriminate |]. intros H. now rewrite IH.
Qed.

(** X14. Logging out is answered 200 for every well-formed body, also for
    a token that was never stored or is already revoked; with an unknown
    token nothing is written. It stamps [revokedAt] on the rows stored under
    the hash of the token, overwriting an earlier stamp, and writes nothing
    else. After it, a refresh with the same token is answered 401, at any
    time. *)
Theorem logout_revokes (reqBody : JsObject) (now : Z) (d : Database)
  (token : jsstring) :
  refreshTokenSchema reqBody = inr token ->
  let sel := fun t => jsstring_eqb (RefreshToken.tokenHash t) (hashToken token) in
  let d' := snd (logout reqBody now d) in
  fst (logout reqBody now d)
  = reply 200 (Plain (BMessage "Logged out successfully"))
  /\ (find sel (refreshTokens (core d)) = None -> d' = d)
  /\ option_map RefreshToken.revokedAt (find sel (refreshTokens (core d')))
     = option_map (fun _ => Some now) (find sel (refreshTokens (core d)))
  /\ users (core d') = users (core d)
  /\ emailTokens (core d') = emailTokens (core d)
  /\ activities (core d') = activities (core d)
  /\ passwordHistory d' = passwordHistory d
  /\ map (fun t => (RefreshToken.id t, RefreshToken.userId t,
                    RefreshToken.tokenHash t, RefreshToken.expiresAt t))
       (refreshTokens (core d'))
     = map (fun t => (RefreshToken.id t, RefreshToken.userId t,
                      RefreshToken.tokenHash t, RefreshToken.expiresAt t))
         (refreshTokens (core d))
  /\ (forall later signedAt,
        code (fst (refresh reqBody later signedAt d')) = 401
        /\ snd (refresh reqBody later signedAt d') = d').
Proof.
  intros Hschema sel d'. subst d' sel.
  rewrite (logout_run _ _ _ _ Hschema). cbn [fst snd core passwordHistory].
  set (sel := fun t : RefreshToken.t =>
                jsstring_eqb (RefreshToken.tokenHash t) (hashToken token)).
  assert (Hfind :
    find sel (refreshTokens
                (set_refreshTokens
                   (updateWhere sel (PrismaMore.revoke now)
                      (refreshTokens (core d))) (core d)))
    = option_map (PrismaMore.revoke now) (find sel (refreshTokens (core d)))).
  { simpl. rewrite find_updateWhere by reflexivity.
    destruct (find sel (refreshTokens (core d))) as [row |] eqn:Hrow;
      [| reflexivity].
    simpl. destruct (find_some _ _ Hrow) as [_ Hsel]. now rewrite Hsel. }
  split; [reflexivity |]. split; [| split; [| repeat split]].
  - intros Hnone. rewrite (updateWhere_none _ _ _ Hnone).
    destruct d as [[? ? ? ? ?] ?]. reflexivity.
  - rewrite Hfind. destruct (find sel (refreshTokens (core d))); reflexivity.
  - simpl. apply map_updateWhere. reflexivity.
  - rewrite (refresh_run _ _ _ _ _ Hschema). cbn [fst core].
    destruct (verifyRefreshToken token); try reflexivity.
    fold sel. rewrite Hfind.
    destruct (find sel (refreshTokens (core d))); reflexivity.
  - rewrite (refresh_run _ _ _ _ _ Hschema). reflexivity.
Qed.

(** X15. The refresh token a successful login returns can be exchanged for
    an access token for the same user until its row expires, seven days
    after the login, and the exchange writes nothing: the token is not
    rotated. (The verifier is taken to accept what the signer produced.) *)
Theorem login_then_refresh
  (loginBody refreshBody : JsObject) (clock : nat -> Z)
  (newId : jsstring) (d : Database) (input : LoginInput.t) (u : User.t)
  (now signedAt : Z) :
  loginSchema loginBody = inr input ->
  userByEmail (LoginInput.email input) (core d) = Some u ->
  User.status u <> BLOCKED ->
  User.status u <> WAITING_EMAIL_CONFIRMATION ->
  comparePassword (LoginInput.password input) (User.passwordHash u) = true ->
  let payload := JWT.Build_Payload (User.id u) (User.email u) in
  let refreshToken := generateRefreshToken payload (clock 2%nat) in
  existsb (fun t => jsstring_eqb (RefreshToken.id t) newId
                    || jsstring_eqb (RefreshToken.tokenHash t)
                         (hashToken refreshToken))
    (refreshTokens (core d)) = false ->
  verifyRefreshToken refreshToken = Verified payload ->
  refreshBody "refreshToken"%string = JStr refreshToken ->
  refreshToken <> [] ->
  now <= clock 3%nat + 7 * 24 * 60 * 60 * 1000 ->
  let d' :=
    mkDatabase (snd (login loginBody clock newId (core d)))
      (passwordHistory d) in
  refresh refreshBody now signedAt d'
  = (reply 200 (CAccessToken (generateAccessToken payload signedAt)), d').
Proof.
  intros Hschema Hu Hnb Hnw Hpw payload refreshToken Hfresh Hverify Hbody
    Hne Hnow d'.
  destruct (login_accepts loginBody clock newId (core d) input u
              Hschema Hu Hnb Hnw Hpw Hfresh)
    as (s' & Hrun & _ & Hrows & _).
  assert (Hparse : refreshTokenSchema refreshBody = inr refreshToken).
  { unfold refreshTokenSchema, zbind, zString, zMin1.
    rewrite Hbody, (nonEmpty_length _ Hne). reflexivity. }
  rewrite (refresh_run _ _ _ _ _ Hparse), Hverify.
  subst d'. rewrite Hrun. cbn [snd core]. rewrite Hrows.
  rewrite find_app_new.
  - cbn [RefreshToken.tokenHash]. fold payload. fold refreshToken.
    rewrite jsstring_eqb_refl.
    cbn [RefreshToken.revokedAt RefreshToken.expiresAt isSome orb].
    apply Z.ltb_ge in Hnow. rewrite Hnow. reflexivity.
  - apply existsb_weaken with (2 := Hfresh).
    intros x Hx. rewrite Hx. apply Bool.orb_true_r.
Qed.

End SessionFacts.

(** ** The profile routes *)

Section ProfileFacts.


Lemma patch_me_run (userId : jsstring) (reqBody : JsObject) (d : Database)
  (body : ProfileInput.t) :
  updateProfileSchema reqBody = inr body ->
  patch_me userId reqBody d =
  match userById userId (core d) with
  | None => (reply 500 (Plain (BError (Text "Internal server error"))), d)
  | Some u =>
      (reply 200
         (CProfileUpdated "Profile updated successfully"
            (profileOf
               (PrismaMore.setNames (ProfileInput.firstName body)
                  (ProfileInput.lastName body) u))),
       mkDatabase
         (set_users
            (updateWhere (fun x => jsstring_eqb (User.id x) userId)
               (PrismaMore.setNames (ProfileInput.firstName body)
                  (ProfileInput.lastName body))
               (users (core d)))
            (core d))
         (passwordHistory d))
  end.
Proof.
  intros Hschema.
  unfold patch_me, endpoint, patch_me_body, andThen, parsed, awaited, onStore,
    PrismaMore.user_updateProfile, done, userById.
  rewrite Hschema.
  destruct (find _ (users (core d))); reflexivity.
Qed.


(** X17. For a caller whose user row is gone (the access token outlives
    the account), GET /me answers 404 [User not found], while PATCH /me with
    a well-formed body answers 500: the update throws and the route has no
    answer of its own for it. Neither writes anything. *)
Theorem profile_of_missing_user (userId : jsstring) (reqBody : JsObject)
  (d : Database) (body : ProfileInput.t) :
  updateProfileSchema reqBody = inr body ->
  userById userId (core d) = None ->
  get_me userId d = (reply 404 (Plain (BError (Text "User not found"))), d)
  /\ patch_me userId reqBody d
     = (reply 500 (Plain (BError (Text "Internal server error"))), d).
Proof.
  intros Hschema Hu. rewrite (patch_me_run _ _ _ _ Hschema), Hu.
  split; [| reflexivity].
  unfold get_me, endpoint500, get_me_body, andThen, awaited, onStore,
    PrismaMore.user_findUniqueById, send. simpl.
  unfold userById in Hu. rewrite Hu. destruct d. reflexivity.
Qed.

(** X18. The unblock route exists only when the server runs in
    development: otherwise the request gets the 404 of the application and
    nothing is written. In development it sets the account registered
    under the given address to ACTIVE, whatever its status was, and its
    failed-login counter to 0, touching nothing else of the row; an address
    that is not registered, or a body without an address, is answered
    500. *)
Theorem dev_unblock_spec (nodeEnv : option jsstring) (reqBody : JsObject)
  (d : Database) :
  (nodeEnv <> Some (js "development") ->
   dev_unblock nodeEnv reqBody d
   = (reply 404 (Plain (BError (Text "Route not found"))), d))
  /\ (nodeEnv = Some (js "development") ->
      match reqBody "email"%string with
      | JStr email =>
          match userByEmail email (core d) with
          | Some u =>
              fst (dev_unblock nodeEnv reqBody d)
              = reply 200 (Plain (BMessage "User unblocked successfully"))
              /\ userByEmail email (core (snd (dev_unblock nodeEnv reqBody d)))
                 = Some (User.mk (User.id u) (User.email u)
                           (User.passwordHash u) (User.firstName u)
                           (User.lastName u) ACTIVE 0 (User.lastLoginAt u))
          | None =>
              dev_unblock nodeEnv reqBody d
              = (reply 500 (Plain (BError (Text "Internal server error"))), d)
          end
      | _ =>
          dev_unblock nodeEnv reqBody d
          = (reply 500 (Plain (BError (Text "Internal server error"))), d)
      end).
Proof.
  split.
  - intros Hne. unfold dev_unblock. destruct nodeEnv as [env |]; [| reflexivity].
    destruct (jsstring_eqb env (js "development")) eqn:Heq; [| reflexivity].
    apply jsstring_eqb_eq in Heq. congruence.
  - intros ->. unfold dev_unblock.
    change (jsstring_eqb (js "development") (js "development")) with true.
    cbv iota.
    unfold endpoint500, andThen, awaited, onStore,
      PrismaMore.user_updateByEmail, done, userByEmail.
    destruct (reqBody "email"%string) as [| | | | email |];
      try (destruct d; reflexivity).
    destruct (find _ (users (core d))) as [u |] eqn:Hu;
      [| destruct d; reflexivity].
    cbn [fst snd core]. split; [reflexivity |].
    simpl. rewrite find_updateWhere by reflexivity.
    rewrite Hu. simpl.
    destruct (find_some _ _ Hu) as [_ He]. rewrite He. reflexivity.
Qed.

End ProfileFacts.

(** ** Signing up *)

Section SignupFacts.
Context {E : Externals}.






(** X20. A signup for an address that is already registered is answered
    400 [Email already registered] and writes nothing, whatever the rest of
    the body (as long as it is well formed). *)
Theorem signup_duplicate (reqBody : JsObject) (draw : SignupDraw) (d : Database)
  (body : SignupInput.t) (u : User.t) :
  signupSchema reqBody = inr body ->
  userByEmail (SignupInput.email body) (core d) = Some u ->
  signup reqBody draw d
  = (reply 400 (Plain (BError (Text "Email already registered"))), d).
Proof.
  intros Hschema Hu. unfold userByEmail in Hu.
  unfold signup, endpoint, signup_body, andThen, parsed, awaited, onStore,
    Prisma.user_findUnique, send.
  rewrite Hschema. cbn beta iota. rewrite Hu. destruct d. reflexivity.
Qed.

End SignupFacts.

(** ** From signup to the first login *)

Section OnboardingFacts.
Context {E : Externals}.


End OnboardingFacts.

(** ** Resetting a password *)

Section ResetFacts.
Context {E : Externals}.

Lemma checkHistory_run (newPassword : jsstring)
  (history : list PasswordHistory.t) (next : Action Reply) (d : Database) :
  checkHistory newPassword history next d =
  if existsb (fun h => comparePassword newPassword
                         (PasswordHistory.passwordHash h)) history
  then (Sent (reply 400
                (Plain (BError (Text "Cannot reuse any of your last 5 passwords")))),
        d)
  else next d.
Proof.
  induction history as [| h rest IH]; simpl; [reflexivity |].
  destruct (comparePassword newPassword (PasswordHistory.passwordHash h));
    [reflexivity | exact IH].
Qed.

Lemma resetPasswordSchema_inv (reqBody : JsObject) (body : ResetInput.t) :
  resetPasswordSchema reqBody = inr body ->
  Password.valid
    (Password.validatePasswordStrength (ResetInput.newPassword body)) = true.
Proof.
  unfold resetPasswordSchema. unfold zbind at 1 3.
  destruct (zbind (zString "token" (reqBody "token"%string)) _) as [? | token];
    [discriminate |].
  destruct (passwordSchema "newPassword" (reqBody "newPassword"%string))
    as [? | password] eqn:Hp; [discriminate |].
  intros H. injection H as <-. simpl.
  exact (proj2 (passwordSchema_sound _ _ _ Hp)).
Qed.

(** A reset whose token passes the four tests comes down to the history
    check and the transaction. *)
Lemma reset_password_run (reqBody : JsObject) (draw : ResetDraw)
  (d : Database) (body : ResetInput.t) (t : EmailToken.t) :
  resetPasswordSchema reqBody = inr body ->
  tokenByHash (hashToken (ResetInput.token body)) (core d) = Some t ->
  EmailToken.usedAt t = None ->
  rp_now draw <= EmailToken.expiresAt t ->
  EmailToken.type t = RESET_PASSWORD ->
  reset_password reqBody draw d =
  if existsb (fun h => comparePassword (ResetInput.newPassword body)
                         (PasswordHistory.passwordHash h))
       (recentPasswords (EmailToken.userId t) d)
  then (reply 400
          (Plain (BError (Text "Cannot reuse any of your last 5 passwords"))),
        d)
  else
    match userById (EmailToken.userId t) (core d) with
    | None => (reply 500 (Plain (BError (Text "Internal server error"))), d)
    | Some _ =>
        if existsb (fun h => jsstring_eqb (PasswordHistory.id h)
                               (rp_historyId draw)) (passwordHistory d)
        then (reply 500 (Plain (BError (Text "Internal server error"))), d)
        else (reply 200 (Plain (BMessage "Password reset successfully")),
              afterReset t draw d)
    end.
Proof.
  intros Hschema Htoken Hused Hexp Htype.
  pose proof (resetPasswordSchema_inv _ _ Hschema) as Hvalid.
  destruct d as [c ph]. unfold tokenByHash in Htoken.
  cbn [core] in Htoken.
  unfold reset_password, endpoint, reset_password_body.
  unfold andThen at 1. unfold parsed. rewrite Hschema. cbn beta iota.
  unfold andThen at 1. unfold awaited at 1. unfold onStore at 1.
  unfold Prisma.emailToken_findUnique. cbn [core]. rewrite Htoken.
  cbn beta iota.
  rewrite Hused, Htype. cbn [isSome EmailTokenType_eqb negb].
  apply Z.ltb_ge in Hexp. rewrite Hexp, Hvalid. cbn [negb].
  unfold andThen at 1. unfold awaited at 1.
  unfold PrismaMore.passwordHistory_findMany.
  cbn beta iota. cbn [core passwordHistory].
  unfold recentPasswords. cbn [passwordHistory].
  rewrite checkHistory_run.
  destruct (existsb _ (firstn 5 _)); [reflexivity |].
  unfold andThen, awaited, PrismaMore.dbTransaction, PrismaMore.dbBatch,
    PrismaMore.dbVoid, onStore, PrismaMore.user_updatePassword,
    PrismaMore.passwordHistory_create, Prisma.emailToken_update, done,
    userById.
  cbn [core passwordHistory].
  destruct (find _ (users c)) as [u |]; [| reflexivity].
  cbn [core passwordHistory PasswordHistory.id].
  destruct (existsb _ ph); [reflexivity |].
  cbn [core passwordHistory emailTokens set_users].
  destruct (find_some _ _ Htoken) as [Hin _].
  destruct (find_exists
              (fun x => jsstring_eqb (EmailToken.id x) (EmailToken.id t))
              _ t Hin (jsstring_eqb_refl _)) as [t' Hid].
  rewrite Hid. reflexivity.
Qed.

(** X22. A password reset whose token is found, unused, unexpired and of
    type RESET_PASSWORD is refused with 400 [Cannot reuse any of your last
    5 passwords], nothing written, exactly when the new password matches
    one of the five most recent rows of the user's password history; a
    match with an older row does not count. Otherwise (the user row being
    there and the key of the new history row new) it is answered 200, the
    user's hash is replaced, a history row is added and the token is
    marked used. *)
Theorem reset_password_reuse (reqBody : JsObject) (draw : ResetDraw)
  (d : Database) (body : ResetInput.t) (t : EmailToken.t) (u : User.t) :
  resetPasswordSchema reqBody = inr body ->
  tokenByHash (hashToken (ResetInput.token body)) (core d) = Some t ->
  EmailToken.usedAt t = None ->
  rp_now draw <= EmailToken.expiresAt t ->
  EmailToken.type t = RESET_PASSWORD ->
  let matches := fun h =>
    comparePassword (ResetInput.newPassword body)
      (PasswordHistory.passwordHash h) = true in
  (Exists matches (recentPasswords (EmailToken.userId t) d) ->
   reset_password reqBody draw d
   = (reply 400
        (Plain (BError (Text "Cannot reuse any of your last 5 passwords"))),
      d))
  /\ (~ Exists matches (recentPasswords (EmailToken.userId t) d) ->
      userById (EmailToken.userId t) (core d) = Some u ->
      existsb (fun h => jsstring_eqb (PasswordHistory.id h) (rp_historyId draw))
        (passwordHistory d) = false ->
      reset_password reqBody draw d
      = (reply 200 (Plain (BMessage "Password reset successfully")),
         afterReset t draw d)
      /\ option_map User.passwordHash
           (userById (EmailToken.userId t) (core (afterReset t draw d)))
         = Some (rp_passwordHash draw)
      /\ option_map EmailToken.usedAt
           (tokenByHash (hashToken (ResetInput.token body))
              (core (afterReset t draw d)))
         = Some (Some (rp_usedNow draw))
      /\ List.length (passwordHistory (afterReset t draw d))
         = S (List.length (passwordHistory d))).
Proof.
  intros Hschema Htoken Hused Hexp Htype matches.
  rewrite (reset_password_run _ _ _ _ _ Hschema Htoken Hused Hexp Htype).
  split.
  - intros Hex. apply Exists_exists in Hex. destruct Hex as [h [Hin Hm]].
    assert (Hb : existsb (fun h => comparePassword (ResetInput.newPassword body)
                                     (PasswordHistory.passwordHash h))
                   (recentPasswords (EmailToken.userId t) d) = true)
      by (apply existsb_exists; exists h; auto).
    rewrite Hb. reflexivity.
  - intros Hno Hu Hfresh.
    assert (Hb : existsb (fun h => comparePassword (ResetInput.newPassword body)
                                     (PasswordHistory.passwordHash h))
                   (recentPasswords (EmailToken.userId t) d) = false).
    { apply Bool.not_true_is_false. intros Hb. apply Hno.
      apply Exists_exists. apply existsb_exists in Hb. exact Hb. }
    rewrite Hb, Hu, Hfresh. split; [reflexivity |].
    unfold afterReset, userById, tokenByHash in *.
    cbn [core passwordHistory users emailTokens set_users set_emailTokens].
    rewrite !find_updateWhere by reflexivity. rewrite Hu, Htoken.
    cbn [option_map]. destruct (find_some _ _ Hu) as [_ Hid]. rewrite Hid.
    rewrite jsstring_eqb_refl. split; [reflexivity |]. split; [reflexivity |].
    rewrite length_app. simpl. lia.
Qed.





End ResetFacts.

(** ** What the steps of a route keep *)

Section KeptFacts.
Variable R : Database -> Database -> Prop.
Hypothesis R_refl : forall d, R d d.
Hypothesis R_trans : forall a b c, R a b -> R b c -> R a c.

Lemma keeps_done {A} (a : A) : keeps R (done a).
Proof. intros d. apply R_refl. Qed.

Lemma keeps_send {A} (c : Z) (b : Content) : keeps R (send (A := A) c b).
Proof. intros d. apply R_refl. Qed.

Lemma keeps_parsed {A} (z : ZodResult A) : keeps R (parsed z).
Proof. intros d. unfold parsed. destruct z; apply R_refl. Qed.

Lemma keeps_awaited {A} (q : DbQuery A) : queryKeeps R q -> keeps R (awaited q).
Proof.
  intros Hq d. unfold awaited.
  destruct (q d) as [e | [a d']] eqn:Hqd; [apply R_refl |].
  exact (Hq _ _ _ Hqd).
Qed.

Lemma keeps_andThen {A B} (m : Action A) (k : A -> Action B) :
  keeps R m -> (forall a, keeps R (k a)) -> keeps R (andThen m k).
Proof.
  intros Hm Hk d. unfold andThen. specialize (Hm d).
  destruct (m d) as [[a | r | e] d1]; cbn [snd] in *; [| exact Hm | exact Hm].
  exact (R_trans _ _ _ Hm (Hk a d1)).
Qed.

Lemma keeps_endpoint (h : Action Reply) (d : Database) :
  keeps R h -> R d (snd (endpoint h d)).
Proof.
  intros Hh. unfold endpoint. specialize (Hh d).
  destruct (h d) as [[r | r | [m | c]] d1]; exact Hh.
Qed.

Lemma keeps_endpoint500 (h : Action Reply) (d : Database) :
  keeps R h -> R d (snd (endpoint500 h d)).
Proof.
  intros Hh. unfold endpoint500. specialize (Hh d).
  destruct (h d) as [[r | r | e] d1]; exact Hh.
Qed.

Lemma queryKeeps_dbVoid {A} (q : DbQuery A) :
  queryKeeps R q -> queryKeeps R (PrismaMore.dbVoid q).
Proof.
  intros Hq d a d'. unfold PrismaMore.dbVoid.
  destruct (q d) as [e | [x d1]] eqn:Hqd; [discriminate |].
  intros H. injection H as _ <-. exact (Hq _ _ _ Hqd).
Qed.

Lemma queryKeeps_dbTransaction (qs : list (DbQuery unit)) :
  Forall (queryKeeps R) qs -> queryKeeps R (PrismaMore.dbTransaction qs).
Proof.
  intros Hqs d a d'. unfold PrismaMore.dbTransaction.
  destruct (PrismaMore.dbBatch qs d) as [e | d1] eqn:Hb; [discriminate |].
  intros H. injection H as _ <-.
  revert d Hb. induction Hqs as [| q rest Hq _ IH]; intros d Hb.
  - simpl in Hb. injection Hb as <-. apply R_refl.
  - simpl in Hb. destruct (q d) as [e | [x d2]] eqn:Hqd; [discriminate |].
    exact (R_trans _ _ _ (Hq _ _ _ Hqd) (IH _ Hb)).
Qed.

Lemma keeps_checkHistory {E : Externals} (newPassword : jsstring)
  (history : list PasswordHistory.t) (next : Action Reply) :
  keeps R next -> keeps R (checkHistory newPassword history next).
Proof.
  intros Hn. induction history as [| h rest IH]; simpl; [exact Hn |].
  destruct (comparePassword newPassword (PasswordHistory.passwordHash h));
    [apply keeps_send | exact IH].
Qed.

End KeptFacts.

Ltac keeps_step Hrefl Htrans :=
  lazymatch goal with
  | |- keeps _ (andThen _ _) =>
      apply (keeps_andThen _ Htrans); [| intros ?]
  | |- keeps _ (done _) => apply (keeps_done _ Hrefl)
  | |- keeps _ (send _ _) => apply (keeps_send _ Hrefl)
  | |- keeps _ (parsed _) => apply (keeps_parsed _ Hrefl)
  | |- keeps _ (awaited _) => apply (keeps_awaited _ Hrefl)
  | |- keeps _ (checkHistory _ _ _) =>
      apply (keeps_checkHistory _ Hrefl)
  | |- keeps _ (match ?x with _ => _ end) => destruct x
  end.

(** ** The password history only grows *)

Section HistoryFacts.
Context {E : Externals} {V : Verifier}.

Lemma historyExtends_refl (d : Database) : historyExtends d d.
Proof. exists []. symmetry. apply app_nil_r. Qed.

Lemma historyExtends_same (d d' : Database) :
  passwordHistory d' = passwordHistory d -> historyExtends d d'.
Proof. intros H. exists []. rewrite H. symmetry. apply app_nil_r. Qed.

Lemma historyExtends_trans (a b c : Database) :
  historyExtends a b -> historyExtends b c -> historyExtends a c.
Proof.
  intros [x Hx] [y Hy]. exists (x ++ y). rewrite Hy, Hx. symmetry. apply app_assoc.
Qed.

Lemma onStore_history {A} (q : Query A) : queryKeeps historyExtends (onStore q).
Proof.
  intros d a d'. unfold onStore.
  destruct (q (core d)) as [e | [x c]]; [discriminate |].
  intros H. injection H as _ <-. apply historyExtends_same. reflexivity.
Qed.

Lemma passwordHistory_create_history (row : PasswordHistory.t) :
  queryKeeps historyExtends (PrismaMore.passwordHistory_create row).
Proof.
  intros d a d'. unfold PrismaMore.passwordHistory_create.
  destruct (existsb _ _); [discriminate |].
  intros H. injection H as _ <-. exists [row]. reflexivity.
Qed.

Lemma passwordHistory_findMany_history (userId : jsstring) (take : nat) :
  queryKeeps historyExtends (PrismaMore.passwordHistory_findMany userId take).
Proof.
  intros d a d'. unfold PrismaMore.passwordHistory_findMany.
  intros H. injection H as _ <-. apply historyExtends_refl.
Qed.

Lemma mailed_history (h : Handler unit) : keeps historyExtends (mailed h).
Proof.
  intros d. unfold mailed.
  destruct (h (core d)) as [[a | r | e] c]; apply historyExtends_same;
    reflexivity.
Qed.

Ltac history_step :=
  first
    [ keeps_step historyExtends_refl historyExtends_trans
    | apply onStore_history
    | apply passwordHistory_create_history
    | apply passwordHistory_findMany_history
    | apply mailed_history
    | apply (queryKeeps_dbVoid historyExtends)
    | apply (queryKeeps_dbTransaction historyExtends
               historyExtends_refl historyExtends_trans)
    | apply Forall_cons
    | apply Forall_nil ].

Lemma dbServe_history (r : DbRequest) (d : Database) :
  historyExtends d (dbServe r d).
Proof.
  destruct r; cbn [dbServe].
  - apply historyExtends_same. reflexivity.
  - apply (keeps_endpoint historyExtends). unfold signup_body.
    repeat history_step.
  - apply (keeps_endpoint historyExtends). unfold reset_password_body.
    repeat history_step.
  - apply (keeps_endpoint historyExtends). unfold refresh_body.
    repeat history_step.
  - apply (keeps_endpoint historyExtends). unfold logout_body.
    repeat history_step.
  - apply (keeps_endpoint500 historyExtends). unfold get_me_body.
    repeat history_step.
  - apply (keeps_endpoint historyExtends). unfold patch_me_body.
    repeat history_step.
  - unfold dev_unblock. destruct nodeEnv as [env |];
      [destruct (jsstring_eqb env (js "development")) |];
      try apply historyExtends_refl.
    apply (keeps_endpoint500 historyExtends). repeat history_step.
Qed.

(** X23. No modelled route rewrites or removes a row of the password
    history: after any sequence of requests the table is the one before
    with rows added at its end. *)
Theorem password_history_append_only (rs : list DbRequest) (d : Database) :
  exists added,
    passwordHistory (dbServeAll rs d) = passwordHistory d ++ added.
Proof.
  change (historyExtends d (dbServeAll rs d)).
  unfold dbServeAll. revert d.
  induction rs as [| r rest IH]; intros d; cbn [fold_left].
  - apply historyExtends_refl.
  - exact (historyExtends_trans _ _ _ (dbServe_history r d) (IH _)).
Qed.

End HistoryFacts.

(** ** What a password reset leaves alone *)

Section ResetFrame.
Context {E : Externals}.

Lemma sameButPasswords_refl (d : Database) : sameButPasswords d d.
Proof. repeat split. Qed.

Lemma sameButPasswords_trans (a b c : Database) :
  sameButPasswords a b -> sameButPasswords b c -> sameButPasswords a c.
Proof.
  intros [H1 [H2 [H3 H4]]] [K1 [K2 [K3 K4]]].
  repeat split; etransitivity; eassumption.
Qed.

Lemma user_updatePassword_frame (id passwordHash : jsstring) :
  queryKeeps sameButPasswords
    (onStore (PrismaMore.user_updatePassword id passwordHash)).
Proof.
  intros d a d'. unfold onStore, PrismaMore.user_updatePassword.
  destruct (find _ (users (core d))); [| discriminate].
  intros H. injection H as _ <-.
  repeat split. cbn [core users set_users].
  apply map_updateWhere. reflexivity.
Qed.

Lemma emailToken_update_frame (id : jsstring) (usedAt : Z) :
  queryKeeps sameButPasswords (onStore (Prisma.emailToken_update id usedAt)).
Proof.
  intros d a d'. unfold onStore, Prisma.emailToken_update.
  destruct (find _ (emailTokens (core d))); [| discriminate].
  intros H. injection H as _ <-. repeat split.
Qed.

Lemma emailToken_findUnique_frame (tokenHash : jsstring) :
  queryKeeps sameButPasswords (onStore (Prisma.emailToken_findUnique tokenHash)).
Proof.
  intros d a d'. unfold onStore, Prisma.emailToken_findUnique.
  intros H. injection H as _ <-. repeat split.
Qed.

Lemma passwordHistory_create_frame (row : PasswordHistory.t) :
  queryKeeps sameButPasswords (PrismaMore.passwordHistory_create row).
Proof.
  intros d a d'. unfold PrismaMore.passwordHistory_create.
  destruct (existsb _ _); [discriminate |].
  intros H. injection H as _ <-. repeat split.
Qed.

Lemma passwordHistory_findMany_frame (userId : jsstring) (take : nat) :
  queryKeeps sameButPasswords
    (PrismaMore.passwordHistory_findMany userId take).
Proof.
  intros d a d'. unfold PrismaMore.passwordHistory_findMany.
  intros H. injection H as _ <-. repeat split.
Qed.

Ltac frame_step :=
  first
    [ keeps_step sameButPasswords_refl sameButPasswords_trans
    | apply user_updatePassword_frame
    | apply emailToken_update_frame
    | apply emailToken_findUnique_frame
    | apply passwordHistory_create_frame
    | apply passwordHistory_findMany_frame
    | apply (queryKeeps_dbVoid sameButPasswords)
    | apply (queryKeeps_dbTransaction sameButPasswords
               sameButPasswords_refl sameButPasswords_trans)
    | apply Forall_cons
    | apply Forall_nil ].

(** X24. Whatever the request, POST /auth/reset-password leaves every
    user row as it was apart from its password hash: in particular the
    status and the failed-login counter, so a reset does not unblock a
    blocked account. It leaves the refresh tokens as they were as well:
    the sessions opened with the old password stay good. *)
Theorem reset_password_frame (reqBody : JsObject) (draw : ResetDraw)
  (d : Database) :
  let d' := snd (reset_password reqBody draw d) in
  map withoutHash (users (core d')) = map withoutHash (users (core d))
  /\ refreshTokens (core d') = refreshTokens (core d)
  /\ activities (core d') = activities (core d)
  /\ outbox (core d') = outbox (core d).
Proof.
  change (sameButPasswords d (snd (reset_password reqBody draw d))).
  apply (keeps_endpoint sameButPasswords). unfold reset_password_body.
  repeat frame_step.
Qed.

End ResetFrame.

(** ** After a password reset *)

Section AfterReset.
Context {E : Externals}.

(** X25. A token that has reset a password resets none again: the same
    token sent once more, whatever the new password, is answered 400
    [Token already used] and nothing is written. *)
Theorem reset_password_single_use (reqBody reqBody2 : JsObject)
  (draw draw2 : ResetDraw) (d : Database) (body body2 : ResetInput.t)
  (t : EmailToken.t) (u : User.t) :
  resetPasswordSchema reqBody = inr body ->
  tokenByHash (hashToken (ResetInput.token body)) (core d) = Some t ->
  EmailToken.usedAt t = None ->
  rp_now draw <= EmailToken.expiresAt t ->
  EmailToken.type t = RESET_PASSWORD ->
  userById (EmailToken.userId t) (core d) = Some u ->
  existsb (fun h => jsstring_eqb (PasswordHistory.id h) (rp_historyId draw))
    (passwordHistory d) = false ->
  existsb (fun h => comparePassword (ResetInput.newPassword body)
                      (PasswordHistory.passwordHash h))
    (recentPasswords (EmailToken.userId t) d) = false ->
  resetPasswordSchema reqBody2 = inr body2 ->
  ResetInput.token body2 = ResetInput.token body ->
  let d' := snd (reset_password reqBody draw d) in
  fst (reset_password reqBody draw d)
  = reply 200 (Plain (BMessage "Password reset successfully"))
  /\ reset_password reqBody2 draw2 d'
     = (reply 400 (Plain (BError (Text "Token already used"))), d').
Proof.
  intros Hschema Htoken Hused Hexp Htype Hu Hfresh Hnew Hschema2 Hsame d'.
  subst d'.
  rewrite (reset_password_run _ _ _ _ _ Hschema Htoken Hused Hexp Htype).
  rewrite Hnew, Hu, Hfresh. cbn [fst snd]. split; [reflexivity |].
  unfold reset_password, endpoint, reset_password_body.
  unfold andThen at 1. unfold parsed. rewrite Hschema2. cbn beta iota.
  unfold andThen at 1. unfold awaited at 1. unfold onStore at 1.
  unfold Prisma.emailToken_findUnique, afterReset. rewrite Hsame.
  cbn [core emailTokens set_emailTokens].
  unfold tokenByHash in Htoken.
  rewrite find_updateWhere by reflexivity. rewrite Htoken.
  cbn [option_map]. rewrite jsstring_eqb_refl. reflexivity.
Qed.

(** X26. A token of type CONFIRM_EMAIL, though found, unused and
    unexpired, resets no password: the request is answered 400 [Invalid
    token type] and nothing is written. *)
Theorem confirm_token_cannot_reset (reqBody : JsObject) (draw : ResetDraw)
  (d : Database) (body : ResetInput.t) (t : EmailToken.t) :
  resetPasswordSchema reqBody = inr body ->
  tokenByHash (hashToken (ResetInput.token body)) (core d) = Some t ->
  EmailToken.usedAt t = None ->
  rp_now draw <= EmailToken.expiresAt t ->
  EmailToken.type t = CONFIRM_EMAIL ->
  reset_password reqBody draw d
  = (reply 400 (Plain (BError (Text "Invalid token type"))), d).
Proof.
  intros Hschema Htoken Hused Hexp Htype.
  unfold tokenByHash in Htoken.
  unfold reset_password, endpoint, reset_password_body.
  unfold andThen at 1. unfold parsed. rewrite Hschema. cbn beta iota.
  unfold andThen at 1. unfold awaited at 1. unfold onStore at 1.
  unfold Prisma.emailToken_findUnique. rewrite Htoken. cbn beta iota.
  rewrite Hused, Htype. apply Z.ltb_ge in Hexp. rewrite Hexp.
  destruct d; reflexivity.
Qed.

End AfterReset.

(** ** From a forgotten password to the next login *)

Section RecoveryFacts.
Context {E : Externals}.

(** The account a reset token belongs to, after the reset went through. *)
Lemma afterReset_account (t : EmailToken.t) (draw : ResetDraw) (d : Database)
  (email : jsstring) (u : User.t) :
  userByEmail email (core d) = Some u ->
  User.id u = EmailToken.userId t ->
  userByEmail email (core (afterReset t draw d))
  = Some (PrismaMore.setPasswordHash (rp_passwordHash draw) u).
Proof.
  intros Hu Hid. unfold userByEmail, afterReset in *.
  cbn [core users set_users set_emailTokens].
  rewrite find_updateWhere by reflexivity. rewrite Hu. cbn [option_map].
  rewrite Hid, jsstring_eqb_refl. reflexivity.
Qed.

(** X27. Reset-password does not look at the status of the account, and
    it changes none: after a reset that went through, a login for an
    account that was BLOCKED or WAITING_EMAIL_CONFIRMATION is still
    refused with 403, new password or not. For an account of another
    status, a login with a password that matches the new hash is answered
    200 (the refresh token it draws being new), and a login with a
    password that does not match it is refused like any wrong password:
    403 when the count of failures, one the INTEGER column holds, reaches
    ten, else 401 with the attempts remaining. *)
Theorem reset_password_then_login (reqBody loginBody : JsObject)
  (draw : ResetDraw) (d : Database) (body : ResetInput.t) (t : EmailToken.t)
  (u : User.t) (input : LoginInput.t) (clock : nat -> Z) (newId : jsstring) :
  resetPasswordSchema reqBody = inr body ->
  tokenByHash (hashToken (ResetInput.token body)) (core d) = Some t ->
  EmailToken.usedAt t = None ->
  rp_now draw <= EmailToken.expiresAt t ->
  EmailToken.type t = RESET_PASSWORD ->
  existsb (fun h => jsstring_eqb (PasswordHistory.id h) (rp_historyId draw))
    (passwordHistory d) = false ->
  existsb (fun h => comparePassword (ResetInput.newPassword body)
                      (PasswordHistory.passwordHash h))
    (recentPasswords (EmailToken.userId t) d) = false ->
  loginSchema loginBody = inr input ->
  userByEmail (LoginInput.email input) (core d) = Some u ->
  User.id u = EmailToken.userId t ->
  let d' := snd (reset_password reqBody draw d) in
  let answer := fst (login loginBody clock newId (core d')) in
  let count := User.failedLoginAttempts u + 1 in
  fst (reset_password reqBody draw d)
  = reply 200 (Plain (BMessage "Password reset successfully"))
  /\ (User.status u = BLOCKED ->
      answer
      = json 403
          (BError (Text "Account is blocked due to too many failed login attempts")))
  /\ (User.status u = WAITING_EMAIL_CONFIRMATION ->
      answer
      = json 403 (BError (Text "Please confirm your email before logging in")))
  /\ (User.status u <> BLOCKED ->
      User.status u <> WAITING_EMAIL_CONFIRMATION ->
      comparePassword (LoginInput.password input) (rp_passwordHash draw) = true ->
      existsb (fun r => jsstring_eqb (RefreshToken.id r) newId
                        || jsstring_eqb (RefreshToken.tokenHash r)
                             (hashToken
                                (generateRefreshToken
                                   (JWT.Build_Payload (User.id u) (User.email u))
                                   (clock 2%nat))))
        (refreshTokens (core d)) = false ->
      statusCode answer = 200)
  /\ (User.status u <> BLOCKED ->
      User.status u <> WAITING_EMAIL_CONFIRMATION ->
      comparePassword (LoginInput.password input) (rp_passwordHash draw) = false ->
      Postgres.int4 count = true ->
      answer
      = if count >=? 10
        then json 403
               (BError (Text "Account blocked due to too many failed login attempts"))
        else json 401
               (BErrorRemaining (Text "Invalid credentials") (10 - count))).
Proof.
  intros Hschema Htoken Hused Hexp Htype Hfresh Hnew Hlogin Hu Hid
    d' answer count.
  assert (Hrow : exists u0, userById (EmailToken.userId t) (core d) = Some u0).
  { rewrite <- Hid. exact (own_row_by_id _ _ _ Hu). }
  destruct Hrow as [u0 Hu0].
  assert (Hd' : d' = afterReset t draw d).
  { subst d'.
    rewrite (reset_password_run _ _ _ _ _ Hschema Htoken Hused Hexp Htype).
    rewrite Hnew, Hu0, Hfresh. reflexivity. }
  split.
  { rewrite (reset_password_run _ _ _ _ _ Hschema Htoken Hused Hexp Htype).
    rewrite Hnew, Hu0, Hfresh. reflexivity. }
  pose proof (afterReset_account t draw d _ _ Hu Hid) as Hu'.
  rewrite <- Hd' in Hu'. subst answer.
  split; [| split; [| split]].
  - intros Hblocked.
    rewrite (login_blocked _ _ _ _ _ _ Hlogin Hu'); [reflexivity |].
    exact Hblocked.
  - intros Hwaiting.
    rewrite (login_unconfirmed _ _ _ _ _ _ Hlogin Hu'); [reflexivity |].
    exact Hwaiting.
  - intros Hnb Hwait Hpw Hrefresh.
    destruct (login_accepts loginBody clock newId (core d') input _
                Hlogin Hu' Hnb Hwait Hpw) as [s' [Hrun _]].
    + rewrite Hd'. exact Hrefresh.
    + rewrite Hrun. reflexivity.
  - intros Hnb Hwait Hpw Hfits.
    destruct (login_wrong_password loginBody clock newId (core d') input _
                Hlogin Hu' Hnb Hwait Hpw) as [s' [Hrun _]].
    rewrite Hrun. reflexivity.
Qed.

(** X28. The token forgot-password mails resets the password of the
    account it was asked for, while its hour lasts: sent to
    reset-password with an acceptable new password no later than an hour
    after the request, it is answered 200 and the account's hash is the
    new one; sent later it is answered 400 [Token expired] and nothing is
    written. *)
Theorem forgot_then_reset (forgotBody resetBody : JsObject) (email : jsstring)
  (now : Z) (token newId : jsstring) (draw : ResetDraw) (d : Database)
  (u : User.t) (body : ResetInput.t) :
  forgotBody "email"%string = JStr email -> zodEmail email = true ->
  userByEmail email (core d) = Some u ->
  existsb (fun t => jsstring_eqb (EmailToken.id t) newId
                    || jsstring_eqb (EmailToken.tokenHash t) (hashToken token))
    (emailTokens (core d)) = false ->
  resetPasswordSchema resetBody = inr body ->
  ResetInput.token body = token ->
  existsb (fun h => jsstring_eqb (PasswordHistory.id h) (rp_historyId draw))
    (passwordHistory d) = false ->
  existsb (fun h => comparePassword (ResetInput.newPassword body)
                      (PasswordHistory.passwordHash h))
    (recentPasswords (User.id u) d) = false ->
  let d1 := mkDatabase
              (snd (forgot_password forgotBody now token newId (core d)))
              (passwordHistory d) in
  let r := reset_password resetBody draw d1 in
  (rp_now draw <= now + 60 * 60 * 1000 ->
   fst r = reply 200 (Plain (BMessage "Password reset successfully"))
   /\ option_map User.passwordHash (userByEmail email (core (snd r)))
      = Some (rp_passwordHash draw))
  /\ (now + 60 * 60 * 1000 < rp_now draw ->
      r = (reply 400 (Plain (BError (Text "Token expired"))), d1)).
Proof.
  intros Hb He Hu Hfresh Hschema Htok Hhist Hnew d1 r.
  set (row := EmailToken.mk newId (User.id u) RESET_PASSWORD (hashToken token)
                (now + 60 * 60 * 1000) None).
  assert (Hd1 : emailTokens (core d1) = emailTokens (core d) ++ [row]
                /\ users (core d1) = users (core d)
                /\ passwordHistory d1 = passwordHistory d).
  { subst d1. cbn [core passwordHistory].
    unfold userByEmail in Hu.
    unfold forgot_password, route, forgot_password_body, bind, parse, await,
      forgotPasswordSchema, zEmail, zbind, zString, zFormat,
      Prisma.user_findUnique, Prisma.emailToken_create, sendPasswordReset,
      sendEmail, respond, ret.
    rewrite Hb, He, Hu. simpl. rewrite Hfresh. simpl. repeat split. }
  destruct Hd1 as [Htokens [Husers Hhistory]].
  assert (Hfound : tokenByHash (hashToken (ResetInput.token body)) (core d1)
                   = Some row).
  { unfold tokenByHash. rewrite Htokens, Htok, find_app_new.
    - subst row. cbn [EmailToken.tokenHash]. rewrite jsstring_eqb_refl.
      reflexivity.
    - revert Hfresh. apply existsb_weaken. intros x ->. apply orb_true_r. }
  assert (Hrecent : recentPasswords (User.id u) d1 = recentPasswords (User.id u) d)
    by (unfold recentPasswords; rewrite Hhistory; reflexivity).
  assert (Hu1 : userByEmail email (core d1) = Some u)
    by (unfold userByEmail in *; rewrite Husers; exact Hu).
  split.
  - intros Hintime.
    destruct (own_row_by_id _ _ _ Hu1) as [u0 Hu0].
    assert (Hrun : r = (reply 200 (Plain (BMessage "Password reset successfully")),
                        afterReset row draw d1)).
    { subst r.
      rewrite (reset_password_run _ _ _ _ row Hschema Hfound eq_refl Hintime
                 eq_refl).
      cbn [EmailToken.userId row]. rewrite Hrecent, Hnew, Hu0, Hhistory, Hhist.
      reflexivity. }
    rewrite Hrun. cbn [fst snd]. split; [reflexivity |].
    rewrite (afterReset_account row draw d1 email u Hu1 eq_refl).
    reflexivity.
  - intros Hlate. subst r.
    unfold tokenByHash in Hfound.
    unfold reset_password, endpoint, reset_password_body.
    unfold andThen at 1. unfold parsed. rewrite Hschema. cbn beta iota.
    unfold andThen at 1. unfold awaited at 1. unfold onStore at 1.
    unfold Prisma.emailToken_findUnique. rewrite Hfound. cbn beta iota.
    cbn [EmailToken.usedAt EmailToken.expiresAt row isSome].
    apply Z.ltb_lt in Hlate. rewrite Hlate.
    destruct d1; reflexivity.
Qed.

End RecoveryFacts.

(** ** The properties on the sample data *)

Ltac nonempty := let H := fresh in intro H; vm_compute in H; discriminate H.

Lemma get_activities_range_witness :
  exists listed,
    get_activities (E := Sample.externals) (js "u1")
      SampleRequests.januaryQuery Sample.store
    = (json 200 (BActivities listed (computeStats listed)), Sample.store)
    /\ In Sample.gym listed.
Proof.
  destruct (get_activities_range (E := Sample.externals) (js "u1")
              SampleRequests.januaryQuery Sample.store
              (ListQuery.mk None (Some (js "2024-01-01T00:00:00Z"))
                 (Some (js "2024-01-03T00:00:00Z")))
              (js "2024-01-01T00:00:00Z") (js "2024-01-03T00:00:00Z")
              1704067200000 1704240000000
              eq_refl eq_refl ltac:(nonempty) eq_refl ltac:(nonempty)
              eq_refl eq_refl)
    as [listed [Hrun [Hin _]]].
  exists listed. split; [exact Hrun |].
  apply Hin. split; [right; right; left; reflexivity |].
  split; [reflexivity |]. split; [left; reflexivity |].
  exists 1704153600000. split; [left; reflexivity | lia].
Defined.

Lemma serveAll_wellFormed_witness :
  Forall wellFormed
    (activities
       (serveAll (E := Sample.externals)
          [MutateActivity SoftDelete (js "u1") (js "a3")
             (obj [("reason"%string, JStr (js "cancelled"))]) Sample.now;
           MutateActivity Patch (js "u1") (js "a1") SampleRequests.moveGym
             Sample.now]
          Sample.store)).
Proof.
  apply serveAll_wellFormed.
  repeat constructor; simpl; try discriminate; intros H; discriminate H.
Defined.

Lemma patch_activity_empty_witness :
  snd (patch_activity (E := Sample.externals) (js "u1") (js "a3")
         (obj [("color"%string, JStr (js "red"))]) Sample.now Sample.store)
  = Sample.store.
Proof.
  exact (proj2 (patch_activity_empty (E := Sample.externals) (js "u1")
                  (js "a3") (obj [("color"%string, JStr (js "red"))])
                  Sample.now Sample.store Sample.gym
                  eq_refl eq_refl eq_refl eq_refl)).
Defined.

Lemma patch_activity_reschedule_witness :
  option_map (fun a => (Activity.title a, Activity.scheduledAt a))
    (ownActivity (js "u1") (js "a3")
       (snd (patch_activity (E := Sample.externals) (js "u1") (js "a3")
               SampleRequests.moveAndRenameGym Sample.now Sample.store)))
  = Some (Some (js "Gym at noon"), Some 1704326400000).
Proof.
  destruct (proj2 (patch_activity_reschedule (E := Sample.externals)
                     (js "u1") (js "a3") SampleRequests.moveAndRenameGym
                     Sample.now Sample.store Sample.gym
                     (UpdateInput.mk (Some (js "Gym at noon")) None
                        (Some (js "2024-01-04T00:00:00Z")))
                     (js "2024-01-04T00:00:00Z") 1704326400000
                     eq_refl eq_refl eq_refl ltac:(nonempty) eq_refl)
              ltac:(unfold Sample.now; lia) eq_refl eq_refl)
    as [_ Hown].
  rewrite Hown. reflexivity.
Defined.

Lemma login_tells_registered_witness :
  login (E := Sample.externals) SampleRequests.strangerLogin
    (fun _ => Sample.now) (js "r2") Sample.store
  = (json 401 (BError (Text "Invalid credentials")), Sample.store).
Proof.
  exact (proj1 (login_tells_registered (E := Sample.externals)
                  SampleRequests.aliceLogin SampleRequests.strangerLogin
                  (fun _ => Sample.now) (fun _ => Sample.now)
                  (js "r1") (js "r2") Sample.store
                  (LoginInput.mk (js "alice@example.com") (js "Abc12345!"))
                  (LoginInput.mk (js "nobody@example.com") (js "Abc12345!"))
                  Sample.alice eq_refl eq_refl eq_refl eq_refl)).
Defined.

Lemma login_success_resets_witness :
  exists ok s',
    loginSeq (E := Sample.externals)
      (repeat badLogin 9 ++ SampleRequests.goodLogin :: repeat badLogin 9)
      Sample.store
    = (invalidCredentials 0 9 ++ ok :: invalidCredentials 0 9, s')
    /\ statusCode ok = 200
    /\ option_map User.status (userByEmail (js "alice@example.com") s')
       = Some ACTIVE.
Proof.
  assert (Hbad : wrongPassword (E := Sample.externals)
                   (js "alice@example.com") (User.passwordHash Sample.alice)
                   badLogin).
  { exists (LoginInput.mk (js "alice@example.com") (js "guess")).
    repeat split. }
  destruct (login_success_resets (E := Sample.externals)
              (js "alice@example.com") Sample.store Sample.alice
              (repeat badLogin 9) (repeat badLogin 9) SampleRequests.goodLogin
              (LoginInput.mk (js "alice@example.com") (js "Abc12345!"))
              eq_refl ltac:(discriminate) ltac:(discriminate)
              ltac:(repeat constructor; exact Hbad)
              ltac:(repeat constructor; exact Hbad)
              ltac:(simpl; lia) ltac:(simpl; lia)
              eq_refl eq_refl eq_refl eq_refl)
    as (ok & s' & Hseq & Hok & Hst & _).
  exists ok, s'. split; [exact Hseq | split; [exact Hok | exact Hst]].
Defined.

Lemma reset_token_cannot_confirm_witness :
  let s1 := snd (forgot_password (E := Sample.externals)
                   SampleRequests.aliceForgot Sample.now (js "tok-8") (js "t8")
                   Sample.store) in
  confirm_email (E := Sample.externals)
    (obj [("token"%string, JStr (js "tok-8"))]) Sample.now Sample.now s1
  = (json 400 (BError (Text "Invalid token type")), s1).
Proof.
  exact (reset_token_cannot_confirm (E := Sample.externals)
           SampleRequests.aliceForgot
           (obj [("token"%string, JStr (js "tok-8"))])
           (js "alice@example.com") (js "tok-8") (js "t8")
           Sample.now Sample.now Sample.now Sample.store Sample.alice
           eq_refl eq_refl eq_refl eq_refl eq_refl ltac:(nonempty)).
Defined.

Lemma logout_revokes_witness :
  fst (logout (E := Sample.externals) SampleRequests.aliceRefresh Sample.now
         SampleMore.database)
  = reply 200 (Plain (BMessage "Logged out successfully"))
  /\ code (fst (refresh (E := Sample.externals) (V := SampleMore.verifier)
                  SampleRequests.aliceRefresh Sample.now Sample.now
                  (snd (logout (E := Sample.externals)
                          SampleRequests.aliceRefresh Sample.now
                          SampleMore.database))))
     = 401.
Proof.
  destruct (logout_revokes (E := Sample.externals) (V := SampleMore.verifier)
              SampleRequests.aliceRefresh Sample.now SampleMore.database
              (js "refresh.u1") eq_refl)
    as (Hrun & _ & _ & _ & _ & _ & _ & _ & Hlater).
  split; [exact Hrun | exact (proj1 (Hlater Sample.now Sample.now))].
Defined.

Lemma login_then_refresh_witness :
  let d' := mkDatabase
              (snd (login (E := Sample.externals) SampleRequests.aliceLogin
                      (fun _ => Sample.now) (js "r1") Sample.store))
              [] in
  refresh (E := Sample.externals) (V := SampleMore.verifier)
    SampleRequests.aliceRefresh Sample.now Sample.now d'
  = (reply 200 (CAccessToken (js "access.u1")), d').
Proof.
  exact (login_then_refresh (E := Sample.externals) (V := SampleMore.verifier)
           SampleRequests.aliceLogin SampleRequests.aliceRefresh
           (fun _ => Sample.now) (js "r1") (mkDatabase Sample.store [])
           (LoginInput.mk (js "alice@example.com") (js "Abc12345!"))
           Sample.alice Sample.now Sample.now
           eq_refl eq_refl ltac:(discriminate) ltac:(discriminate) eq_refl
           eq_refl eq_refl eq_refl ltac:(nonempty)
           ltac:(unfold Sample.now; lia)).
Defined.


Lemma profile_of_missing_user_witness :
  get_me (js "u9") SampleMore.database
  = (reply 404 (Plain (BError (Text "User not found"))), SampleMore.database)
  /\ patch_me (js "u9") SampleRequests.rename
       SampleMore.database
     = (reply 500 (Plain (BError (Text "Internal server error"))),
        SampleMore.database).
Proof.
  exact (profile_of_missing_user (js "u9")
           SampleRequests.rename SampleMore.database
           (ProfileInput.mk (Some (js "Alice")) None) eq_refl eq_refl).
Defined.


Lemma signup_duplicate_witness :
  signup (E := Sample.externals) SampleRequests.aliceSignup
    SampleRequests.bobDraw SampleMore.database
  = (reply 400 (Plain (BError (Text "Email already registered"))),
     SampleMore.database).
Proof.
  exact (signup_duplicate (E := Sample.externals) SampleRequests.aliceSignup
           SampleRequests.bobDraw SampleMore.database
           (SignupInput.mk (js "alice@example.com") (js "Abc12345!") None None)
           Sample.alice eq_refl eq_refl).
Defined.


Lemma reset_password_reuse_witness :
  reset_password (E := Sample.externals) SampleRequests.resetToRecent
    SampleRequests.resetDraw SampleMore.database
  = (reply 400
       (Plain (BError (Text "Cannot reuse any of your last 5 passwords"))),
     SampleMore.database)
  /\ fst (reset_password (E := Sample.externals) SampleRequests.resetToOldest
            SampleRequests.resetDraw SampleMore.database)
     = reply 200 (Plain (BMessage "Password reset successfully")).
Proof.
  split.
  - apply (proj1 (reset_password_reuse (E := Sample.externals)
                    SampleRequests.resetToRecent SampleRequests.resetDraw
                    SampleMore.database
                    (ResetInput.mk (js "tok-5") (js "Pass-two2"))
                    SampleMore.resetToken Sample.alice
                    eq_refl eq_refl eq_refl
                    ltac:(simpl; unfold Sample.now; lia) eq_refl)).
    apply Exists_exists.
    exists (PasswordHistory.mk (js "h2") (js "u1") (js "$2b$12$Pass-two2")
              1703635200000).
    split; [| reflexivity].
    vm_compute. repeat (first [left; reflexivity | right]).
  - destruct (proj2 (reset_password_reuse (E := Sample.externals)
                       SampleRequests.resetToOldest SampleRequests.resetDraw
                       SampleMore.database
                       (ResetInput.mk (js "tok-5") (js "Pass-one1"))
                       SampleMore.resetToken Sample.alice
                       eq_refl eq_refl eq_refl
                       ltac:(simpl; unfold Sample.now; lia) eq_refl))
      as [Hrun _]; [| reflexivity | reflexivity | rewrite Hrun; reflexivity].
    intros Hex. apply Exists_exists in Hex. destruct Hex as [h [Hin Hm]].
    vm_compute in Hin.
    repeat (destruct Hin as [<- | Hin]; [vm_compute in Hm; discriminate Hm |]).
    exact Hin.
Defined.

Lemma reset_password_single_use_witness :
  let d' := snd (reset_password (E := Sample.externals)
                   SampleRequests.resetToOldest SampleRequests.resetDraw
                   SampleMore.database) in
  reset_password (E := Sample.externals) SampleRequests.resetToRecent
    SampleRequests.resetDraw d'
  = (reply 400 (Plain (BError (Text "Token already used"))), d').
Proof.
  exact (proj2 (reset_password_single_use (E := Sample.externals)
                  SampleRequests.resetToOldest SampleRequests.resetToRecent
                  SampleRequests.resetDraw SampleRequests.resetDraw
                  SampleMore.database
                  (ResetInput.mk (js "tok-5") (js "Pass-one1"))
                  (ResetInput.mk (js "tok-5") (js "Pass-two2"))
                  SampleMore.resetToken Sample.alice
                  eq_refl eq_refl eq_refl
                  ltac:(simpl; unfold Sample.now; lia)
                  eq_refl eq_refl eq_refl eq_refl eq_refl eq_refl)).
Defined.

Lemma confirm_token_cannot_reset_witness :
  reset_password (E := Sample.externals) SampleRequests.resetWithConfirmToken
    SampleRequests.resetDraw SampleMore.database
  = (reply 400 (Plain (BError (Text "Invalid token type"))),
     SampleMore.database).
Proof.
  exact (confirm_token_cannot_reset (E := Sample.externals)
           SampleRequests.resetWithConfirmToken SampleRequests.resetDraw
           SampleMore.database
           (ResetInput.mk (js "tok-1") (js "Pass-one1"))
           Sample.confirmToken eq_refl eq_refl eq_refl
           ltac:(simpl; unfold Sample.now; lia) eq_refl).
Defined.

Lemma reset_password_then_login_witness :
  statusCode
    (fst (login (E := Sample.externals) SampleRequests.aliceNewLogin
            (fun _ => Sample.now) (js "r1")
            (core (snd (reset_password (E := Sample.externals)
                          SampleRequests.resetToOldest SampleRequests.resetDraw
                          loggedOut)))))
  = 200
  /\ fst (login (E := Sample.externals) SampleRequests.aliceLogin
            (fun _ => Sample.now) (js "r1")
            (core (snd (reset_password (E := Sample.externals)
                          SampleRequests.resetToOldest SampleRequests.resetDraw
                          loggedOut))))
     = json 401 (BErrorRemaining (Text "Invalid credentials") 9).
Proof.
  split.
  - destruct (reset_password_then_login (E := Sample.externals)
                SampleRequests.resetToOldest SampleRequests.aliceNewLogin
                SampleRequests.resetDraw loggedOut
                (ResetInput.mk (js "tok-5") (js "Pass-one1"))
                SampleMore.resetToken Sample.alice
                (LoginInput.mk (js "alice@example.com") (js "Pass-one1"))
                (fun _ => Sample.now) (js "r1")
                eq_refl eq_refl eq_refl ltac:(simpl; unfold Sample.now; lia)
                eq_refl eq_refl eq_refl eq_refl eq_refl eq_refl)
      as (_ & _ & _ & Hnew & _).
    exact (Hnew ltac:(discriminate) ltac:(discriminate) eq_refl eq_refl).
  - destruct (reset_password_then_login (E := Sample.externals)
                SampleRequests.resetToOldest SampleRequests.aliceLogin
                SampleRequests.resetDraw loggedOut
                (ResetInput.mk (js "tok-5") (js "Pass-one1"))
                SampleMore.resetToken Sample.alice
                (LoginInput.mk (js "alice@example.com") (js "Abc12345!"))
                (fun _ => Sample.now) (js "r1")
                eq_refl eq_refl eq_refl ltac:(simpl; unfold Sample.now; lia)
                eq_refl eq_refl eq_refl eq_refl eq_refl eq_refl)
      as (_ & _ & _ & _ & Hold).
    exact (Hold ltac:(discriminate) ltac:(discriminate) eq_refl eq_refl).
Defined.

Lemma forgot_then_reset_witness :
  let d1 := mkDatabase
              (snd (forgot_password (E := Sample.externals)
                      SampleRequests.aliceForgot Sample.now (js "tok-8")
                      (js "t8") (core SampleMore.database)))
              (passwordHistory SampleMore.database) in
  fst (reset_password (E := Sample.externals) SampleRequests.resetAfterForgot
         SampleRequests.resetDraw d1)
  = reply 200 (Plain (BMessage "Password reset successfully")).
Proof.
  exact (proj1 (proj1 (forgot_then_reset (E := Sample.externals)
                         SampleRequests.aliceForgot
                         SampleRequests.resetAfterForgot
                         (js "alice@example.com") Sample.now (js "tok-8")
                         (js "t8") SampleRequests.resetDraw SampleMore.database
                         Sample.alice
                         (ResetInput.mk (js "tok-8") (js "Pass-one1"))
                         eq_refl eq_refl eq_refl eq_refl eq_refl eq_refl
                         eq_refl eq_refl)
                 ltac:(simpl; unfold Sample.now; lia))).
Defined.
